(** * Analise-Fotovoltaica: the morph / validate / consolidate pipeline

    A shallow embedding of [3-pipeline_morph_validate_sam.py] (monthly
    series construction, climatology and projection loading, the hourly
    morph, calendar validation, the SAM runner and the loops of [main])
    and of [4-consolida_sam_morph.py] (the consolidated result table),
    with the properties the design document states about them and
    further properties of the code.

    Numbers.  The scripts compute on numpy/pandas float64 columns.  A
    float is modelled by [pyfloat]: an exact canonical rational [Fin q],
    the two infinities and NaN.  The special values follow IEEE-754 as
    numpy applies it to arrays (division by zero yields an infinity or
    NaN and raises nothing; NaN is contagious and compares false with
    everything).  Finite arithmetic is exact: binary64 rounding,
    overflow and the sign of zero are not modelled, a zero divisor
    counts as +0.0.  Two places where rounding decides the outcome are
    modelled with it: [float_of_int], the conversion [float(x)] of a
    Python int, and module [B64], lines 543-549 of the morph on binary64
    itself.

    Effects.  Exceptions are values of [exn]; a computation of type
    [M A] threads the lines printed on standard output and ends in
    [Ok a] or [Raise e].  What the scripts read from disk (NetCDF
    archives, the spreadsheet, CSV files, directory listings) enters as
    the variables of the sections below. *)

From Stdlib Require Import ZArith QArith Qcanon List String Ascii Bool.
From Stdlib Require Import Lia Lqa Permutation Sorted DecimalString.
From Stdlib Require PrimFloat.
Import ListNotations.

Open Scope Z_scope.
Open Scope string_scope.

(* ================================================================= *)
(** ** Floats *)

Inductive pyfloat : Type :=
| Fin (q : Qc)
| PInf
| NInf
| NaN.

Definition qc (n : Z) (d : positive) : Qc := Q2Qc (n # d).

(** The float of an integer literal such as [900.0], and of a decimal
    literal [n/d]. *)
Definition Fz (n : Z) : pyfloat := Fin (qc n 1).
Definition Fq (n : Z) (d : positive) : pyfloat := Fin (qc n d).

Definition isna (x : pyfloat) : bool :=
  match x with NaN => true | _ => false end.

(** [np.isfinite]. *)
Definition isfinite (x : pyfloat) : bool :=
  match x with Fin _ => true | _ => false end.

(** The infinity of the sign of [c], NaN for a zero numerator. *)
Definition inf_of_sign (c : comparison) : pyfloat :=
  match c with Gt => PInf | Lt => NInf | Eq => NaN end.

Definition fneg (x : pyfloat) : pyfloat :=
  match x with
  | Fin q => Fin (- q)%Qc
  | PInf => NInf
  | NInf => PInf
  | NaN => NaN
  end.

Definition fadd (x y : pyfloat) : pyfloat :=
  match x, y with
  | NaN, _ | _, NaN => NaN
  | Fin a, Fin b => Fin (a + b)%Qc
  | PInf, NInf | NInf, PInf => NaN
  | PInf, _ | _, PInf => PInf
  | NInf, _ | _, NInf => NInf
  end.

Definition fsub (x y : pyfloat) : pyfloat := fadd x (fneg y).

Definition fmul (x y : pyfloat) : pyfloat :=
  match x, y with
  | NaN, _ | _, NaN => NaN
  | Fin a, Fin b => Fin (a * b)%Qc
  | Fin a, PInf | PInf, Fin a => inf_of_sign (a ?= 0)%Qc
  | Fin a, NInf | NInf, Fin a => inf_of_sign (CompOpp (a ?= 0)%Qc)
  | PInf, PInf | NInf, NInf => PInf
  | PInf, NInf | NInf, PInf => NInf
  end.

(** Array division: a zero divisor raises nothing. *)
Definition fdiv (x y : pyfloat) : pyfloat :=
  match x, y with
  | NaN, _ | _, NaN => NaN
  | Fin a, Fin b =>
      if Qc_eq_bool b 0 then inf_of_sign (a ?= 0)%Qc else Fin (a / b)%Qc
  | Fin _, PInf | Fin _, NInf => Fin 0%Qc
  | PInf, Fin b => match (b ?= 0)%Qc with Lt => NInf | _ => PInf end
  | NInf, Fin b => match (b ?= 0)%Qc with Lt => PInf | _ => NInf end
  | PInf, PInf | PInf, NInf | NInf, PInf | NInf, NInf => NaN
  end.

(** Comparison of two floats; [None] when one of them is NaN. *)
Definition fcompare (x y : pyfloat) : option comparison :=
  match x, y with
  | NaN, _ | _, NaN => None
  | Fin a, Fin b => Some (a ?= b)%Qc
  | NInf, NInf | PInf, PInf => Some Eq
  | NInf, _ | _, PInf => Some Lt
  | PInf, _ | _, NInf => Some Gt
  end.

Definition fltb (x y : pyfloat) : bool :=
  match fcompare x y with Some Lt => true | _ => false end.
Definition fleb (x y : pyfloat) : bool :=
  match fcompare x y with Some Lt | Some Eq => true | _ => false end.
Definition fgtb (x y : pyfloat) : bool := fltb y x.
Definition fgeb (x y : pyfloat) : bool := fleb y x.
Definition feqb (x y : pyfloat) : bool :=
  match fcompare x y with Some Eq => true | _ => false end.

Definition fabs (x : pyfloat) : pyfloat :=
  if fltb x (Fz 0) then fneg x else x.

(** [Series.clip(lower, upper)]: NaN stays NaN, a value below [lower]
    becomes [lower], a value above [upper] becomes [upper]. *)
Definition clip (lower upper : option pyfloat) (x : pyfloat) : pyfloat :=
  match x with
  | NaN => NaN
  | _ =>
      let below := match lower with Some lo => fltb x lo | None => false end in
      let above := match upper with Some hi => fltb hi x | None => false end in
      if above then match upper with Some hi => hi | None => x end
      else if below then match lower with Some lo => lo | None => x end
      else x
  end.

(** [Series.fillna(v)]. *)
Definition fillna (v x : pyfloat) : pyfloat :=
  match x with NaN => v | _ => x end.

(** [np.clip(x, lo, hi)] on a scalar: [minimum(maximum(x, lo), hi)]. *)
Definition np_clip (x lo hi : pyfloat) : pyfloat :=
  let m := match x with NaN => NaN | _ => if fltb x lo then lo else x end in
  match m with NaN => NaN | _ => if fltb hi m then hi else m end.

(* ================================================================= *)
(** ** Exceptions, standard output *)

Inductive exn : Type :=
| ValueError (msg : string)
| TypeError (msg : string)
| FileNotFoundError (msg : string)
| AssertionError (msg : string)
| OtherError (kind msg : string).

Inductive result (A : Type) : Type :=
| Ok (a : A)
| Raise (e : exn).
Arguments Ok {A} a.
Arguments Raise {A} e.

(** A computation that prints: the lines already on standard output go
    in, the outcome and the lines then on standard output come out.
    What was printed before an exception stays printed. *)
Definition M (A : Type) : Type := list string -> result A * list string.

Definition ret {A} (a : A) : M A := fun out => (Ok a, out).
Definition raise {A} (e : exn) : M A := fun out => (Raise e, out).
Definition print (line : string) : M unit := fun out => (Ok tt, (out ++ [line])%list).
Definition lift {A} (r : result A) : M A := fun out => (r, out).

Definition bind {A B} (m : M A) (k : A -> M B) : M B :=
  fun out =>
    match m out with
    | (Ok a, out') => k a out'
    | (Raise e, out') => (Raise e, out')
    end.

(** [try: body  except Exception: handler], the handler being given the
    exception so that a bare [raise] can re-raise it. *)
Definition try_except {A} (body : M A) (handler : exn -> M A) : M A :=
  fun out =>
    match body out with
    | (Ok a, out') => (Ok a, out')
    | (Raise e, out') => handler e out'
    end.

Declare Scope M_scope.
Delimit Scope M_scope with M.
Notation "x <- m ;; k" := (bind m (fun x => k))
  (at level 61, m at next level, right associativity) : M_scope.
Notation "m ;;; k" := (bind m (fun _ => k))
  (at level 61, right associativity) : M_scope.

(** [str(n)] of a Python int. *)
Definition str_int (n : Z) : string := NilZero.string_of_int (Z.to_int n).

(** [len(l)]. *)
Definition len {A} (l : list A) : Z := Z.of_nat (List.length l).

(** [range(a, b)]. *)
Definition range (a b : Z) : list Z :=
  map (fun i => a + Z.of_nat i) (seq 0 (Z.to_nat (b - a))).

(* ================================================================= *)
(** ** Monthly series *)

(** A [pd.Series] of floats: its index labels with their values, in
    order.  [Series.to_dict()] is the same association list. *)
Definition Series : Type := list (Z * pyfloat).

Fixpoint lookup (m : Z) (s : Series) : option pyfloat :=
  match s with
  | [] => None
  | (k, v) :: rest => if Z.eqb k m then Some v else lookup m rest
  end.

(** [column.map(d)] on one cell: the value under the key, NaN for a key
    the dict does not hold. *)
Definition map_dict (d : Series) (m : Z) : pyfloat :=
  match lookup m d with Some v => v | None => NaN end.

(** An arithmetic operation between two series that carry the same index
    (here always 1..12, set by [_as_monthly_series]); label alignment is
    then the identity. *)
Definition series_binop (f : pyfloat -> pyfloat -> pyfloat) (a b : Series) : Series :=
  map (fun kv => (fst kv, f (snd kv) (map_dict b (fst kv)))) a.

Definition series_mul_scalar (a : Series) (c : pyfloat) : Series :=
  map (fun kv => (fst kv, fmul (snd kv) c)) a.

Definition values (s : Series) : list pyfloat := map snd s.

(** The integer nearest to [a >= 0] that has at most 53 significant
    bits, a tie going to the even significand. *)
Definition round_int53 (a : Z) : Z :=
  let e := Z.log2 a - 52 in
  if Z.leb e 0 then a
  else
    let q := Z.shiftr a e in
    let rem := a - Z.shiftl q e in
    let half := Z.shiftl 1 (e - 1) in
    let q' := if Z.ltb half rem || (Z.eqb rem half && Z.odd q) then q + 1 else q in
    Z.shiftl q' e.

(** [float(n)] of a Python int: the nearest binary64 value; a magnitude
    that rounds to 2^1024 or beyond raises OverflowError. *)
Definition float_of_int (n : Z) : result pyfloat :=
  let r := round_int53 (Z.abs n) in
  if Z.leb (2 ^ 1024) r then
    Raise (OtherError "OverflowError" "int too large to convert to float")
  else Ok (Fz (Z.sgn n * r)).

(** What a caller may hand to [_as_monthly_series]. *)
Inductive pyval : Type :=
| PNone
| PInt (n : Z)
| PFloat (x : pyfloat)
| PSeq (xs : list pyfloat).

(** The index of a monthly series. *)
Definition months : list Z := [1; 2; 3; 4; 5; 6; 7; 8; 9; 10; 11; 12].

Definition constant_series (v : pyfloat) : Series :=
  map (fun m => (m, v)) (range 1 13).

Definition _as_monthly_series
    (x : pyval) (name : string) (allow_none : bool) (fill : option pyfloat)
  : result Series :=
  match x with
  | PNone =>
      if allow_none then
        match fill with
        | Some v => Ok (constant_series v)
        | None => Raise (TypeError "float() argument must be a string or a real number, not 'NoneType'")
        end
      else Raise (ValueError ("Climatologia/futuro de '" ++ name ++ "' está ausente (None)."))
  | PInt n =>
      match float_of_int n with
      | Ok v => Ok (constant_series v)
      | Raise e => Raise e
      end
  | PFloat v => Ok (constant_series v)
  | PSeq xs =>
      if negb (Z.eqb (len xs) 12) then
        Raise (ValueError ("'" ++ name ++ "' deveria ter 12 valores mensais, mas veio com "
                           ++ str_int (len xs) ++ "."))
      else Ok (combine (range 1 13) xs)
  end.

(** The value a dict of series holds, as [_as_monthly_series] receives
    it from [d.get(key)]. *)
Definition of_get (o : option Series) : pyval :=
  match o with Some s => PSeq (values s) | None => PNone end.

(* ================================================================= *)
(** ** Sorting *)

(** A stable sort.  [sorted] is stable; [sort_values] with its default
    quicksort need not be, so where two rows have equal keys the order
    pandas leaves them in is not determined by this model.  Nothing
    stated below depends on the order among equal keys: the statements
    use that the result is a permutation of the input and is ordered by
    the key. *)
Section Sort.
Context {A : Type} (leb : A -> A -> bool).

Fixpoint insert_sorted (x : A) (l : list A) : list A :=
  match l with
  | [] => [x]
  | y :: t => if leb x y then x :: l else y :: insert_sorted x t
  end.

Fixpoint isort (l : list A) : list A :=
  match l with
  | [] => []
  | x :: t => insert_sorted x (isort t)
  end.
End Sort.

(* ================================================================= *)
(** ** Hourly tables *)

(** A timestamp: calendar fields and what is left of the hour (the
    nanoseconds past the full hour). *)
Record Timestamp : Type := mkTimestamp {
  ts_year : Z; ts_month : Z; ts_day : Z; ts_hour : Z; ts_rest : Z
}.

(** [.dt.floor("h")]. *)
Definition floor_h (t : Timestamp) : Timestamp :=
  mkTimestamp (ts_year t) (ts_month t) (ts_day t) (ts_hour t) 0.

Definition ts_key (t : Timestamp) : list Z :=
  [ts_year t; ts_month t; ts_day t; ts_hour t; ts_rest t].

Fixpoint lex_leb (a b : list Z) : bool :=
  match a, b with
  | [], _ => true
  | _ :: _, [] => false
  | x :: a', y :: b' => if Z.ltb x y then true else if Z.ltb y x then false else lex_leb a' b'
  end.

Definition ts_leb (a b : Timestamp) : bool := lex_leb (ts_key a) (ts_key b).

(** One line of a CSV file as [pd.read_csv] and the coercions read it:
    [pd.to_datetime(errors="coerce")] gives [None] (NaT) for a cell that
    is no date, [pd.to_numeric(errors="coerce")] gives NaN for a cell
    that is no number.  A cell of a column the file lacks is never
    looked at. *)
Record CsvRow : Type := mkCsvRow {
  c_DateTime : option Timestamp;
  c_GHI : pyfloat; c_DNI : pyfloat; c_DHI : pyfloat;
  c_TempC : pyfloat; c_WindSpeed : pyfloat; c_RelHum : pyfloat
}.

Record Csv : Type := mkCsv {
  columns : list string;
  csv_rows : list CsvRow
}.

(** One hour of a profile. *)
Record Hour : Type := mkHour {
  DateTime : Timestamp;
  GHI : pyfloat; DNI : pyfloat; DHI : pyfloat;
  TempC : pyfloat; WindSpeed : pyfloat; RelHum : pyfloat
}.

(** A row of the reference frame: the hour and its [month] column. *)
Record BaseRow : Type := mkBaseRow {
  hour_of : Hour;
  month : Z
}.

Definition has_column (f : Csv) (c : string) : bool :=
  existsb (String.eqb c) (columns f).

Definition req : list string :=
  ["GHI"; "DNI"; "DHI"; "TempC"; "WindSpeed"; "RelHum"].

Definition count_nat (l : list CsvRow) : Z :=
  len (filter (fun r => match c_DateTime r with None => true | Some _ => false end) l).

Fixpoint with_datetime (l : list CsvRow) : list Hour :=
  match l with
  | [] => []
  | r :: t =>
      match c_DateTime r with
      | Some ts =>
          mkHour ts (c_GHI r) (c_DNI r) (c_DHI r) (c_TempC r) (c_WindSpeed r) (c_RelHum r)
          :: with_datetime t
      | None => with_datetime t
      end
  end.

(** [ensure_datetime]: every cell must be a date (time zones are not
    modelled: the timestamps are naive). *)
Definition ensure_datetime (l : list CsvRow) : result (list Hour) :=
  if Z.eqb (count_nat l) 0 then Ok (with_datetime l)
  else Raise (ValueError ("Falha ao converter DateTime: "
                          ++ str_int (count_nat l) ++ " linhas inválidas.")).

Definition hour_has_nan (h : Hour) : bool :=
  isna (GHI h) || isna (DNI h) || isna (DHI h)
  || isna (TempC h) || isna (WindSpeed h) || isna (RelHum h).

(** [df[req].isna().any().any()]. *)
Definition any_nan (l : list Hour) : bool := existsb hour_has_nan l.

(** The first required column the file lacks, in the order of [req]. *)
Definition first_missing (f : Csv) : option string :=
  find (fun c => negb (has_column f c)) req.

Definition is_feb29 (h : Hour) : bool :=
  Z.eqb (ts_month (DateTime h)) 2 && Z.eqb (ts_day (DateTime h)) 29.

(** [df.loc[~((month==2) & (day==29))]] when the table has 8784 rows. *)
Definition drop_leap_day (l : list Hour) : list Hour :=
  if Z.eqb (len l) 8784 then filter (fun h => negb (is_feb29 h)) l else l.

Definition set_DateTime (h : Hour) (t : Timestamp) : Hour :=
  mkHour t (GHI h) (DNI h) (DHI h) (TempC h) (WindSpeed h) (RelHum h).

Definition scale_irradiance (s : pyfloat) (h : Hour) : Hour :=
  mkHour (DateTime h) (fmul (GHI h) s) (fmul (DNI h) s) (fmul (DHI h) s)
         (TempC h) (WindSpeed h) (RelHum h).

Section ReadBase.
(** [np.nanpercentile(values, 95)]. *)
Variable nanpercentile95 : list pyfloat -> pyfloat.
(** The configured [IRRAD_SCALE]; [None] asks for auto-detection. *)
Variable IRRAD_SCALE : option pyfloat.

Definition _guess_irr_scale (df : list Hour) : pyfloat :=
  let ghi := map GHI df in
  let p95 := match ghi with [] => NaN | _ => nanpercentile95 ghi end in
  if negb (isfinite p95) || fleb p95 (Fz 0) then Fz 1
  else
    let target := Fz 900 in
    let scale := fdiv target p95 in
    np_clip scale (Fq 1 10) (Fz 100).

Definition read_era5_base (f : Csv) : result (list BaseRow) :=
  if negb (has_column f "DateTime") then
    Raise (ValueError "CSV ERA5 base precisa ter coluna DateTime.")
  else
    match ensure_datetime (csv_rows f) with
    | Raise e => Raise e
    | Ok df =>
        let df := map (fun h => set_DateTime h (floor_h (DateTime h))) df in
        let df := isort (fun a b => ts_leb (DateTime a) (DateTime b)) df in
        match first_missing f with
        | Some c => Raise (ValueError ("Falta coluna " ++ c ++ " no ERA5 base."))
        | None =>
            if any_nan df then Raise (ValueError "NaN no ERA5 base.")
            else
              let scale := match IRRAD_SCALE with
                           | None => _guess_irr_scale df
                           | Some s => s
                           end in
              let df := if fgtb (fabs (fsub scale (Fz 1))) (Fq 1 1000000)
                        then map (scale_irradiance scale) df else df in
              let df := drop_leap_day df in
              if negb (Z.eqb (len df) 8760) then
                Raise (ValueError ("ERA5 base tem " ++ str_int (len df)
                                   ++ " linhas (esperado 8760)."))
              else Ok (map (fun h => mkBaseRow h (ts_month (DateTime h))) df)
        end
    end.
End ReadBase.

Section Validate.
(** [os.path.basename]. *)
Variable basename : string -> string.

(** [validate_sam_csv], given what [pd.read_csv(path)] returns.  It
    returns nothing: it either raises or ends. *)
Definition validate_sam_csv (path : string) (f : Csv) : result unit :=
  if negb (has_column f "DateTime") then Raise (ValueError "CSV sem DateTime.")
  else
    match ensure_datetime (csv_rows f) with
    | Raise e => Raise e
    | Ok df =>
        match first_missing f with
        | Some c => Raise (ValueError ("Falta " ++ c ++ "."))
        | None =>
            if any_nan df then Raise (ValueError "NaN após morph.")
            else
              let df := drop_leap_day df in
              if negb (Z.eqb (len df) 8760) then
                Raise (ValueError (basename path ++ " tem "
                                   ++ str_int (len df)
                                   ++ " linhas (esperado 8760)."))
              else Ok tt
        end
    end.
End Validate.

(* ================================================================= *)
(** ** Dicts *)

Section Dict.
Context {K V : Type} (eqb : K -> K -> bool).

(** Keys in insertion order; setting a key the dict holds replaces its
    value in place. *)
Fixpoint dict_set (d : list (K * V)) (k : K) (v : V) : list (K * V) :=
  match d with
  | [] => [(k, v)]
  | (k', v') :: t => if eqb k' k then (k', v) :: t else (k', v') :: dict_set t k v
  end.

Fixpoint dict_get (d : list (K * V)) (k : K) : option V :=
  match d with
  | [] => None
  | (k', v') :: t => if eqb k' k then Some v' else dict_get t k
  end.

Definition dict_has (d : list (K * V)) (k : K) : bool :=
  match dict_get d k with Some _ => true | None => false end.
End Dict.

(** [d.get(k)] of a dict whose values may be [None]. *)
Definition get_flat (d : list (string * option Series)) (k : string) : option Series :=
  match dict_get String.eqb d k with Some (Some s) => Some s | _ => None end.

Definition rbind {A B} (r : result A) (k : A -> result B) : result B :=
  match r with Ok a => k a | Raise e => Raise e end.

Declare Scope R_scope.
Delimit Scope R_scope with R.
Notation "x <-- r ;; k" := (rbind r (fun x => k))
  (at level 61, r at next level, right associativity) : R_scope.

Fixpoint mapM {A B} (f : A -> result B) (l : list A) : result (list B) :=
  match l with
  | [] => Ok []
  | x :: t =>
      match f x with
      | Raise e => Raise e
      | Ok y => match mapM f t with Raise e => Raise e | Ok ys => Ok (y :: ys) end
      end
  end.

(* ================================================================= *)
(** ** Calendar dates *)

Definition is_leap (y : Z) : bool :=
  (Z.eqb (y mod 4) 0 && negb (Z.eqb (y mod 100) 0)) || Z.eqb (y mod 400) 0.

Definition days_in_month (y m : Z) : Z :=
  if Z.eqb m 2 then (if is_leap y then 29 else 28)
  else if Z.eqb m 4 || Z.eqb m 6 || Z.eqb m 9 || Z.eqb m 11 then 30
  else 31.

(** [pd.to_datetime({"year": y, "month": m, "day": d, "hour": h})] on one
    row: the fields must name an hour that exists (years within the
    range of pandas timestamps). *)
Definition to_datetime (y m d h : Z) : result Timestamp :=
  if Z.leb 1 m && Z.leb m 12 && Z.leb 1 d && Z.leb d (days_in_month y m)
     && Z.leb 0 h && Z.leb h 23
  then Ok (mkTimestamp y m d h 0)
  else Raise (ValueError "cannot assemble the datetimes").

(* ================================================================= *)
(** ** Scenario of a target *)

(** [ssp_name] of [load_future_monthly]: the scenario whose directory
    and file names are searched. *)
Definition ssp_name (ssp : string) (year : Z) : string :=
  if Z.geb year 2015 then ssp else "historical".

(** [out_subdir] of [morph_one_year]. *)
Definition out_subdir (ssp : string) (year : Z) : string :=
  if Z.ltb year 2015 then "historical" else ssp.

(** The ["ssp"] entry of a result record and the scenario part of the
    log file name, in [main]. *)
Definition result_ssp (ssp : string) (year : Z) : string :=
  if Z.ltb year 2015 then "historical" else ssp.

Definition log_file_name (ssp : string) (year : Z) : string :=
  "log_" ++ result_ssp ssp year ++ "_" ++ str_int year ++ ".txt".

(* ================================================================= *)
(** ** The morph *)

Record Deltas : Type := mkDeltas {
  k_rsds : Series;   (* multiplicative *)
  d_tas : Series;    (* additive, degrees C *)
  k_wspd : Series;   (* multiplicative *)
  d_hurs : Series    (* additive, percent *)
}.

Definition eps : pyfloat := Fq 1 1000000.

(** Lines 512-534 of [morph_one_year]: the twelve monthly factors and
    offsets from the climatologies and the target year's values. *)
Definition monthly_deltas
    (clim : list (string * Series)) (fut : list (string * option Series))
  : result Deltas :=
  (clim_rsds <-- _as_monthly_series (of_get (dict_get String.eqb clim "rsds")) "clim.rsds" false None ;;
   clim_tas <-- _as_monthly_series (of_get (dict_get String.eqb clim "tas")) "clim.tas" false None ;;
   clim_wspd <-- _as_monthly_series (of_get (dict_get String.eqb clim "sfcWind")) "clim.sfcWind" false None ;;
   fut_rsds <-- _as_monthly_series (of_get (get_flat fut "rsds")) "fut.rsds" false None ;;
   fut_tas <-- _as_monthly_series (of_get (get_flat fut "tas")) "fut.tas" false None ;;
   fut_wspd <-- _as_monthly_series (of_get (get_flat fut "sfcWind")) "fut.sfcWind" false None ;;
   hurs <-- match get_flat fut "hurs" with
            | None =>
                fut_hurs <-- _as_monthly_series PNone "fut.hurs" true (Some (Fz 0)) ;;
                clim_hurs <-- _as_monthly_series
                                (match dict_get String.eqb clim "hurs" with
                                 | Some s => PSeq (values s)
                                 | None => PSeq (values (series_mul_scalar fut_hurs (Fz 0)))
                                 end)
                                "clim.hurs" true (Some (Fz 0)) ;;
                Ok (fut_hurs, clim_hurs)
            | Some _ =>
                fut_hurs <-- _as_monthly_series (of_get (get_flat fut "hurs")) "fut.hurs" false None ;;
                clim_hurs <-- _as_monthly_series (of_get (dict_get String.eqb clim "hurs")) "clim.hurs" false None ;;
                Ok (fut_hurs, clim_hurs)
            end ;;
   Ok (mkDeltas (series_binop fdiv fut_rsds clim_rsds)
                (series_binop fsub fut_tas clim_tas)
                (series_binop fdiv fut_wspd clim_wspd)
                (series_binop fsub (fst hurs) (snd hurs))))%R.

(** Lines 543-554 on one row.  [df["GHI"]] is overwritten first, so the
    fraction on the next line divides by the NEW global irradiance. *)
Definition morph_row (dl : Deltas) (r : BaseRow) : Hour :=
  let h := hour_of r in
  let ghi := clip (Some (Fz 0)) None (fmul (GHI h) (map_dict (k_rsds dl) (month r))) in
  let frac_dni := fillna (Fz 0) (clip (Some (Fz 0)) (Some (Fz 1)) (fdiv (DNI h) (fadd ghi eps))) in
  let frac_dhi := clip (Some (Fz 0)) (Some (Fz 1)) (fsub (Fz 1) frac_dni) in
  mkHour (DateTime h)
         ghi
         (fmul ghi frac_dni)
         (fmul ghi frac_dhi)
         (fadd (TempC h) (map_dict (d_tas dl) (month r)))
         (clip (Some (Fz 0)) None (fmul (WindSpeed h) (map_dict (k_wspd dl) (month r))))
         (clip (Some (Fz 0)) (Some (Fz 100)) (fadd (RelHum h) (map_dict (d_hurs dl) (month r)))).

(** The two fractions line 546-547 compute for a row. *)
Definition frac_dni_of (dl : Deltas) (r : BaseRow) : pyfloat :=
  let ghi := GHI (morph_row dl r) in
  fillna (Fz 0) (clip (Some (Fz 0)) (Some (Fz 1)) (fdiv (DNI (hour_of r)) (fadd ghi eps))).

Definition frac_dhi_of (dl : Deltas) (r : BaseRow) : pyfloat :=
  clip (Some (Fz 0)) (Some (Fz 1)) (fsub (Fz 1) (frac_dni_of dl r)).

(** Lines 557-558: the same month, day and hour in the target year. *)
Definition restamp (year : Z) (h : Hour) : result Hour :=
  let t := DateTime h in
  match to_datetime year (ts_month t) (ts_day t) (ts_hour t) with
  | Ok t' => Ok (set_DateTime h t')
  | Raise e => Raise e
  end.

(** Lines 541-558: the morphed frame. *)
Definition morph_frame (base : list BaseRow) (dl : Deltas) (year : Z) : result (list Hour) :=
  mapM (restamp year) (map (morph_row dl) base).

(** Lines 543-549 on one row of float64 columns, with the rounding of
    every operation: Rocq's primitive floats are IEEE-754 binary64 with
    round-to-nearest-even, as numpy's float64.  The arguments are the
    row's [GHI] and [DNI] and the radiation factor of its month; the
    result is the new [GHI], [DNI] and [DHI]. *)
Module B64.
Import PrimFloat.
Local Open Scope float_scope.

Definition clip (lower upper : option float) (x : float) : float :=
  if is_nan x then x
  else
    let below := match lower with Some lo => ltb x lo | None => false end in
    let above := match upper with Some hi => ltb hi x | None => false end in
    if above then match upper with Some hi => hi | None => x end
    else if below then match lower with Some lo => lo | None => x end
    else x.

Definition fillna (v x : float) : float := if is_nan x then v else x.

(** The literal [1e-6]. *)
Definition eps : float := 0x1.0c6f7a0b5ed8dp-20.

Definition morph_irradiance (ghi dni k : float) : float * float * float :=
  let ghi := clip (Some 0) None (ghi * k) in
  let frac_dni := fillna 0 (clip (Some 0) (Some 1) (dni / (ghi + eps))) in
  let frac_dhi := clip (Some 0) (Some 1) (1 - frac_dni) in
  (ghi, ghi * frac_dni, ghi * frac_dhi).
End B64.

(** [df[[...]].to_csv(path, index=False)] followed by [pd.read_csv]. *)
Definition to_csv (df : list Hour) : Csv :=
  mkCsv ("DateTime" :: req)
        (map (fun h => mkCsvRow (Some (DateTime h)) (GHI h) (DNI h) (DHI h)
                                (TempC h) (WindSpeed h) (RelHum h)) df).

(* ================================================================= *)
(** ** Loading climatologies and the target year; [morph_one_year] *)

Definition VARS : list string := ["rsds"; "tas"; "sfcWind"; "hurs"].

Section Pipeline.
(** What the loaders find on disk: the outcome of each reader of the
    NetCDF archives, of the spreadsheet and of the hourly CSV files. *)
Variable _load_nex_one_year_monthly : string -> Z -> string -> result Series.
Variable _load_nex_hist_monthly : string -> result Series.
Variable _load_hurs_hist_monthly_from_dir : result Series.
Variable _load_rsds_tas_from_planilha : result (list (string * Series)).
Variable planilha_exists : bool.
Variable _load_wind_clim_from_era5_csvs : result Series.
(** [pd.read_csv(CSV_ERA5_BASE)]. *)
Variable base_csv : result Csv.
Variable nanpercentile95 : list pyfloat -> pyfloat.
Variable IRRAD_SCALE : option pyfloat.
(** Configuration and the path separator. *)
Variable MODEL : string.
Variable OUT_SAM_CSV_DIR : string.
Variable sep : string.

(** One turn of the loop over ["rsds"] and ["tas"] in [load_hist_clims]. *)
Definition load_hist_clim_var (clim : list (string * Series)) (v : string)
  : M (list (string * Series)) :=
  try_except
    (s <- lift (_load_nex_hist_monthly v) ;;
     ret (dict_set String.eqb clim v s))%M
    (fun e =>
       (clim' <- (if planilha_exists then
                    print ("[AVISO] Usando climatologia da planilha para '" ++ v
                           ++ "' (1994–2014).") ;;;
                    plan <- lift _load_rsds_tas_from_planilha ;;
                    match dict_get String.eqb plan v with
                    | Some s => if Z.eqb (len s) 12 then ret (dict_set String.eqb clim v s) else ret clim
                    | None => ret clim
                    end
                  else ret clim) ;;
        if negb (dict_has String.eqb clim' v) then raise e else ret clim')%M).

Definition load_hist_clims : M (list (string * Series)) :=
  (clim <- load_hist_clim_var [] "rsds" ;;
   clim <- load_hist_clim_var clim "tas" ;;
   clim <- try_except
             (print "[AVISO] Usando climatologia ERA5 (seus CSVs) para 'sfcWind' (1994–2014)." ;;;
              s <- lift _load_wind_clim_from_era5_csvs ;;
              ret (dict_set String.eqb clim "sfcWind" s))
             (fun _ =>
                print "  [Fallback] Tentando NEX historical para 'sfcWind'." ;;;
                s <- lift (_load_nex_hist_monthly "sfcWind") ;;
                ret (dict_set String.eqb clim "sfcWind" s)) ;;
   try_except
     (s <- lift _load_hurs_hist_monthly_from_dir ;;
      ret (dict_set String.eqb clim "hurs" s))
     (fun _ =>
        print "[AVISO] Climatologia histórica de 'hurs' indisponível. Delta 0% será usado." ;;;
        ret clim))%M.

(** One turn of the loop over [VARS] in [load_future_monthly]. *)
Definition load_future_var (name : string) (year : Z)
    (fut : list (string * option Series)) (v : string)
  : result (list (string * option Series)) :=
  match _load_nex_one_year_monthly v year name with
  | Ok s => Ok (dict_set String.eqb fut v (Some s))
  | Raise e => if String.eqb v "hurs" then Ok (dict_set String.eqb fut v None) else Raise e
  end.

Definition load_future_monthly (ssp : string) (year : Z)
  : result (list (string * option Series)) :=
  let name := ssp_name ssp year in
  fold_left (fun acc v => rbind acc (fun fut => load_future_var name year fut v))
            VARS (Ok []).

Definition out_path (ssp : string) (year : Z) : string :=
  OUT_SAM_CSV_DIR ++ sep ++ out_subdir ssp year ++ sep
  ++ "SAM_" ++ MODEL ++ "_" ++ out_subdir ssp year ++ "_" ++ str_int year ++ "_morph.csv".

(** [morph_one_year]: the path it returns and the table it wrote there. *)
Definition morph_one_year (ssp : string) (year : Z) : M (string * Csv) :=
  (base <- lift (rbind base_csv (read_era5_base nanpercentile95 IRRAD_SCALE)) ;;
   clim <- load_hist_clims ;;
   fut <- lift (load_future_monthly ssp year) ;;
   dl <- lift (monthly_deltas clim fut) ;;
   df <- lift (morph_frame base dl year) ;;
   ret (out_path ssp year, to_csv df))%M.
End Pipeline.

(* ================================================================= *)
(** ** The consolidated table ([4-consolida_sam_morph.py]) *)

(** A file name is held as the UTF-8 encoding of its characters.  The
    regular expressions work on characters: [\d] matches every decimal
    digit of Unicode (category Nd), not only [0-9], and [int] reads each
    of them as its value.  The literal characters of the patterns are
    ASCII and no byte of a longer UTF-8 sequence is, so the search for a
    pattern and the [*] of a glob may advance byte by byte. *)

Fixpoint strip_prefix (p s : string) : option string :=
  match p with
  | EmptyString => Some s
  | String c p' =>
      match s with
      | String c' s' => if Ascii.eqb c c' then strip_prefix p' s' else None
      | EmptyString => None
      end
  end.

Definition byte (c : ascii) : Z := Z.of_N (N_of_ascii c).

(** The six bits of a continuation byte [10xxxxxx]. *)
Definition cont (c : ascii) : option Z :=
  let n := byte c in
  if Z.leb 128 n && Z.leb n 191 then Some (n - 128) else None.

(** The character at the head of [s], as its code point, and what
    follows it; [None] when [s] does not begin with a well-formed UTF-8
    sequence. *)
Definition utf8_head (s : string) : option (Z * string) :=
  match s with
  | EmptyString => None
  | String a r =>
      let n := byte a in
      if Z.ltb n 128 then Some (n, r)
      else if Z.ltb n 194 then None
      else if Z.ltb n 224 then
        match r with
        | String b r1 =>
            match cont b with
            | Some x => Some ((n - 192) * 64 + x, r1)
            | None => None
            end
        | EmptyString => None
        end
      else if Z.ltb n 240 then
        match r with
        | String b (String c r2) =>
            match cont b, cont c with
            | Some x, Some y =>
                let cp := (n - 224) * 4096 + x * 64 + y in
                if Z.ltb cp 2048 || (Z.leb 55296 cp && Z.leb cp 57343) then None
                else Some (cp, r2)
            | _, _ => None
            end
        | _ => None
        end
      else if Z.ltb n 245 then
        match r with
        | String b (String c (String d r3)) =>
            match cont b, cont c, cont d with
            | Some x, Some y, Some z =>
                let cp := (n - 240) * 262144 + x * 4096 + y * 64 + z in
                if Z.ltb cp 65536 || Z.ltb 1114111 cp then None else Some (cp, r3)
            | _, _, _ => None
            end
        | _ => None
        end
      else None
  end.

(** The decimal digits of Unicode come in runs of ten consecutive code
    points, zero to nine.  The first code point of every run, as in the
    tables of Python 3.11 (Unicode 14.0): ASCII, Arabic-Indic, ...,
    fullwidth (65296), ... *)
Definition nd_zeros : list Z :=
  [48; 1632; 1776; 1984; 2406; 2534; 2662; 2790; 2918; 3046; 3174; 3302;
   3430; 3558; 3664; 3792; 3872; 4160; 4240; 6112; 6160; 6470; 6608; 6784;
   6800; 6992; 7088; 7232; 7248; 42528; 43216; 43264; 43472; 43504; 43600;
   44016; 65296; 66720; 68912; 69734; 69872; 69942; 70096; 70384; 70736;
   70864; 71248; 71360; 71472; 71904; 72016; 72784; 73040; 73120; 92768;
   92864; 93008; 120782; 120792; 120802; 120812; 120822; 123200; 123632;
   125264; 130032].

(** The value of a decimal digit, [None] for any other character. *)
Definition decimal (cp : Z) : option Z :=
  match find (fun z => Z.leb z cp && Z.leb cp (z + 9)) nd_zeros with
  | Some z => Some (cp - z)
  | None => None
  end.

(** [\d] at the head of [s]: the value [int] gives the digit, and what
    follows it. *)
Definition digit_here (s : string) : option (Z * string) :=
  match utf8_head s with
  | Some (cp, r) =>
      match decimal cp with
      | Some v => Some (v, r)
      | None => None
      end
  | None => None
  end.

(** [(\d{4})] at the head of [s] and [int] of the group. *)
Definition four_digits (s : string) : option (Z * string) :=
  match digit_here s with
  | None => None
  | Some (x, s1) =>
      match digit_here s1 with
      | None => None
      | Some (y, s2) =>
          match digit_here s2 with
          | None => None
          | Some (z, s3) =>
              match digit_here s3 with
              | None => None
              | Some (w, r) => Some (1000 * x + 100 * y + 10 * z + w, r)
              end
          end
      end
  end.

(** A name of ASCII characters only. *)
Fixpoint is_ascii (s : string) : bool :=
  match s with
  | EmptyString => true
  | String c r => Z.ltb (byte c) 128 && is_ascii r
  end.

Definition newline : string := String (ascii_of_nat 10) EmptyString.

(** [$]: the end of the string, or just before a newline that ends it. *)
Definition at_end (s : string) : bool := String.eqb s "" || String.eqb s newline.

(** [re.match(r"log_(historical|ssp245|ssp585)_(\d{4})\.txt$", name)]
    with one alternative: the groups [(ssp, int(ano))]. *)
Definition match_log_alt (alt r : string) : option (string * Z) :=
  match strip_prefix (alt ++ "_") r with
  | None => None
  | Some r1 =>
      match four_digits r1 with
      | None => None
      | Some (y, r2) =>
          match strip_prefix ".txt" r2 with
          | None => None
          | Some e => if at_end e then Some (alt, y) else None
          end
      end
  end.

Definition match_log_name (name : string) : option (string * Z) :=
  match strip_prefix "log_" name with
  | None => None
  | Some r =>
      match match_log_alt "historical" r with
      | Some k => Some k
      | None =>
          match match_log_alt "ssp245" r with
          | Some k => Some k
          | None => match_log_alt "ssp585" r
          end
      end
  end.

(** [re.search(r"_(\d{4})_morph\.csv$", name)]: the leftmost match. *)
Definition match_year_here (s : string) : option Z :=
  match strip_prefix "_" s with
  | None => None
  | Some r =>
      match four_digits r with
      | None => None
      | Some (y, r1) =>
          match strip_prefix "_morph.csv" r1 with
          | None => None
          | Some e => if at_end e then Some y else None
          end
      end
  end.

Fixpoint search_year (s : string) : option Z :=
  match match_year_here s with
  | Some y => Some y
  | None =>
      match s with
      | String _ s' => search_year s'
      | EmptyString => None
      end
  end.

(** [*] of a glob pattern: what follows the star, [rest], must match some
    suffix of the name. *)
Fixpoint star_with (rest : string -> bool) (s : string) : bool :=
  rest s
  || match s with
     | String _ s' => star_with rest s'
     | EmptyString => false
     end.

(** A glob pattern of literal characters and [*] against a file name. *)
Fixpoint fnmatch (pat name : string) : bool :=
  match pat with
  | EmptyString => match name with EmptyString => true | _ => false end
  | String c pat' =>
      if Ascii.eqb c "*" then star_with (fnmatch pat') name
      else
        match name with
        | String c' name' => Ascii.eqb c c' && fnmatch pat' name'
        | EmptyString => false
        end
  end.

#[local] Unset Elimination Schemes.
Inductive json : Type :=
| JNull
| JBool (b : bool)
| JNum (x : pyfloat)
| JStr (s : string)
| JList (l : list json)
| JDict (d : list (string * json)).
#[local] Set Elimination Schemes.

(** Truth value of a Python object read from JSON. *)
Definition truthy (j : json) : bool :=
  match j with
  | JNull => false
  | JBool b => b
  | JNum x => negb (feqb x (Fz 0))
  | JStr s => negb (String.eqb s "")
  | JList l => match l with [] => false | _ => true end
  | JDict d => match d with [] => false | _ => true end
  end.

(** What [parse_log_file] returns. *)
Record Parsed : Type := mkParsed {
  ok : bool;
  data : json;
  msg : option string
}.

Record TableRow : Type := mkTableRow {
  row_modelo : json;
  row_ssp : string;
  row_ano : Z;
  row_annual_mwh : json;
  row_capacity_factor : json;
  row_tempo_s : json;
  row_caminho_csv : string;
  row_log_arquivo : string;
  row_log_status : string;
  row_log_msg : json
}.

Definition Key : Type := (string * Z)%type.

Definition key_eqb (a b : Key) : bool :=
  String.eqb (fst a) (fst b) && Z.eqb (snd a) (snd b).

Definition row_key (r : TableRow) : Key := (row_ssp r, row_ano r).

Definition key_leb (a b : Key) : bool :=
  String.ltb (fst a) (fst b) || (String.eqb (fst a) (fst b) && Z.leb (snd a) (snd b)).

Definition np_nan : json := JNum NaN.

(** [d.get(k, default)]. *)
Definition jget (d : list (string * json)) (k : string) (default : json) : json :=
  match dict_get String.eqb d k with Some v => v | None => default end.

Definition opt_str (o : option string) : json :=
  match o with Some s => JStr s | None => JNull end.

Section Consolidate.
Variable MODEL : string.
Variable DIR_LOGS : string.
Variable DIR_CSVS : string.
Variable sep : string.
(** The names of the entries of [DIR_LOGS]. *)
Variable log_dir : list string.
(** The names of the entries of a scenario directory under
    [DIR_CSVS/MODEL], [None] when the directory does not exist. *)
Variable csv_dir : string -> option (list string).
(** [parse_log_file] on a log of the given name, a file that can be
    read. *)
Variable parse_log_file : string -> Parsed.
(** [Path.exists]. *)
Variable path_exists : string -> bool.

Definition csv_path (sub name : string) : string :=
  DIR_CSVS ++ sep ++ MODEL ++ sep ++ sub ++ sep ++ name.

(** Lines 53-59: the files of one scenario directory into [csv_map]. *)
Definition index_csvs (sub : string) (names : list string) (csv_map : list (Key * string))
  : list (Key * string) :=
  fold_left
    (fun acc name =>
       if fnmatch ("SAM_*_" ++ sub ++ "_*_morph.csv") name then
         match search_year name with
         | Some ano_ => dict_set key_eqb acc (sub, ano_) (csv_path sub name)
         | None => acc
         end
       else acc)
    names csv_map.

(** Lines 48-59. *)
Definition build_csv_map : list (Key * string) :=
  fold_left
    (fun acc sub =>
       match csv_dir sub with
       | None => acc
       | Some names => index_csvs sub names acc
       end)
    ["historical"; "ssp245"; "ssp585"] [].

(** Lines 70-111: the row of one log file whose name matched. *)
Definition log_row (csv_map : list (Key * string)) (name : string) (k : Key)
  : result TableRow :=
  let parsed := parse_log_file name in
  let status0 := if ok parsed then "OK" else "ERRO" in
  let caminho_csv :=
    match dict_get key_eqb csv_map k with
    | Some p => p
    | None =>
        let csv_guess := DIR_CSVS ++ sep ++ MODEL ++ sep ++ fst k ++ sep
                         ++ "SAM_" ++ MODEL ++ "_" ++ fst k ++ "_" ++ str_int (snd k)
                         ++ "_morph.csv" in
        if path_exists csv_guess then csv_guess else csv_guess ++ " (NAO_ENCONTRADO)"
    end in
  let mk modelo mwh cf t status m :=
    mkTableRow modelo (fst k) (snd k) mwh cf t caminho_csv (DIR_LOGS ++ sep ++ name) status m in
  if ok parsed && truthy (data parsed) then
    match data parsed with
    | JDict d =>
        if truthy (jget d "erro" JNull)
        then Ok (mk (jget d "modelo" (JStr MODEL)) (jget d "annual_mwh" np_nan)
                    (jget d "capacity_factor" np_nan) (jget d "tempo_s" np_nan)
                    "ERRO" (jget d "erro" JNull))
        else Ok (mk (jget d "modelo" (JStr MODEL)) (jget d "annual_mwh" np_nan)
                    (jget d "capacity_factor" np_nan) (jget d "tempo_s" np_nan)
                    status0 (opt_str (msg parsed)))
    | _ => Raise (OtherError "AttributeError" "object has no attribute 'get'")
    end
  else Ok (mk (JStr MODEL) np_nan np_nan np_nan status0 (opt_str (msg parsed))).

(** Lines 62-111: one row per log file whose name matches. *)
Fixpoint log_rows (csv_map : list (Key * string)) (names : list string)
  : result (list TableRow) :=
  match names with
  | [] => Ok []
  | name :: rest =>
      match match_log_name name with
      | None => log_rows csv_map rest
      | Some k =>
          match log_row csv_map name k with
          | Raise e => Raise e
          | Ok r =>
              match log_rows csv_map rest with
              | Raise e => Raise e
              | Ok rs => Ok (r :: rs)
              end
          end
      end
  end.

Definition sem_log_row (k : Key) (path_csv : string) : TableRow :=
  mkTableRow (JStr MODEL) (fst k) (snd k) np_nan np_nan np_nan path_csv ""
             "SEM_LOG" (JStr "Sem log correspondente.").

(** Lines 115-129: a row for every indexed CSV no row stands for yet. *)
Definition add_missing (csv_map : list (Key * string)) (rows : list TableRow)
  : list TableRow :=
  fold_left
    (fun rows kv =>
       if negb (existsb (fun r => key_eqb (row_key r) (fst kv)) rows)
       then (rows ++ [sem_log_row (fst kv) (snd kv)])%list
       else rows)
    csv_map rows.

(** The script: the table it saves.  Without a single row the frame of
    line 131 has no column, and line 132 fails on the first sort key. *)
Definition consolidate : result (list TableRow) :=
  let csv_map := build_csv_map in
  let logs := isort String.leb (filter (fnmatch "log_*.txt") log_dir) in
  match log_rows csv_map logs with
  | Raise e => Raise e
  | Ok rows =>
      match add_missing csv_map rows with
      | [] => Raise (OtherError "KeyError" "'ssp'")
      | rows => Ok (isort (fun a b => key_leb (row_key a) (row_key b)) rows)
      end
  end.
End Consolidate.

(* ================================================================= *)
(** ** The spreadsheet of historical means *)

(** A workbook as [pd.ExcelFile] and [pd.read_excel] read it: the
    sheets in order, each with its column names, or the exception the
    reader raised. *)
Definition Workbook : Type := result (list (string * result (list string))).

(** [_load_rsds_tas_from_planilha].  In the loop over the sheets,
    [has_date] and [has_ssr] are computed from generator expressions;
    the next line, [has_skt = any(c.startswith("skt"))], has no
    generator: it reads a variable [c] that neither the function nor
    the module binds, so the first sheet that is read ends the call
    with a NameError and nothing below that line is reached. *)
Definition _load_rsds_tas_from_planilha (xls : Workbook) : result (list (string * Series)) :=
  match xls with
  | Raise e => Raise e
  | Ok [] => Raise (FileNotFoundError "Planilha não possui colunas esperadas (Data/SSR/SKT).")
  | Ok ((_, Raise e) :: _) => Raise e
  | Ok ((_, Ok _) :: _) => Raise (OtherError "NameError" "name 'c' is not defined")
  end.

(* ================================================================= *)
(** ** PVWatts and the loop of [main] *)

(** [str(e)]. *)
Definition exn_str (e : exn) : string :=
  match e with
  | ValueError m | TypeError m | FileNotFoundError m | AssertionError m => m
  | OtherError _ m => m
  end.

(** The dict [df_to_solar_resource] builds. *)
Record SolarResource : Type := mkSolarResource {
  sr_lat : pyfloat; sr_lon : pyfloat; sr_elev : pyfloat; sr_tz : pyfloat;
  sr_year : list Z; sr_month : list Z; sr_day : list Z; sr_hour : list Z;
  sr_minute : list Z;
  sr_gh : list pyfloat; sr_dn : list pyfloat; sr_df : list pyfloat;
  sr_tdry : list pyfloat; sr_wspd : list pyfloat; sr_rh : list pyfloat
}.

(** [m.Outputs] once [m.execute()] has returned. *)
Record SamOutputs : Type := mkSamOutputs {
  annual_energy : pyfloat;
  out_capacity_factor : pyfloat;
  ac_monthly : list pyfloat
}.

(** The dict [run_sam_from_csv] returns. *)
Record SamRes : Type := mkSamRes {
  arquivo : string;
  annual_mwh : pyfloat;
  capacity_factor : pyfloat;
  ac_monthly_kwh : list pyfloat;
  tempo_s : pyfloat
}.

(** A record of [results]: the keys of [run_sam_from_csv] when SAM ran,
    then ["modelo"], ["ssp"], ["ano"], ["erro"]. *)
Record Result : Type := mkResult {
  res_sam : option SamRes;
  res_modelo : string;
  res_ssp : string;
  res_ano : Z;
  res_erro : option string
}.

(** What is written to a log file: [json.dumps] of a record, or the
    line ["ERRO: " + msg]. *)
Inductive LogText : Type :=
| LogJson (r : Result)
| LogErro (msg : string).

(** [for x in l: body], the state threaded through. *)
Fixpoint forM {A S : Type} (l : list A) (st : S) (body : S -> A -> M S) : M S :=
  match l with
  | [] => ret st
  | x :: t => bind (body st x) (fun st' => forM t st' body)
  end.

Section Main.
Variable _load_nex_one_year_monthly : string -> Z -> string -> result Series.
Variable _load_nex_hist_monthly : string -> result Series.
Variable _load_hurs_hist_monthly_from_dir : result Series.
(** [pd.ExcelFile(PLANILHA_ERA5)] and its sheets. *)
Variable planilha : Workbook.
Variable planilha_exists : bool.
Variable _load_wind_clim_from_era5_csvs : result Series.
Variable base_csv : result Csv.
Variable nanpercentile95 : list pyfloat -> pyfloat.
Variable IRRAD_SCALE : option pyfloat.
Variable MODEL : string.
Variable OUT_SAM_CSV_DIR : string.
Variable LOG_DIR : string.
Variable sep : string.
Variable basename : string -> string.
Variable SCENARIOS : list string.
Variable YEARS : list Z.
Variables LAT LON ELEV TZ : pyfloat.
(** [Pvwattsv8] with the configured system design: [execute()] on the
    solar resource and the outputs read afterwards. *)
Variable pvwatts : SolarResource -> result SamOutputs.
(** [time.time() - t0] around [execute()] for the file of this path. *)
Variable elapsed : string -> pyfloat.
(** [round(x, n)], [str(x)] and [format(x, ".3f")] of a float. *)
Variable round_ : pyfloat -> Z -> pyfloat.
Variable str_float : pyfloat -> string.
Variable fmt_3f : pyfloat -> string.

Definition df_to_solar_resource (df : list Hour) : SolarResource :=
  mkSolarResource LAT LON ELEV TZ
    (map (fun h => ts_year (DateTime h)) df)
    (map (fun h => ts_month (DateTime h)) df)
    (map (fun h => ts_day (DateTime h)) df)
    (map (fun h => ts_hour (DateTime h)) df)
    (map (fun _ => 0) df)
    (map GHI df) (map DNI df) (map DHI df)
    (map TempC df) (map WindSpeed df) (map RelHum df).

(** [run_sam_from_csv] on a file whose cells are dates and numbers, as
    the files [main] hands over are: they have passed
    [validate_sam_csv]. *)
Definition run_sam_from_csv (path : string) (f : Csv) : result SamRes :=
  let df := with_datetime (csv_rows f) in
  let df := if Z.eqb (len df) 8784 then filter (fun h => negb (is_feb29 h)) df else df in
  if negb (Z.eqb (len df) 8760) then Raise (AssertionError "CSV não está com 8760 linhas.")
  else
    match pvwatts (df_to_solar_resource df) with
    | Raise e => Raise e
    | Ok o =>
        Ok (mkSamRes (basename path)
                     (round_ (fdiv (annual_energy o) (Fz 1000)) 3)
                     (fdiv (out_capacity_factor o) (Fz 100))
                     (ac_monthly o)
                     (round_ (elapsed path) 2))
    end.

(** Lines 649-678: one target.  The record appended to [results] and the
    text written to the target's log file; creating [LOG_DIR] and
    writing the file are taken to succeed. *)
Definition run_target (ssp : string) (year : Z) : M (Result * LogText) :=
  try_except
    (out_csv <- morph_one_year _load_nex_one_year_monthly _load_nex_hist_monthly
                  _load_hurs_hist_monthly_from_dir (_load_rsds_tas_from_planilha planilha)
                  planilha_exists _load_wind_clim_from_era5_csvs base_csv
                  nanpercentile95 IRRAD_SCALE MODEL OUT_SAM_CSV_DIR sep ssp year ;;
     print ("Morph OK -> " ++ fst out_csv) ;;;
     lift (validate_sam_csv basename (fst out_csv) (snd out_csv)) ;;;
     print "Validação OK (8760, sem NaN)" ;;;
     try_except
       (res <- lift (run_sam_from_csv (fst out_csv) (snd out_csv)) ;;
        print ("SAM OK | annual_mwh=" ++ str_float (annual_mwh res)
               ++ " | CF=" ++ fmt_3f (capacity_factor res)
               ++ " | t=" ++ str_float (tempo_s res) ++ "s") ;;;
        ret (mkResult (Some res) MODEL (result_ssp ssp year) year None,
             LogJson (mkResult (Some res) MODEL (result_ssp ssp year) year None)))
       (fun e =>
          print ("ERRO (SAM) -> " ++ "SAM falhou: " ++ exn_str e) ;;;
          ret (mkResult None MODEL (result_ssp ssp year) year
                        (Some ("SAM falhou: " ++ exn_str e)),
               LogErro ("SAM falhou: " ++ exn_str e))))%M
    (fun e =>
       print ("ERRO -> " ++ exn_str e) ;;;
       ret (mkResult None MODEL (result_ssp ssp year) year (Some (exn_str e)),
            LogErro (exn_str e)))%M.

(** The records so far and the log files so far, by path. *)
Definition Run : Type := (list Result * list (string * LogText))%type.

(** Lines 645-678: one turn of the loop over the years. *)
Definition year_step (ssp : string) (st : Run) (year : Z) : M Run :=
  if Z.ltb year 2015 && negb (String.eqb ssp (hd "" SCENARIOS)) then ret st
  else
    (rl <- run_target ssp year ;;
     ret ((fst st ++ [fst rl])%list,
          dict_set String.eqb (snd st) (LOG_DIR ++ sep ++ log_file_name ssp year) (snd rl)))%M.

(** Lines 636-678: the two loops of [main]. *)
Definition main_loop : M Run :=
  forM SCENARIOS ([], []) (fun st ssp => forM YEARS st (year_step ssp)).

(** The targets the loops run, in their order. *)
Definition targets : list (string * Z) :=
  flat_map (fun ssp =>
              map (fun year => (ssp, year))
                  (filter (fun year =>
                             negb (Z.ltb year 2015 && negb (String.eqb ssp (hd "" SCENARIOS))))
                          YEARS))
           SCENARIOS.
End Main.

(** The (scenario, year) a record stands for. *)
Definition result_key (r : Result) : Key := (res_ssp r, res_ano r).

(** The name [morph_one_year] gives the file of a target. *)
Definition morph_csv_name (MODEL sub : string) (year : Z) : string :=
  "SAM_" ++ MODEL ++ "_" ++ sub ++ "_" ++ str_int year ++ "_morph.csv".

(** An hour of the night: no irradiance at all. *)
Definition night_row : BaseRow :=
  mkBaseRow (mkHour (mkTimestamp 2019 1 1 0 0) (Fz 0) (Fz 0) (Fz 0) (Fz 22) (Fz 3) (Fz 80)) 1.

(* ================================================================= *)
(** ** Sample data *)

(** The hour of the design document's end-to-end example: global 500,
    direct 300, diffuse 200, 25 degrees, wind 3, humidity 70. *)
Definition sample_hour (m : Z) : Hour :=
  mkHour (mkTimestamp 2019 m 1 0 0) (Fz 500) (Fz 300) (Fz 200) (Fz 25) (Fz 3) (Fz 70).

Definition january_row : BaseRow := mkBaseRow (sample_hour 1) 1.
Definition july_row : BaseRow := mkBaseRow (sample_hour 7) 7.

(** Radiation factor 1.1 in January, every other factor 1, every offset 0. *)
Definition january_deltas : Deltas :=
  mkDeltas (combine (range 1 13) (Fq 11 10 :: repeat (Fz 1) 11))
           (constant_series (Fz 0)) (constant_series (Fz 1)) (constant_series (Fz 0)).

(** Factor 1 and offset 0 in every month. *)
Definition identity_deltas : Deltas :=
  mkDeltas (constant_series (Fz 1)) (constant_series (Fz 0))
           (constant_series (Fz 1)) (constant_series (Fz 0)).


Definition sample_fut : list (string * option Series) :=
  [("rsds", Some (constant_series (Fz 210)));
   ("tas", Some (constant_series (Fz 26)));
   ("sfcWind", Some (constant_series (Fz 3)));
   ("hurs", Some (constant_series (Fz 72)))].

(** A reference file: every hour of year [y], each with the sample
    values. *)
Definition hours_of_year (y : Z) : list Timestamp :=
  flat_map (fun m =>
              flat_map (fun d => map (fun h => mkTimestamp y m d h 0) (range 0 24))
                       (range 1 (days_in_month y m + 1)))
           (range 1 13).

Definition sample_csv (y : Z) : Csv :=
  mkCsv ("DateTime" :: req)
        (map (fun t => mkCsvRow (Some t) (Fz 500) (Fz 300) (Fz 200) (Fz 25) (Fz 3) (Fz 70))
             (hours_of_year y)).

(** What the sample archives hold: historical means of 200 W/m2, 25
    degrees, 3 m/s, 70 percent. *)
Definition sample_hist (v : string) : result Series :=
  if String.eqb v "rsds" then Ok (constant_series (Fz 200))
  else if String.eqb v "tas" then Ok (constant_series (Fz 25))
  else if String.eqb v "sfcWind" then Ok (constant_series (Fz 3))
  else Raise (FileNotFoundError "NEX historical").

Definition sample_hurs_hist : result Series := Ok (constant_series (Fz 70)).

Definition no_file : result Series := Raise (FileNotFoundError "not found").

(** A target year equal to the climatology except for [rsds_jan] in
    January; [hurs] is what the humidity archive of the year gives. *)
Definition sample_year (rsds_jan : Z) (hurs : result Series)
    (v : string) (year : Z) (name : string) : result Series :=
  if String.eqb v "rsds" then Ok (combine (range 1 13) (Fz rsds_jan :: repeat (Fz 200) 11))
  else if String.eqb v "tas" then Ok (constant_series (Fz 25))
  else if String.eqb v "sfcWind" then Ok (constant_series (Fz 3))
  else if String.eqb v "hurs" then hurs
  else Raise (FileNotFoundError "NEX").

(** [morph_one_year] on the sample reference file of 2019, the
    irradiance scale pinned to 1, standard output empty at the start;
    [hist] is what the historical archives give. *)
Definition run_with
    (hist : string -> result Series)
    (one_year : string -> Z -> string -> result Series) (hurs_hist : result Series)
    (ssp : string) (year : Z) : result (string * Csv) * list string :=
  morph_one_year one_year hist hurs_hist
                 (Raise (FileNotFoundError "planilha")) false (Ok (constant_series (Fz 3)))
                 (Ok (sample_csv 2019)) (fun _ => Fz 500) (Some (Fz 1))
                 "ACCESS-CM2" "SAM_CSV_MORPH" "/" ssp year [].

Definition run_sample := run_with sample_hist.

(** Historical archives whose January radiation mean is exactly 0. *)
Definition zero_january_hist (v : string) : result Series :=
  if String.eqb v "rsds" then Ok (combine (range 1 13) (Fz 0 :: repeat (Fz 200) 11))
  else sample_hist v.

(** The rows of the table a run wrote, none if it raised. *)
Definition written_rows (r : result (string * Csv) * list string) : list CsvRow :=
  match fst r with Ok (_, f) => csv_rows f | Raise _ => [] end.

Definition in_month (m : Z) (r : CsvRow) : bool :=
  match c_DateTime r with Some t => Z.eqb (ts_month t) m | None => false end.


(** What [read_era5_base] does to an hour before the leap-day filter:
    the time stamp is floored to the hour, the three irradiance columns
    may be rescaled, nothing else changes. *)
Definition base_image (h h' : Hour) : Prop :=
  DateTime h' = floor_h (DateTime h)
  /\ TempC h' = TempC h /\ WindSpeed h' = WindSpeed h /\ RelHum h' = RelHum h
  /\ is_feb29 h' = is_feb29 h.

(** What the identity deltas do to one reference row. *)
Definition identity_image (r : BaseRow) (h' : Hour) : Prop :=
  let h := hour_of r in
  TempC h' = TempC h
  /\ GHI h' = clip (Some (Fz 0)) None (GHI h)
  /\ WindSpeed h' = clip (Some (Fz 0)) None (WindSpeed h)
  /\ RelHum h' = clip (Some (Fz 0)) (Some (Fz 100)) (RelHum h)
  /\ (fleb (Fz 0) (GHI h) = true -> GHI h' = GHI h)
  /\ (fleb (Fz 0) (WindSpeed h) = true -> WindSpeed h' = WindSpeed h)
  /\ (fleb (Fz 0) (RelHum h) = true -> fleb (RelHum h) (Fz 100) = true ->
      RelHum h' = RelHum h)
  /\ DNI h' = fmul (GHI h')
                (fillna (Fz 0) (clip (Some (Fz 0)) (Some (Fz 1))
                                     (fdiv (DNI h) (fadd (GHI h') eps))))
  /\ DHI h' = fmul (GHI h')
                (clip (Some (Fz 0)) (Some (Fz 1))
                   (fsub (Fz 1)
                      (fillna (Fz 0) (clip (Some (Fz 0)) (Some (Fz 1))
                                           (fdiv (DNI h) (fadd (GHI h') eps)))))).

(** The humidity series the morph can work with: both present with
    twelve values, or the target year's absent and the climatology
    absent or of twelve values. *)
Definition hurs_usable (clim : list (string * Series)) (fut : list (string * option Series))
  : Prop :=
  match get_flat fut "hurs", dict_get String.eqb clim "hurs" with
  | None, None => True
  | None, Some c => len c = 12
  | Some f, Some c => len f = 12 /\ len c = 12
  | Some _, None => False
  end.

(** The last character of a string. *)
Fixpoint last_char (s : string) : option ascii :=
  match s with
  | EmptyString => None
  | String c EmptyString => Some c
  | String _ s' => last_char s'
  end.


(** A log directory and the CSV directories of a small run: a failed
    historical year, a successful 2030, and a 2031 that was morphed but
    left no log. *)
Definition sample_log_dir : list string :=
  ["log_ssp245_2030.txt"; "notes.txt"; "log_historical_2010.txt"].

Definition sample_csv_dir (sub : string) : option (list string) :=
  if String.eqb sub "historical" then Some ["SAM_ACCESS-CM2_historical_2010_morph.csv"]
  else if String.eqb sub "ssp245" then
    Some ["SAM_ACCESS-CM2_ssp245_2030_morph.csv"; "SAM_ACCESS-CM2_ssp245_2031_morph.csv"]
  else None.

Definition sample_parse (name : string) : Parsed :=
  if String.eqb name "log_ssp245_2030.txt" then
    mkParsed true
             (JDict [("arquivo", JStr "SAM_ACCESS-CM2_ssp245_2030_morph.csv");
                     ("annual_mwh", JNum (Fq 1650123 1000));
                     ("capacity_factor", JNum (Fq 1884 10000));
                     ("tempo_s", JNum (Fq 12 100));
                     ("modelo", JStr "ACCESS-CM2"); ("ssp", JStr "ssp245");
                     ("ano", JNum (Fz 2030)); ("erro", JNull)])
             None
  else mkParsed false JNull (Some "SAM falhou").

Definition sample_table : result (list TableRow) :=
  consolidate "ACCESS-CM2" "logs" "SAM_CSV_MORPH" "/" sample_log_dir sample_csv_dir
              sample_parse (fun _ => true).

(** The year 2019 with its first two lines exchanged. *)
Definition unordered_csv : Csv :=
  mkCsv (columns (sample_csv 2019))
        (match csv_rows (sample_csv 2019) with
         | a :: b :: t => b :: a :: t
         | l => l
         end).

(** Climatologies equal to the monthly values of [sample_fut]. *)
Definition sample_fut_clim : list (string * Series) :=
  [("rsds", constant_series (Fz 210));
   ("tas", constant_series (Fz 26));
   ("sfcWind", constant_series (Fz 3));
   ("hurs", constant_series (Fz 72))].

(** Twelve finite values, none of them 0 when [nonzero] is set. *)
Definition usable_values (nonzero : bool) (s : Series) : Prop :=
  len s = 12
  /\ forall x, In x (values s) ->
       exists q, x = Fin q /\ (nonzero = true -> q <> 0%Qc).



(** [str(n)] has four ASCII characters that [(\d{4})] reads back as
    [n]. *)
Definition reads_back (n : Z) : bool :=
  match str_int n with
  | String _ (String _ (String _ (String _ EmptyString))) =>
      is_ascii (str_int n)
      && match four_digits (str_int n) with
         | Some (y, EmptyString) => Z.eqb y n
         | _ => false
         end
  | _ => false
  end.

(** A run of [main] on a machine without the reference file: two
    scenarios, the years 2010 and 2030; SAM would return fixed outputs. *)
Definition sample_pvwatts (sr : SolarResource) : result SamOutputs :=
  Ok (mkSamOutputs (Fz 1650123) (Fq 1884 100) (repeat (Fq 1650123 12) 12)).

Definition sample_main : result Run * list string :=
  main_loop (fun _ _ _ => no_file) (fun _ => no_file) no_file
            (Raise (FileNotFoundError "planilha")) false no_file
            (Raise (FileNotFoundError "base")) (fun _ => Fz 500) (Some (Fz 1))
            "ACCESS-CM2" "SAM_CSV_MORPH" "logs" "/" (fun p => p)
            ["ssp245"; "ssp585"] [2010; 2030]
            (Fq (-217) 10) (Fq (-413) 10) (Fz 20) (Fz (-3))
            sample_pvwatts (fun _ => Fq 12 100) (fun x _ => x)
            (fun _ => "") (fun _ => "") [].

(* ================================================================= *)
(** * Properties *)

(** ** Floats: order and clipping *)

Lemma Qccompare_antisym (a b : Qc) : (b ?= a)%Qc = CompOpp (a ?= b)%Qc.
Proof. unfold Qccompare. symmetry. apply Qcompare_antisym. Qed.

Lemma Qccompare_refl (a : Qc) : (a ?= a)%Qc = Eq.
Proof. apply Qceq_alt. reflexivity. Qed.


Lemma fltb_false_fleb (x y : pyfloat) :
  isna x = false -> isna y = false -> fltb x y = false -> fleb y x = true.
Proof.
  unfold fltb, fleb.
  destruct x as [a| | |], y as [b| | |]; simpl; try congruence.
  rewrite (Qccompare_antisym a b). destruct (a ?= b)%Qc; simpl; congruence.
Qed.

(** A clipped value is NaN or lies between the thresholds. *)
Lemma clip_lower_bound (lo x : pyfloat) :
  isna lo = false ->
  isna (clip (Some lo) None x) = false ->
  fleb lo (clip (Some lo) None x) = true.
Proof.
  intros Hlo. unfold clip.
  destruct x as [a| | |]; simpl; try congruence.
  - destruct (fltb (Fin a) lo) eqn:E; intros _.
    + destruct lo as [l| | |]; try discriminate; unfold fleb; simpl; trivial.
      rewrite Qccompare_refl. reflexivity.
    + apply fltb_false_fleb; auto.
  - destruct (fltb PInf lo) eqn:E; intros _.
    + destruct lo; discriminate.
    + apply fltb_false_fleb; auto.
  - destruct (fltb NInf lo) eqn:E; intros _.
    + destruct lo as [l| | |]; try discriminate; unfold fleb; simpl; trivial.
      rewrite Qccompare_refl. reflexivity.
    + apply fltb_false_fleb; auto.
Qed.

Lemma fleb_refl (x : pyfloat) : isna x = false -> fleb x x = true.
Proof.
  destruct x as [a| | |]; unfold fleb; simpl; try congruence; intros _.
  rewrite Qccompare_refl. reflexivity.
Qed.

Lemma clip_bounds (lo hi x : pyfloat) :
  isna lo = false -> isna hi = false -> fleb lo hi = true ->
  isna (clip (Some lo) (Some hi) x) = false ->
  fleb lo (clip (Some lo) (Some hi) x) = true
  /\ fleb (clip (Some lo) (Some hi) x) hi = true.
Proof.
  intros Hlo Hhi Hle. unfold clip.
  assert (Hx : forall y, isna y = false ->
            isna (if fltb hi y then hi else if fltb y lo then lo else y) = false ->
            fleb lo (if fltb hi y then hi else if fltb y lo then lo else y) = true
            /\ fleb (if fltb hi y then hi else if fltb y lo then lo else y) hi = true).
  { intros y Hy _. destruct (fltb hi y) eqn:E1.
    - split; [assumption | apply fleb_refl; assumption].
    - destruct (fltb y lo) eqn:E2.
      + split; [apply fleb_refl; assumption | assumption].
      + split; apply fltb_false_fleb; auto. }
  destruct x; simpl; try congruence; apply Hx; reflexivity.
Qed.

(** Order facts on canonical rationals, by way of [Q]. *)
Ltac qc_order :=
  unfold Qcle, Qclt, Qcminus, Qcplus, Qcopp, Qcmult, qc in *;
  cbn [this Q2Qc] in *;
  repeat rewrite Qred_correct in *;
  lra.

Lemma fltb_Fin_false (a b : Qc) : fltb (Fin a) (Fin b) = false <-> (b <= a)%Qc.
Proof.
  unfold fltb. simpl. rewrite Qcle_alt, (Qccompare_antisym a b).
  destruct (a ?= b)%Qc; simpl; split; intros; congruence.
Qed.

(** Line 546: whatever the quotient, the direct fraction is a number of
    the unit interval. *)
Lemma unit_fraction (x : pyfloat) :
  exists f : Qc,
    fillna (Fz 0) (clip (Some (Fz 0)) (Some (Fz 1)) x) = Fin f /\ (0 <= f <= 1)%Qc.
Proof.
  destruct x as [a| | |].
  - unfold clip. destruct (fltb (Fz 1) (Fin a)) eqn:E1.
    + exists 1%Qc. split; [reflexivity | split; qc_order].
    + destruct (fltb (Fin a) (Fz 0)) eqn:E2.
      * exists 0%Qc. split; [reflexivity | split; qc_order].
      * exists a. split; [reflexivity |].
        apply fltb_Fin_false in E1, E2. split; assumption.
  - exists 1%Qc. split; [reflexivity | split; qc_order].
  - exists 0%Qc. split; [reflexivity | split; qc_order].
  - exists 0%Qc. split; [reflexivity | split; qc_order].
Qed.

(** Line 547: the diffuse fraction is the complement, clipping is idle. *)
Lemma complement_fraction (f : Qc) :
  (0 <= f <= 1)%Qc ->
  clip (Some (Fz 0)) (Some (Fz 1)) (fsub (Fz 1) (Fin f)) = Fin (1 - f)%Qc
  /\ (0 <= 1 - f <= 1)%Qc.
Proof.
  intros [H0 H1].
  assert (Hc : (0 <= 1 - f <= 1)%Qc) by (split; qc_order).
  split; [| exact Hc].
  unfold fsub, Fz. simpl fneg. simpl fadd.
  change (qc 1 1) with 1%Qc. change (qc 0 1) with 0%Qc.
  change (1 + - f)%Qc with (1 - f)%Qc.
  unfold clip.
  assert (E1 : fltb (Fin 1%Qc) (Fin (1 - f)%Qc) = false)
    by (apply fltb_Fin_false; apply Hc).
  assert (E2 : fltb (Fin (1 - f)%Qc) (Fin 0%Qc) = false)
    by (apply fltb_Fin_false; apply Hc).
  rewrite E1, E2. reflexivity.
Qed.

Lemma frac_dni_unit (dl : Deltas) (r : BaseRow) :
  exists f : Qc, frac_dni_of dl r = Fin f /\ (0 <= f <= 1)%Qc.
Proof. unfold frac_dni_of. apply unit_fraction. Qed.

Lemma frac_dhi_complement (dl : Deltas) (r : BaseRow) (f : Qc) :
  frac_dni_of dl r = Fin f -> (0 <= f <= 1)%Qc ->
  frac_dhi_of dl r = Fin (1 - f)%Qc.
Proof.
  intros Hf Hr. unfold frac_dhi_of. rewrite Hf.
  apply (complement_fraction f Hr).
Qed.

Lemma morph_row_DNI (dl : Deltas) (r : BaseRow) :
  DNI (morph_row dl r) = fmul (GHI (morph_row dl r)) (frac_dni_of dl r).
Proof. reflexivity. Qed.

Lemma morph_row_DHI (dl : Deltas) (r : BaseRow) :
  DHI (morph_row dl r) = fmul (GHI (morph_row dl r)) (frac_dhi_of dl r).
Proof. reflexivity. Qed.

(** Lines 548-549 on a finite global irradiance: a part lies between
    0 and the whole. *)
Lemma part_within_whole (g f : Qc) :
  (0 <= g)%Qc -> (0 <= f <= 1)%Qc -> (0 <= g * f <= g)%Qc.
Proof.
  intros Hg [H0 H1]. split.
  - replace 0%Qc with (0 * f)%Qc by ring. apply Qcmult_le_compat_r; assumption.
  - replace (g * f)%Qc with (f * g)%Qc by ring.
    replace g with (1 * g)%Qc at 2 by ring.
    apply Qcmult_le_compat_r; assumption.
Qed.

(** [restamp] changes the time stamp and nothing else. *)
Lemma restamp_fields (year : Z) (h h' : Hour) :
  restamp year h = Ok h' ->
  GHI h' = GHI h /\ DNI h' = DNI h /\ DHI h' = DHI h /\ TempC h' = TempC h
  /\ WindSpeed h' = WindSpeed h /\ RelHum h' = RelHum h
  /\ ts_year (DateTime h') = year
  /\ ts_month (DateTime h') = ts_month (DateTime h)
  /\ ts_day (DateTime h') = ts_day (DateTime h)
  /\ ts_hour (DateTime h') = ts_hour (DateTime h).
Proof.
  unfold restamp, to_datetime.
  destruct (_ && _); intro H; inversion H; subst; simpl; repeat split; reflexivity.
Qed.

Lemma mapM_In {A B} (f : A -> result B) (l : list A) (out : list B) (y : B) :
  mapM f l = Ok out -> In y out -> exists x, In x l /\ f x = Ok y.
Proof.
  revert out. induction l as [|a l IH]; intros out H Hin; simpl in H.
  - inversion H; subst. contradiction.
  - destruct (f a) eqn:Ea; try discriminate.
    destruct (mapM f l) eqn:El; try discriminate.
    inversion H; subst. destruct Hin as [<- | Hin].
    + exists a. split; [left; reflexivity | assumption].
    + destruct (IH _ eq_refl Hin) as [x [Hx Hfx]].
      exists x. split; [right; assumption | assumption].
Qed.

(** Every hour of a morphed frame is the morph of a reference row, with
    its time stamp moved to the target year. *)
Lemma morph_frame_In (base : list BaseRow) (dl : Deltas) (year : Z)
    (out : list Hour) (h : Hour) :
  morph_frame base dl year = Ok out -> In h out ->
  exists r, In r base /\ restamp year (morph_row dl r) = Ok h.
Proof.
  unfold morph_frame. intros H Hin.
  destruct (mapM_In _ _ _ _ H Hin) as [x [Hx Hfx]].
  apply in_map_iff in Hx. destruct Hx as [r [<- Hr]].
  exists r. split; assumption.
Qed.

Lemma feqb_eq (x y : pyfloat) : feqb x y = true -> x = y.
Proof.
  unfold feqb. destruct x as [a| | |], y as [b| | |]; simpl; try discriminate; trivial.
  destruct (a ?= b)%Qc eqn:E; try discriminate. intros _.
  apply Qceq_alt in E. congruence.
Qed.

Lemma feqb_refl (x : pyfloat) : isna x = false -> feqb x x = true.
Proof.
  unfold feqb. destruct x as [a| | |]; simpl; try discriminate; trivial.
  rewrite Qccompare_refl. reflexivity.
Qed.

Lemma feqb_neq (x y : pyfloat) : feqb x y = false -> isna x = false -> x <> y.
Proof. intros H Hx E. subst y. rewrite (feqb_refl x Hx) in H. discriminate. Qed.

Lemma fleb_fltb_false (x y : pyfloat) : fleb y x = true -> fltb x y = false.
Proof.
  unfold fleb, fltb.
  destruct x as [a| | |], y as [b| | |]; simpl; try congruence.
  rewrite (Qccompare_antisym b a). destruct (b ?= a)%Qc; simpl; congruence.
Qed.

Lemma clip_lower_never_below (lo x : pyfloat) :
  isna lo = false -> fltb (clip (Some lo) None x) lo = false.
Proof.
  intro Hlo. destruct (isna (clip (Some lo) None x)) eqn:E.
  - destruct (clip (Some lo) None x); try discriminate. reflexivity.
  - apply fleb_fltb_false. apply clip_lower_bound; assumption.
Qed.

Lemma clip_never_outside (lo hi x : pyfloat) :
  isna lo = false -> isna hi = false -> fleb lo hi = true ->
  fltb (clip (Some lo) (Some hi) x) lo = false
  /\ fltb hi (clip (Some lo) (Some hi) x) = false.
Proof.
  intros Hlo Hhi Hle. destruct (isna (clip (Some lo) (Some hi) x)) eqn:E.
  - destruct (clip (Some lo) (Some hi) x); try discriminate.
    split; [reflexivity | destruct hi; reflexivity].
  - destruct (clip_bounds lo hi x Hlo Hhi Hle E) as [H1 H2].
    split; apply fleb_fltb_false; assumption.
Qed.

(* ----------------------------------------------------------------- *)
(** ** The direct/diffuse partition *)

(** C3, amended. In every hour of a morphed profile the direct and the
    diffuse irradiance are the global irradiance times a direct fraction
    and times the clipped complement of that fraction, and both
    fractions lie in [0, 1]; when the morphed global irradiance is a
    finite number, it is not negative, and the direct and the diffuse
    irradiance each lie between 0 and it.  (That the two add up to the
    global irradiance is not part of the statement: on float64 they do so
    only up to rounding, and with an infinite factor not at all.) *)
Theorem direct_and_diffuse_within_global
    (base : list BaseRow) (dl : Deltas) (year : Z) (out : list Hour) (h : Hour) :
  morph_frame base dl year = Ok out ->
  In h out ->
  exists (r : BaseRow) (fd fh : Qc),
    In r base
    /\ frac_dni_of dl r = Fin fd /\ frac_dhi_of dl r = Fin fh
    /\ (0 <= fd <= 1)%Qc /\ (0 <= fh <= 1)%Qc
    /\ Fin fh = clip (Some (Fz 0)) (Some (Fz 1)) (fsub (Fz 1) (Fin fd))
    /\ DNI h = fmul (GHI h) (Fin fd)
    /\ DHI h = fmul (GHI h) (Fin fh)
    /\ (forall g : Qc, GHI h = Fin g ->
        (0 <= g)%Qc
        /\ exists n d : Qc,
             DNI h = Fin n /\ DHI h = Fin d
             /\ (0 <= n <= g)%Qc /\ (0 <= d <= g)%Qc).
Proof.
  intros Hm Hin.
  destruct (morph_frame_In _ _ _ _ _ Hm Hin) as [r [Hr Hs]].
  destruct (restamp_fields _ _ _ Hs) as (Hg & Hn & Hd & _).
  destruct (frac_dni_unit dl r) as [fd [Hfd Hrange]].
  pose proof (frac_dhi_complement dl r fd Hfd Hrange) as Hfh.
  destruct (complement_fraction fd Hrange) as [Hclip Hc].
  exists r, fd, (1 - fd)%Qc.
  rewrite Hn, Hd, Hg, morph_row_DNI, morph_row_DHI, Hfd, Hfh.
  split; [exact Hr |]. split; [reflexivity |]. split; [reflexivity |].
  split; [exact Hrange |]. split; [exact Hc |].
  split; [symmetry; exact Hclip |]. split; [reflexivity |]. split; [reflexivity |].
  intros g Eg.
  assert (H0 : (0 <= g)%Qc).
  { pose proof (clip_lower_never_below (Fz 0)
                  (fmul (GHI (hour_of r)) (map_dict (k_rsds dl) (month r))) eq_refl) as Hb.
    change (clip (Some (Fz 0)) None
              (fmul (GHI (hour_of r)) (map_dict (k_rsds dl) (month r))))
      with (GHI (morph_row dl r)) in Hb.
    rewrite Eg in Hb. apply fltb_Fin_false in Hb. exact Hb. }
  split; [exact H0 |].
  rewrite Eg. exists (g * fd)%Qc, (g * (1 - fd))%Qc.
  split; [reflexivity |]. split; [reflexivity |].
  split; apply part_within_whole; assumption.
Qed.

Lemma direct_and_diffuse_within_global_witness :
  morph_frame [january_row] january_deltas 2030
  = Ok [set_DateTime (morph_row january_deltas january_row) (mkTimestamp 2030 1 1 0 0)]
  /\ exists (r : BaseRow) (fd fh : Qc),
       In r [january_row]
       /\ frac_dni_of january_deltas r = Fin fd /\ frac_dhi_of january_deltas r = Fin fh
       /\ (0 <= fd <= 1)%Qc /\ (0 <= fh <= 1)%Qc
       /\ Fin fh = clip (Some (Fz 0)) (Some (Fz 1)) (fsub (Fz 1) (Fin fd))
       /\ DNI (morph_row january_deltas january_row)
          = fmul (GHI (morph_row january_deltas january_row)) (Fin fd)
       /\ DHI (morph_row january_deltas january_row)
          = fmul (GHI (morph_row january_deltas january_row)) (Fin fh)
       /\ (forall g : Qc, GHI (morph_row january_deltas january_row) = Fin g ->
           (0 <= g)%Qc
           /\ exists n d : Qc,
                DNI (morph_row january_deltas january_row) = Fin n
                /\ DHI (morph_row january_deltas january_row) = Fin d
                /\ (0 <= n <= g)%Qc /\ (0 <= d <= g)%Qc).
Proof.
  split; [reflexivity |].
  apply (direct_and_diffuse_within_global [january_row] january_deltas 2030
           [set_DateTime (morph_row january_deltas january_row) (mkTimestamp 2030 1 1 0 0)]
           (set_DateTime (morph_row january_deltas january_row) (mkTimestamp 2030 1 1 0 0))).
  - reflexivity.
  - left; reflexivity.
Defined.

Section Binary64.
Import PrimFloat.
Local Open Scope float_scope.

(** On float64 the two products of lines 548-549 are rounded, and their
    sum is not the global irradiance again: a row with [GHI] 13 and
    [DNI] 2 in a month whose factor is 1 keeps [GHI] 13 and gets a
    direct and a diffuse irradiance that add up to the next float
    above 13, 13.000000000000002.  Both still lie between 0 and 13. *)
Lemma rounded_parts_miss_global :
  B64.morph_irradiance 13 2 1 = (13, 0x1.fffffd6b3c60dp+0, 0x1.600000529873fp+3)
  /\ 0x1.fffffd6b3c60dp+0 + 0x1.600000529873fp+3 = 0x1.a000000000001p+3
  /\ (0x1.a000000000001p+3 =? 13) = false
  /\ (0 <=? 0x1.fffffd6b3c60dp+0) = true /\ (0x1.fffffd6b3c60dp+0 <=? 13) = true
  /\ (0 <=? 0x1.600000529873fp+3) = true /\ (0x1.600000529873fp+3 <=? 13) = true.
Proof. repeat split; vm_compute; reflexivity. Qed.
End Binary64.

(* ----------------------------------------------------------------- *)
(** ** Clamped and unclamped fields *)

(** C7, amended. In every hour of a morphed profile the global
    irradiance and the wind speed are never below 0 and the relative
    humidity is never below 0 nor above 100; unless the value is NaN,
    which the clamps let through, global irradiance and wind speed are
    at least 0 and relative humidity lies within [0, 100].  The
    temperature is the reference temperature plus the offset of the
    month, nothing being clipped. *)
Theorem morphed_fields_clamped
    (base : list BaseRow) (dl : Deltas) (year : Z) (out : list Hour) (h : Hour) :
  morph_frame base dl year = Ok out ->
  In h out ->
  fltb (GHI h) (Fz 0) = false
  /\ fltb (WindSpeed h) (Fz 0) = false
  /\ fltb (RelHum h) (Fz 0) = false /\ fltb (Fz 100) (RelHum h) = false
  /\ (isna (GHI h) = false -> fleb (Fz 0) (GHI h) = true)
  /\ (isna (WindSpeed h) = false -> fleb (Fz 0) (WindSpeed h) = true)
  /\ (isna (RelHum h) = false ->
      fleb (Fz 0) (RelHum h) = true /\ fleb (RelHum h) (Fz 100) = true)
  /\ exists r : BaseRow,
       In r base
       /\ TempC h = fadd (TempC (hour_of r)) (map_dict (d_tas dl) (month r)).
Proof.
  intros Hm Hin.
  destruct (morph_frame_In _ _ _ _ _ Hm Hin) as [r [Hr Hs]].
  destruct (restamp_fields _ _ _ Hs) as (Hg & _ & _ & Ht & Hw & Hh & _).
  rewrite Hg, Hw, Hh, Ht. unfold morph_row; cbn [GHI WindSpeed RelHum TempC].
  assert (H100 : fleb (Fz 0) (Fz 100) = true) by reflexivity.
  repeat split.
  - apply clip_lower_never_below; reflexivity.
  - apply clip_lower_never_below; reflexivity.
  - apply clip_never_outside; auto.
  - apply clip_never_outside; auto.
  - apply clip_lower_bound; reflexivity.
  - apply clip_lower_bound; reflexivity.
  - apply clip_bounds; auto.
  - apply clip_bounds; auto.
  - exists r. split; [assumption | reflexivity].
Qed.

Lemma morphed_fields_clamped_witness :
  morph_frame [july_row] january_deltas 2030
  = Ok [set_DateTime (morph_row january_deltas july_row) (mkTimestamp 2030 7 1 0 0)]
  /\ fleb (Fz 0) (GHI (morph_row january_deltas july_row)) = true
  /\ fleb (Fz 0) (WindSpeed (morph_row january_deltas july_row)) = true
  /\ fleb (Fz 0) (RelHum (morph_row january_deltas july_row)) = true
  /\ fleb (RelHum (morph_row january_deltas july_row)) (Fz 100) = true.
Proof.
  pose proof (morphed_fields_clamped [july_row] january_deltas 2030
                [set_DateTime (morph_row january_deltas july_row) (mkTimestamp 2030 7 1 0 0)]
                (set_DateTime (morph_row january_deltas july_row) (mkTimestamp 2030 7 1 0 0))
                eq_refl (or_introl eq_refl))
    as (_ & _ & _ & _ & Hg & Hw & Hh & _).
  split; [reflexivity |].
  split; [apply Hg; reflexivity |].
  split; [apply Hw; reflexivity |].
  apply Hh; reflexivity.
Defined.

(* ----------------------------------------------------------------- *)
(** ** Which global irradiance the direct fraction divides by *)

(** The design document's example on one row (global 500, direct 300,
    diffuse 200, radiation factor 1.1): the morphed global irradiance is
    550, the direct fraction is 300 / (550 + 1e-6), the reference direct
    irradiance over the NEW global irradiance. *)
Lemma january_row_partition :
  GHI (morph_row january_deltas january_row) = Fz 550
  /\ frac_dni_of january_deltas january_row = fdiv (Fz 300) (fadd (Fz 550) eps)
  /\ frac_dni_of january_deltas january_row = Fq 300000000 550000001
  /\ DNI (morph_row january_deltas january_row) = Fq 165000000000 550000001
  /\ DHI (morph_row january_deltas january_row) = Fq 137500000550 550000001
  /\ DNI (morph_row january_deltas january_row) <> Fz 330
  /\ DHI (morph_row january_deltas january_row) <> Fz 220
  /\ fltb (DNI (morph_row january_deltas january_row)) (Fz 300) = true
  /\ fltb (Fz 250) (DHI (morph_row january_deltas january_row)) = true.
Proof.
  repeat split; try (apply feqb_eq; vm_compute; reflexivity);
    try (apply feqb_neq; vm_compute; reflexivity);
    vm_compute; reflexivity.
Qed.

(* ----------------------------------------------------------------- *)
(** ** Identity deltas *)

Lemma fadd_0_r (x : pyfloat) : fadd x (Fz 0) = x.
Proof.
  destruct x as [a| | |]; try reflexivity.
  unfold Fz. simpl. change (qc 0 1) with 0%Qc. rewrite Qcplus_0_r. reflexivity.
Qed.

Lemma fmul_1_r (x : pyfloat) : fmul x (Fz 1) = x.
Proof.
  destruct x as [a| | |]; try reflexivity.
  unfold Fz. simpl. change (qc 1 1) with 1%Qc. rewrite Qcmult_1_r. reflexivity.
Qed.

Lemma map_dict_constant (v : pyfloat) (m : Z) :
  1 <= m <= 12 -> map_dict (constant_series v) m = v.
Proof.
  intro H.
  assert (Hm : m = 1 \/ m = 2 \/ m = 3 \/ m = 4 \/ m = 5 \/ m = 6 \/ m = 7
               \/ m = 8 \/ m = 9 \/ m = 10 \/ m = 11 \/ m = 12) by lia.
  repeat (destruct Hm as [-> | Hm]; [reflexivity |]). subst m. reflexivity.
Qed.

Lemma clip_lower_idle (lo x : pyfloat) :
  fleb lo x = true -> clip (Some lo) None x = x.
Proof.
  intro H. unfold clip. destruct x; try reflexivity;
    rewrite (fleb_fltb_false _ _ H); reflexivity.
Qed.

Lemma clip_idle (lo hi x : pyfloat) :
  fleb lo x = true -> fleb x hi = true -> clip (Some lo) (Some hi) x = x.
Proof.
  intros H1 H2. unfold clip. destruct x; try reflexivity;
    rewrite (fleb_fltb_false _ _ H1), (fleb_fltb_false _ _ H2); reflexivity.
Qed.

Lemma mapM_Forall2 {A B} (f : A -> result B) (l : list A) (out : list B) :
  mapM f l = Ok out -> Forall2 (fun x y => f x = Ok y) l out.
Proof.
  revert out. induction l as [|a l IH]; intros out H; simpl in H.
  - inversion H. constructor.
  - destruct (f a) eqn:Ea; try discriminate.
    destruct (mapM f l) eqn:El; try discriminate.
    inversion H; subst. constructor; [assumption | apply IH; reflexivity].
Qed.

Lemma identity_row (r : BaseRow) :
  1 <= month r <= 12 -> identity_image r (morph_row identity_deltas r).
Proof.
  intro Hm. unfold identity_image, morph_row, identity_deltas.
  cbn [GHI DNI DHI TempC WindSpeed RelHum k_rsds d_tas k_wspd d_hurs].
  rewrite !(map_dict_constant _ _ Hm), !fadd_0_r, !fmul_1_r.
  repeat match goal with |- _ /\ _ => split end; try reflexivity.
  - intro H. apply clip_lower_idle; assumption.
  - intro H. apply clip_lower_idle; assumption.
  - intros H1 H2. apply clip_idle; assumption.
Qed.

(** C2, counterexample: the identity deltas applied to the one-hour
    profile (global 500, direct 300, diffuse 200) in its own year do
    not give the profile back: direct and diffuse are recomputed from
    direct / (global + 1e-6). *)
Lemma identity_morph_changes_profile :
  exists out : list Hour,
    morph_frame [january_row] identity_deltas 2019 = Ok out
    /\ out <> map hour_of [january_row]
    /\ (forall h, In h out -> DNI h <> Fz 300 /\ DHI h <> Fz 200).
Proof.
  exists [morph_row identity_deltas january_row].
  split; [reflexivity |].
  assert (Hn : DNI (morph_row identity_deltas january_row) <> Fz 300)
    by (apply feqb_neq; vm_compute; reflexivity).
  assert (Hd : DHI (morph_row identity_deltas january_row) <> Fz 200)
    by (apply feqb_neq; vm_compute; reflexivity).
  split.
  - intro E. apply Hn.
    apply (f_equal (fun l => DNI (hd (sample_hour 1) l))) in E. exact E.
  - intros h [<- | []]. split; assumption.
Qed.

(** C2, amended. Morphing a reference profile with the identity deltas
    leaves every temperature unchanged, leaves global irradiance and
    wind speed unchanged where they are not negative and relative
    humidity unchanged where it lies within [0, 100] (it clips them
    otherwise), and recomputes direct and diffuse irradiance from the
    global irradiance and the fraction direct / (global + 1e-6). *)
Theorem identity_morph
    (base : list BaseRow) (year : Z) (out : list Hour) :
  (forall r, In r base -> 1 <= month r <= 12) ->
  morph_frame base identity_deltas year = Ok out ->
  Forall2 identity_image base out.
Proof.
  unfold morph_frame. intros Hmon H.
  apply mapM_Forall2 in H.
  remember (map (morph_row identity_deltas) base) as l eqn:El.
  revert base Hmon El. induction H as [|x y l out Hxy Hrest IH]; intros base Hmon El.
  - destruct base; [constructor | discriminate].
  - destruct base as [|r base]; [discriminate |].
    simpl in El. inversion El; subst. constructor.
    + pose proof (identity_row r (Hmon r (or_introl eq_refl))) as Hi.
      destruct (restamp_fields _ _ _ Hxy) as (Hg & Hn & Hd & Ht & Hw & Hh & _).
      unfold identity_image in *. rewrite Hg, Hn, Hd, Ht, Hw, Hh. exact Hi.
    + apply IH; [intros r' Hr'; apply Hmon; right; assumption | reflexivity].
Qed.

Lemma identity_morph_witness :
  (forall r, In r [january_row] -> 1 <= month r <= 12)
  /\ morph_frame [january_row] identity_deltas 2019
     = Ok [morph_row identity_deltas january_row]
  /\ Forall2 identity_image [january_row] [morph_row identity_deltas january_row].
Proof.
  assert (Hm : forall r, In r [january_row] -> 1 <= month r <= 12).
  { intros r [<- | []]. simpl. lia. }
  split; [exact Hm |]. split; [reflexivity |].
  apply (identity_morph [january_row] 2019 [morph_row identity_deltas january_row] Hm).
  reflexivity.
Defined.

(* ----------------------------------------------------------------- *)
(** ** Monthly factors and offsets *)

Lemma len_12 {A} (xs : list A) :
  len xs = 12 ->
  exists a b c d e f g h i j k l, xs = [a; b; c; d; e; f; g; h; i; j; k; l].
Proof.
  unfold len. intro H.
  do 12 (destruct xs as [|? xs]; [simpl in H; lia |]).
  destruct xs; [| simpl in H; lia].
  repeat eexists.
Qed.

Lemma as_monthly_seq (xs : list pyfloat) (name : string) (an : bool) (fill : option pyfloat) :
  len xs = 12 ->
  _as_monthly_series (PSeq xs) name an fill = Ok (combine (range 1 13) xs).
Proof. intro H. unfold _as_monthly_series. rewrite H. reflexivity. Qed.

Lemma len_values (s : Series) : len (values s) = len s.
Proof. unfold len, values. rewrite length_map. reflexivity. Qed.

Lemma as_monthly_get (o : option Series) (s : Series) (name : string)
    (an : bool) (fill : option pyfloat) :
  o = Some s -> len s = 12 ->
  _as_monthly_series (of_get o) name an fill = Ok (combine (range 1 13) (values s)).
Proof.
  intros -> H. unfold of_get. apply as_monthly_seq. rewrite len_values. assumption.
Qed.

(** The value of month [m] in a series built from twelve values. *)
Lemma map_dict_combine (xs : list pyfloat) (m : Z) :
  len xs = 12 -> 1 <= m <= 12 ->
  map_dict (combine (range 1 13) xs) m = nth (Z.to_nat (m - 1)) xs NaN.
Proof.
  intros H Hm.
  destruct (len_12 xs H) as (a & b & c & d & e & f & g & h & i & j & k & l & ->).
  assert (Hc : m = 1 \/ m = 2 \/ m = 3 \/ m = 4 \/ m = 5 \/ m = 6 \/ m = 7
               \/ m = 8 \/ m = 9 \/ m = 10 \/ m = 11 \/ m = 12) by lia.
  repeat (destruct Hc as [-> | Hc]; [reflexivity |]). subst m. reflexivity.
Qed.

Lemma lookup_series_binop (f : pyfloat -> pyfloat -> pyfloat) (a b : Series) (m : Z) :
  lookup m (series_binop f a b)
  = option_map (fun x => f x (map_dict b m)) (lookup m a).
Proof.
  induction a as [|[k v] a IH]; simpl; [reflexivity |].
  destruct (Z.eqb k m) eqn:E.
  - apply Z.eqb_eq in E. subst k. reflexivity.
  - exact IH.
Qed.

Lemma map_dict_fdiv (a b : Series) (m : Z) :
  map_dict (series_binop fdiv a b) m = fdiv (map_dict a m) (map_dict b m).
Proof.
  unfold map_dict at 1 2. rewrite lookup_series_binop.
  destruct (lookup m a); reflexivity.
Qed.

Lemma map_dict_fsub (a b : Series) (m : Z) :
  map_dict (series_binop fsub a b) m = fsub (map_dict a m) (map_dict b m).
Proof.
  unfold map_dict at 1 2. rewrite lookup_series_binop.
  destruct (lookup m a); reflexivity.
Qed.






(* ----------------------------------------------------------------- *)
(** ** The end-to-end example *)

Lemma forallb_In {A} (p : A -> bool) (l : list A) (x : A) :
  forallb p l = true -> In x l -> p x = true.
Proof. intros H Hin. rewrite forallb_forall in H. apply H. exact Hin. Qed.

(** C1, on the design document's end-to-end example: 8760 hours of 2019
    with global 500, direct 300, diffuse 200; the January radiation of
    the target year is 1.1 times the climatology, everything else
    equals it.  The morph succeeds and writes 8760 hours; in every
    January hour the global irradiance is 550, but the direct
    irradiance is 550 * 300 / (550 + 1e-6), just under 300, and the
    diffuse one just over 250: not 330 and 220.  The fraction is taken
    over the morphed global irradiance, not carried from the reference
    hour. *)
Theorem january_example_partition_not_kept :
  let run := run_sample (sample_year 220 (Ok (constant_series (Fz 70))))
                        sample_hurs_hist "ssp245" 2030 in
  (exists f, fst run = Ok ("SAM_CSV_MORPH/ssp245/SAM_ACCESS-CM2_ssp245_2030_morph.csv", f))
  /\ len (written_rows run) = 8760
  /\ len (filter (in_month 1) (written_rows run)) = 744
  /\ forall r, In r (written_rows run) -> in_month 1 r = true ->
       c_GHI r = Fz 550
       /\ c_DNI r = Fq 165000000000 550000001
       /\ c_DHI r = Fq 137500000550 550000001
       /\ c_DNI r <> Fz 330 /\ c_DHI r <> Fz 220.
Proof.
  intro run.
  split.
  { assert (Hb : match fst run with
                 | Ok (p, _) =>
                     String.eqb p "SAM_CSV_MORPH/ssp245/SAM_ACCESS-CM2_ssp245_2030_morph.csv"
                 | Raise _ => false
                 end = true) by (vm_compute; reflexivity).
    destruct (fst run) as [[p f]|e]; [| discriminate].
    apply String.eqb_eq in Hb. subst p. exists f. reflexivity. }
  split; [vm_compute; reflexivity |].
  split; [vm_compute; reflexivity |].
  assert (H : forallb (fun r => implb (in_month 1 r)
                                   (feqb (c_GHI r) (Fz 550)
                                    && (feqb (c_DNI r) (Fq 165000000000 550000001)
                                        && feqb (c_DHI r) (Fq 137500000550 550000001))))
                      (written_rows run) = true) by (vm_compute; reflexivity).
  assert (Hn : Fq 165000000000 550000001 <> Fz 330)
    by (apply feqb_neq; vm_compute; reflexivity).
  assert (Hd : Fq 137500000550 550000001 <> Fz 220)
    by (apply feqb_neq; vm_compute; reflexivity).
  intros r Hin Hjan. pose proof (forallb_In _ _ _ H Hin) as Hr. cbv beta in Hr.
  rewrite Hjan in Hr. change (implb true ?b) with b in Hr.
  apply andb_prop in Hr. destruct Hr as [Hg Hr].
  apply andb_prop in Hr. destruct Hr as [Hi Hh].
  apply feqb_eq in Hg, Hi, Hh. rewrite Hg, Hi, Hh.
  repeat match goal with |- _ /\ _ => split end; try reflexivity; assumption.
Qed.

(* ----------------------------------------------------------------- *)
(** ** Infinite and missing values *)

(** C3, counterexample: the January radiation climatology is exactly 0
    and the January radiation of the target year positive.  The morph of
    the sample year succeeds, and in each of its 744 January hours the
    global irradiance is +infinity, the direct irradiance NaN (infinity
    times the fraction 0) and the diffuse one +infinity: direct plus
    diffuse is NaN, not the global irradiance. *)
Lemma infinite_global_breaks_sum :
  let run := run_with zero_january_hist (sample_year 220 (Ok (constant_series (Fz 70))))
                      sample_hurs_hist "ssp245" 2030 in
  (exists p f, fst run = Ok (p, f))
  /\ len (filter (in_month 1) (written_rows run)) = 744
  /\ forall r, In r (written_rows run) -> in_month 1 r = true ->
       c_GHI r = PInf /\ c_DNI r = NaN /\ c_DHI r = PInf
       /\ fadd (c_DNI r) (c_DHI r) <> c_GHI r.
Proof.
  intro run. split.
  { assert (Hb : match fst run with Ok _ => true | Raise _ => false end = true)
      by (vm_compute; reflexivity).
    destruct (fst run) as [[p f]|e]; [| discriminate Hb]. exists p, f. reflexivity. }
  split; [vm_compute; reflexivity |].
  assert (H : forallb (fun r => implb (in_month 1 r)
                                   (match c_GHI r, c_DNI r, c_DHI r with
                                    | PInf, NaN, PInf => true
                                    | _, _, _ => false
                                    end))
                      (written_rows run) = true) by (vm_compute; reflexivity).
  intros r Hin Hjan. pose proof (forallb_In _ _ _ H Hin) as Hr. cbv beta in Hr.
  rewrite Hjan in Hr. change (implb true ?b) with b in Hr.
  clear H Hin Hjan.
  destruct (c_GHI r); try discriminate Hr.
  destruct (c_DNI r); try discriminate Hr.
  destruct (c_DHI r); try discriminate Hr.
  repeat split. intro E. discriminate E.
Qed.

(** C7, counterexample: the humidity archive of the target year gives
    NaN (a masked grid cell).  The morph succeeds and writes 8760 hours
    whose relative humidity is NaN, which is not within [0, 100]; it is
    the validator that then refuses the file. *)
Lemma nan_humidity_passes_clamp :
  let run := run_sample (sample_year 200 (Ok (constant_series NaN)))
                        sample_hurs_hist "ssp245" 2030 in
  (exists p f,
      fst run = Ok (p, f)
      /\ validate_sam_csv (fun x => x) p f = Raise (ValueError "NaN após morph."))
  /\ len (written_rows run) = 8760
  /\ forall r, In r (written_rows run) ->
       c_RelHum r = NaN
       /\ fleb (Fz 0) (c_RelHum r) = false /\ fleb (c_RelHum r) (Fz 100) = false.
Proof.
  intro run. split.
  { assert (Hb : match fst run with
                 | Ok (p, f) =>
                     match validate_sam_csv (fun x => x) p f with
                     | Raise (ValueError m) => String.eqb m "NaN após morph."
                     | _ => false
                     end
                 | Raise _ => false
                 end = true) by (vm_compute; reflexivity).
    destruct (fst run) as [[p f]|e]; [| discriminate Hb]. exists p, f.
    split; [reflexivity |].
    destruct (validate_sam_csv (fun x => x) p f) as [u | [m | m | m | m | k m]];
      try discriminate Hb.
    apply String.eqb_eq in Hb. subst m. reflexivity. }
  split; [vm_compute; reflexivity |].
  assert (H : forallb (fun r => isna (c_RelHum r)) (written_rows run) = true)
    by (vm_compute; reflexivity).
  intros r Hin. pose proof (forallb_In _ _ _ H Hin) as Hr. cbv beta in Hr.
  clear H Hin.
  destruct (c_RelHum r); try discriminate Hr. repeat split.
Qed.

(* ----------------------------------------------------------------- *)
(** ** Missing humidity data *)

(** C5, on the sample reference year.  (a) The humidity file of the
    target year is missing while the humidity climatology (70 percent)
    loaded: nothing is printed about humidity, the offset is
    0 - 70 in every month and every morphed hour has relative humidity
    0.  (b) The humidity climatology failed to load while the target
    year has humidity: the warning announcing a zero delta is printed
    and the morph then raises a ValueError.  (c) Only when both are
    missing is the offset 0 throughout. *)
Theorem missing_humidity_divergence :
  let wind := "[AVISO] Usando climatologia ERA5 (seus CSVs) para 'sfcWind' (1994–2014)." in
  let warn := "[AVISO] Climatologia histórica de 'hurs' indisponível. Delta 0% será usado." in
  let a := run_sample (sample_year 200 no_file) sample_hurs_hist "ssp245" 2030 in
  let b := run_sample (sample_year 200 (Ok (constant_series (Fz 72)))) no_file "ssp245" 2030 in
  let c := run_sample (sample_year 200 no_file) no_file "ssp245" 2030 in
  ((exists p f, fst a = Ok (p, f))
   /\ snd a = [wind]
   /\ len (written_rows a) = 8760
   /\ forall r, In r (written_rows a) -> c_RelHum r = Fz 0)
  /\ b = (Raise (ValueError "Climatologia/futuro de 'clim.hurs' está ausente (None)."),
          [wind; warn])
  /\ ((exists p f, fst c = Ok (p, f))
      /\ snd c = [wind; warn]
      /\ len (written_rows c) = 8760
      /\ forall r, In r (written_rows c) -> c_RelHum r = Fz 70).
Proof.
  intros wind warn a b c.
  split; [| split].
  - split.
    { assert (Hb : match fst a with Ok _ => true | Raise _ => false end = true)
      by (vm_compute; reflexivity).
    destruct (fst a) as [[p f]|e]; [| discriminate]. exists p, f. reflexivity. }
    split; [vm_compute; reflexivity |].
    split; [vm_compute; reflexivity |].
    assert (H : forallb (fun r => feqb (c_RelHum r) (Fz 0)) (written_rows a) = true)
      by (vm_compute; reflexivity).
    intros r Hin. apply feqb_eq. exact (forallb_In _ _ _ H Hin).
  - vm_compute. reflexivity.
  - split.
    { assert (Hb : match fst c with Ok _ => true | Raise _ => false end = true)
      by (vm_compute; reflexivity).
    destruct (fst c) as [[p f]|e]; [| discriminate]. exists p, f. reflexivity. }
    split; [vm_compute; reflexivity |].
    split; [vm_compute; reflexivity |].
    assert (H : forallb (fun r => feqb (c_RelHum r) (Fz 70)) (written_rows c) = true)
      by (vm_compute; reflexivity).
    intros r Hin. apply feqb_eq. exact (forallb_In _ _ _ H Hin).
Qed.

(** With the target year's humidity missing and a climatology of twelve
    values present, the offset of every month is minus the climatology. *)
Lemma hurs_offset_without_projection
    (clim : list (string * Series)) (fut : list (string * option Series))
    (ch : Series) (dl : Deltas) (m : Z) :
  get_flat fut "hurs" = None ->
  dict_get String.eqb clim "hurs" = Some ch -> len ch = 12 ->
  monthly_deltas clim fut = Ok dl ->
  1 <= m <= 12 ->
  map_dict (d_hurs dl) m = fsub (Fz 0) (nth (Z.to_nat (m - 1)) (values ch) NaN).
Proof.
  intros Hf Hc Lc Hd Hm. unfold monthly_deltas in Hd.
  repeat match type of Hd with
         | rbind (_as_monthly_series ?x ?n ?a ?f) _ = _ =>
             destruct (_as_monthly_series x n a f); cbn [rbind] in Hd; [| discriminate]
         end.
  rewrite Hf, Hc in Hd.
  change (_as_monthly_series PNone "fut.hurs" true (Some (Fz 0)))
    with (@Ok Series (constant_series (Fz 0))) in Hd.
  cbn [rbind] in Hd.
  rewrite (as_monthly_seq (values ch) "clim.hurs" true (Some (Fz 0))) in Hd
    by (rewrite len_values; assumption).
  cbn [rbind fst snd] in Hd.
  apply (f_equal (fun r => match r with
                           | Ok d => map_dict (d_hurs d) m
                           | Raise _ => NaN
                           end)) in Hd.
  cbv beta iota in Hd. cbn [d_hurs] in Hd. rewrite <- Hd.
  rewrite map_dict_fsub.
  rewrite (map_dict_constant (Fz 0) m Hm).
  rewrite map_dict_combine by (try rewrite len_values; assumption).
  reflexivity.
Qed.

(* ----------------------------------------------------------------- *)
(** ** Scenario of a target *)

Lemma ssp_name_cases (ssp : string) (year : Z) :
  (year < 2015 -> ssp_name ssp year = "historical")
  /\ (2015 <= year -> ssp_name ssp year = ssp).
Proof.
  unfold ssp_name. rewrite Z.geb_leb.
  destruct (Z.leb_spec 2015 year); split; intro; try reflexivity; lia.
Qed.

Lemma out_subdir_cases (ssp : string) (year : Z) :
  (year < 2015 -> out_subdir ssp year = "historical")
  /\ (2015 <= year -> out_subdir ssp year = ssp).
Proof.
  unfold out_subdir.
  destruct (Z.ltb_spec year 2015); split; intro; try reflexivity; lia.
Qed.

(** C6. For every nominal scenario and target year: before 2015 the
    scenario whose projection files are searched, the output
    sub-directory (which also enters the file name) and the scenario
    entry of the result record and log name are all "historical"; from
    2015 on all three are the nominal scenario.  The three never differ;
    what [load_future_monthly] returns depends on the files of that
    scenario only. *)
Theorem scenario_resolution_consistent
    (loader : string -> Z -> string -> result Series)
    (MODEL OUT_SAM_CSV_DIR sep ssp : string) (year : Z) :
  (year < 2015 ->
     ssp_name ssp year = "historical" /\ out_subdir ssp year = "historical"
     /\ result_ssp ssp year = "historical")
  /\ (2015 <= year ->
     ssp_name ssp year = ssp /\ out_subdir ssp year = ssp /\ result_ssp ssp year = ssp)
  /\ ssp_name ssp year = out_subdir ssp year
  /\ out_subdir ssp year = result_ssp ssp year
  /\ (forall loader' : string -> Z -> string -> result Series,
        (forall v, loader' v year (ssp_name ssp year) = loader v year (ssp_name ssp year)) ->
        load_future_monthly loader' ssp year = load_future_monthly loader ssp year)
  /\ out_path MODEL OUT_SAM_CSV_DIR sep ssp year
     = OUT_SAM_CSV_DIR ++ sep ++ result_ssp ssp year ++ sep
       ++ "SAM_" ++ MODEL ++ "_" ++ result_ssp ssp year ++ "_" ++ str_int year ++ "_morph.csv"
  /\ log_file_name ssp year = "log_" ++ result_ssp ssp year ++ "_" ++ str_int year ++ ".txt".
Proof.
  destruct (ssp_name_cases ssp year) as [Hn1 Hn2].
  destruct (out_subdir_cases ssp year) as [Ho1 Ho2].
  assert (Hr : result_ssp ssp year = out_subdir ssp year) by reflexivity.
  assert (Heq : ssp_name ssp year = out_subdir ssp year).
  { destruct (Z.lt_ge_cases year 2015) as [H | H].
    - rewrite (Hn1 H), (Ho1 H). reflexivity.
    - rewrite (Hn2 H), (Ho2 H). reflexivity. }
  repeat match goal with |- _ /\ _ => split end.
  - intro H. rewrite Hr, (Hn1 H), (Ho1 H). repeat split.
  - intro H. rewrite Hr, (Hn2 H), (Ho2 H). repeat split.
  - exact Heq.
  - symmetry. exact Hr.
  - intros loader' H. unfold load_future_monthly, VARS. cbn [fold_left].
    unfold load_future_var. cbn [rbind]. rewrite !H. reflexivity.
  - unfold out_path. rewrite Hr. reflexivity.
  - reflexivity.
Qed.

(** The boundary years 2014 and 2015 under ssp585. *)
Lemma scenario_boundary :
  (ssp_name "ssp585" 2014 = "historical" /\ out_subdir "ssp585" 2014 = "historical"
   /\ result_ssp "ssp585" 2014 = "historical")
  /\ (ssp_name "ssp585" 2015 = "ssp585" /\ out_subdir "ssp585" 2015 = "ssp585"
      /\ result_ssp "ssp585" 2015 = "ssp585").
Proof.
  split.
  - apply (scenario_resolution_consistent (fun _ _ _ => no_file) "ACCESS-CM2" "out" "/"
             "ssp585" 2014). lia.
  - apply (scenario_resolution_consistent (fun _ _ _ => no_file) "ACCESS-CM2" "out" "/"
             "ssp585" 2015). lia.
Defined.

(* ----------------------------------------------------------------- *)
(** ** Construction of monthly series *)

Lemma index_constant (v : pyfloat) : map fst (constant_series v) = months.
Proof. reflexivity. Qed.

Lemma index_combine (xs : list pyfloat) :
  len xs = 12 -> map fst (combine (range 1 13) xs) = months /\ values (combine (range 1 13) xs) = xs.
Proof.
  intro H.
  destruct (len_12 xs H) as (a & b & c & d & e & f & g & h & i & j & k & l & ->).
  split; reflexivity.
Qed.

(** Whatever it is built from, a monthly series has the index 1..12. *)
Lemma as_monthly_index (x : pyval) (name : string) (an : bool) (fill : option pyfloat)
    (s : Series) :
  _as_monthly_series x name an fill = Ok s -> map fst s = months.
Proof.
  unfold _as_monthly_series. destruct x as [|n|v|xs].
  - destruct an; [| discriminate]. destruct fill; [| discriminate].
    intro H. injection H as <-. apply index_constant.
  - destruct (float_of_int n); [| discriminate].
    intro H. injection H as <-. apply index_constant.
  - intro H. injection H as <-. apply index_constant.
  - destruct (Z.eqb_spec (len xs) 12) as [E | E]; cbn [negb]; [| discriminate].
    intro H. injection H as <-. apply index_combine. exact E.
Qed.

Lemma index_series_binop (f : pyfloat -> pyfloat -> pyfloat) (a b : Series) :
  map fst (series_binop f a b) = map fst a.
Proof.
  unfold series_binop. rewrite map_map. apply map_ext. intros [k v]. reflexivity.
Qed.

Lemma monthly_deltas_index
    (clim : list (string * Series)) (fut : list (string * option Series)) (dl : Deltas) :
  monthly_deltas clim fut = Ok dl ->
  map fst (k_rsds dl) = months /\ map fst (d_tas dl) = months
  /\ map fst (k_wspd dl) = months /\ map fst (d_hurs dl) = months.
Proof.
  unfold monthly_deltas. intro H.
  destruct (_as_monthly_series (of_get (dict_get String.eqb clim "rsds")) "clim.rsds" false None)
    as [cr|] eqn:Ecr; cbn [rbind] in H; [| discriminate].
  destruct (_as_monthly_series (of_get (dict_get String.eqb clim "tas")) "clim.tas" false None)
    as [ct|] eqn:Ect; cbn [rbind] in H; [| discriminate].
  destruct (_as_monthly_series (of_get (dict_get String.eqb clim "sfcWind")) "clim.sfcWind" false None)
    as [cw|] eqn:Ecw; cbn [rbind] in H; [| discriminate].
  destruct (_as_monthly_series (of_get (get_flat fut "rsds")) "fut.rsds" false None)
    as [fr|] eqn:Efr; cbn [rbind] in H; [| discriminate].
  destruct (_as_monthly_series (of_get (get_flat fut "tas")) "fut.tas" false None)
    as [ft|] eqn:Eft; cbn [rbind] in H; [| discriminate].
  destruct (_as_monthly_series (of_get (get_flat fut "sfcWind")) "fut.sfcWind" false None)
    as [fw|] eqn:Efw; cbn [rbind] in H; [| discriminate].
  match type of H with rbind ?h _ = _ => destruct h as [[fh chh]|] eqn:Eh end;
    cbn [rbind fst snd] in H; [| discriminate].
  assert (Hfh : map fst fh = months).
  { destruct (get_flat fut "hurs").
    - destruct (_as_monthly_series (of_get (Some s)) "fut.hurs" false None) as [x|] eqn:Ex;
        cbn [rbind] in Eh; [| discriminate].
      destruct (_as_monthly_series (of_get (dict_get String.eqb clim "hurs")) "clim.hurs" false None)
        as [y|] eqn:Ey; cbn [rbind] in Eh; [| discriminate].
      injection Eh as <- <-. exact (as_monthly_index _ _ _ _ _ Ex).
    - destruct (_as_monthly_series PNone "fut.hurs" true (Some (Fz 0))) as [x|] eqn:Ex;
        cbn [rbind] in Eh; [| discriminate].
      match type of Eh with rbind ?h _ = _ => destruct h as [y|] eqn:Ey end;
        cbn [rbind] in Eh; [| discriminate].
      injection Eh as <- <-. exact (as_monthly_index _ _ _ _ _ Ex). }
  apply (f_equal (fun r => match r with
                           | Ok d => (map fst (k_rsds d), map fst (d_tas d),
                                      map fst (k_wspd d), map fst (d_hurs d))
                           | Raise _ => ([], [], [], [])
                           end)) in H.
  cbv beta iota in H. cbn [k_rsds d_tas k_wspd d_hurs] in H.
  rewrite !index_series_binop in H.
  rewrite (as_monthly_index _ _ _ _ _ Efr), (as_monthly_index _ _ _ _ _ Eft),
    (as_monthly_index _ _ _ _ _ Efw), Hfh in H.
  injection H as H1 H2 H3 H4. rewrite <- H1, <- H2, <- H3, <- H4.
  repeat split.
Qed.

(** [float] of an int of at most 53 bits is the int itself. *)
Lemma round_int53_small a : 0 <= a <= 2 ^ 53 -> round_int53 a = a.
Proof.
  intros [H0 H1]. unfold round_int53.
  destruct (Z.leb_spec (Z.log2 a - 52) 0) as [E | E]; [reflexivity |].
  destruct (Z.eq_dec a (2 ^ 53)) as [-> | Hne]; [reflexivity |].
  exfalso.
  assert (Ha : 0 < a) by (destruct (Z.eq_dec a 0) as [-> | ]; [simpl in E; lia | lia]).
  assert (Hl : Z.log2 a < 53) by (apply Z.log2_lt_pow2; lia).
  lia.
Qed.

(** The shape of the rounding above 2^53. *)
Lemma round_int53_large a :
  2 ^ 53 <= a ->
  let e := Z.log2 a - 52 in
  let P := 2 ^ e in
  let q := a / P in
  1 <= e /\ P = 2 * 2 ^ (e - 1) /\ 2 ^ 52 <= q < 2 ^ 53 /\ q * P <= a < (q + 1) * P
  /\ round_int53 a
     = (if Z.ltb (2 ^ (e - 1)) (a - q * P) || (Z.eqb (a - q * P) (2 ^ (e - 1)) && Z.odd q)
        then q + 1 else q) * P.
Proof.
  intros Ha e P q.
  assert (Hpos : 0 < a) by (assert (0 < 2 ^ 53) by reflexivity; lia).
  assert (Hl : 53 <= Z.log2 a) by (apply Z.log2_le_pow2; lia).
  assert (He : 1 <= e) by (unfold e; lia).
  assert (HP : 0 < P) by (apply Z.pow_pos_nonneg; lia).
  assert (HP2 : P = 2 * 2 ^ (e - 1)).
  { unfold P. rewrite <- Z.pow_succ_r by lia. f_equal. lia. }
  destruct (Z.log2_spec a Hpos) as [L1 L2].
  assert (E52 : 2 ^ Z.log2 a = 2 ^ 52 * P).
  { unfold P. rewrite <- Z.pow_add_r by lia. f_equal. unfold e. lia. }
  assert (E53 : 2 ^ Z.succ (Z.log2 a) = 2 ^ 53 * P).
  { unfold P. rewrite <- Z.pow_add_r by lia. f_equal. unfold e. lia. }
  rewrite E52 in L1. rewrite E53 in L2.
  assert (Hq : 2 ^ 52 <= q < 2 ^ 53).
  { unfold q. split.
    - apply Z.div_le_lower_bound; lia.
    - apply Z.div_lt_upper_bound; lia. }
  assert (Hdiv : q * P <= a < (q + 1) * P).
  { unfold q. pose proof (Z.mul_div_le a P HP).
    pose proof (Z.mul_succ_div_gt a P HP). lia. }
  repeat split; try assumption; try apply Hq; try apply Hdiv.
  unfold round_int53. fold e.
  destruct (Z.leb_spec e 0) as [E | E]; [lia |].
  cbv zeta. rewrite !Z.shiftl_mul_pow2, Z.shiftr_div_pow2 by lia.
  fold P. fold q. rewrite Z.mul_1_l. reflexivity.
Qed.

Lemma round_int53_overflow a :
  0 <= a -> (2 ^ 1024 <= round_int53 a <-> 2 ^ 1024 - 2 ^ 970 <= a).
Proof.
  intro H0.
  assert (K1 : 2 ^ 1024 = 2 ^ 54 * 2 ^ 970) by reflexivity.
  assert (K0 : 0 < 2 ^ 970) by reflexivity.
  destruct (Z_lt_le_dec a (2 ^ 53)) as [Hs | Hb].
  { rewrite round_int53_small by lia. rewrite K1. 
    assert (2 ^ 53 <= 2 ^ 970) by (apply Z.pow_le_mono_r; lia). lia. }
  destruct (round_int53_large a Hb) as (He & HP2 & Hq & Hdiv & ->).
  set (e := Z.log2 a - 52) in *. set (P := 2 ^ e) in *. set (q := a / P) in *.
  set (H := 2 ^ (e - 1)) in *.
  assert (HH : 0 < H) by (apply Z.pow_pos_nonneg; lia).
  set (c := Z.ltb H (a - q * P) || (Z.eqb (a - q * P) H && Z.odd q)).
  assert (Hc : c = true <-> (H < a - q * P \/ (a - q * P = H /\ Z.odd q = true))).
  { unfold c. rewrite orb_true_iff, andb_true_iff, Z.ltb_lt, Z.eqb_eq. reflexivity. }
  destruct (Z.compare_spec e 971) as [E | E | E].
  - (* the last binade *)
    assert (EH : H = 2 ^ 970) by (unfold H; rewrite E; reflexivity).
    rewrite K1, <- EH.
    change (2 ^ 54) with 18014398509481984.
    change (2 ^ 53) with 9007199254740992 in *.
    change (2 ^ 52) with 4503599627370496 in *.
    destruct (Z.eq_dec q 9007199254740991) as [Eq | Nq].
    + assert (Ho : Z.odd q = true) by (rewrite Eq; reflexivity).
      destruct c eqn:Ec.
      * pose proof (proj1 Hc eq_refl) as Hc1. rewrite Eq in *. lia.
      * assert (Hn : a - q * P < H).
        { destruct (Z_lt_le_dec (a - q * P) H) as [Y | Y]; [exact Y |].
          assert (X : false = true); [| discriminate X].
          apply Hc. destruct (Z.eq_dec (a - q * P) H) as [Z0 | Z0]; [right; auto | left; lia]. }
        rewrite Eq in *. lia.
    + assert (Hq' : q <= 9007199254740990) by lia.
      assert ((if c then q + 1 else q) <= 9007199254740991) by (destruct c; lia).
      nia.
  - (* below *)
    assert (HPb : 2 * P <= 2 ^ 971).
    { unfold P. rewrite <- Z.pow_succ_r by lia. apply Z.pow_le_mono_r; lia. }
    change (2 ^ 971) with (2 * 2 ^ 970) in HPb.
    rewrite K1.
    change (2 ^ 54) with 18014398509481984.
    change (2 ^ 53) with 9007199254740992 in *.
    assert ((if c then q + 1 else q) <= 9007199254740992) by (destruct c; lia).
    nia.
  - (* above *)
    assert (HPb : 2 ^ 972 <= P).
    { unfold P. apply Z.pow_le_mono_r; lia. }
    change (2 ^ 972) with (4 * 2 ^ 970) in HPb.
    rewrite K1.
    change (2 ^ 54) with 18014398509481984.
    change (2 ^ 52) with 4503599627370496 in *.
    assert (4503599627370496 <= (if c then q + 1 else q)) by (destruct c; lia).
    nia.
Qed.

Lemma float_of_int_exact (n : Z) :
  Z.abs n <= 2 ^ 53 -> float_of_int n = Ok (Fz n).
Proof.
  intro H. unfold float_of_int. cbv zeta.
  rewrite round_int53_small by lia.
  destruct (Z.leb_spec (2 ^ 1024) (Z.abs n)) as [E | E].
  - exfalso. assert (2 ^ 53 < 2 ^ 1024) by (apply Z.pow_lt_mono_r; lia). lia.
  - do 2 f_equal. rewrite Z.mul_comm. apply Z.abs_sgn.
Qed.

Lemma float_of_int_ok_iff (n : Z) :
  (exists v, float_of_int n = Ok v) <-> Z.abs n < 2 ^ 1024 - 2 ^ 970.
Proof.
  unfold float_of_int. cbv zeta.
  pose proof (round_int53_overflow (Z.abs n) (Z.abs_nonneg n)) as Ho.
  destruct (Z.leb_spec (2 ^ 1024) (round_int53 (Z.abs n))) as [E | E]; split.
  - intros [v Hv]. discriminate.
  - intro Hlt. apply Ho in E. lia.
  - intros _. destruct (Z_lt_le_dec (Z.abs n) (2 ^ 1024 - 2 ^ 970)) as [Y | Y]; [exact Y |].
    apply Ho in Y. lia.
  - intros _. eexists. reflexivity.
Qed.

Lemma float_of_int_overflow (n : Z) :
  2 ^ 1024 - 2 ^ 970 <= Z.abs n ->
  float_of_int n = Raise (OtherError "OverflowError" "int too large to convert to float").
Proof.
  intro H. unfold float_of_int. cbv zeta.
  apply (round_int53_overflow (Z.abs n) (Z.abs_nonneg n)) in H.
  apply Z.leb_le in H. rewrite H. reflexivity.
Qed.

(** C10, amended. [_as_monthly_series] on a variable called [name].  A
    float is broadcast, without error, to the twelve-entry series that
    maps every month 1..12 to it.  An int is broadcast to [float(x)] when
    [float(x)] exists, that is when its magnitude is below
    2^1024 - 2^970; then the twelve entries are the value of [float],
    the int itself up to 2^53; a larger int raises OverflowError.  A
    sequence whose length is not 12 raises a ValueError whose message
    names the variable, one of length 12 is re-indexed 1..12.  [None]
    raises a ValueError naming the variable unless [allow_none] is set;
    with [allow_none] the constant [fill] series comes back when a fill
    value is given, and the default [fill=None] raises a TypeError.
    Hence each of the four delta series the morph uses has exactly the
    index 1..12. *)
Theorem as_monthly_series_cases (name : string) :
  (forall n an fill,
      Z.abs n < 2 ^ 1024 - 2 ^ 970 ->
      exists v, float_of_int n = Ok v
                /\ _as_monthly_series (PInt n) name an fill = Ok (constant_series v))
  /\ (forall n an fill,
      Z.abs n <= 2 ^ 53 ->
      _as_monthly_series (PInt n) name an fill = Ok (constant_series (Fz n)))
  /\ (forall n an fill,
      2 ^ 1024 - 2 ^ 970 <= Z.abs n ->
      _as_monthly_series (PInt n) name an fill
      = Raise (OtherError "OverflowError" "int too large to convert to float"))
  /\ (forall x an fill,
      _as_monthly_series (PFloat x) name an fill = Ok (constant_series x))
  /\ (forall v,
      List.length (constant_series v) = 12%nat
      /\ map fst (constant_series v) = months
      /\ forall m, 1 <= m <= 12 -> lookup m (constant_series v) = Some v)
  /\ (forall xs an fill,
      len xs <> 12 ->
      _as_monthly_series (PSeq xs) name an fill
      = Raise (ValueError ("'" ++ name ++ "' deveria ter 12 valores mensais, mas veio com "
                           ++ str_int (len xs) ++ ".")))
  /\ (forall xs an fill,
      len xs = 12 ->
      exists s, _as_monthly_series (PSeq xs) name an fill = Ok s
                /\ map fst s = months /\ values s = xs)
  /\ (forall fill,
      _as_monthly_series PNone name false fill
      = Raise (ValueError ("Climatologia/futuro de '" ++ name ++ "' está ausente (None).")))
  /\ (forall v,
      _as_monthly_series PNone name true (Some v) = Ok (constant_series v))
  /\ _as_monthly_series PNone name true None
     = Raise (TypeError "float() argument must be a string or a real number, not 'NoneType'")
  /\ (forall clim fut dl,
      monthly_deltas clim fut = Ok dl ->
      map fst (k_rsds dl) = months /\ map fst (d_tas dl) = months
      /\ map fst (k_wspd dl) = months /\ map fst (d_hurs dl) = months).
Proof.
  repeat match goal with |- _ /\ _ => split end; try reflexivity.
  - intros n an fill H. apply float_of_int_ok_iff in H. destruct H as [v Hv].
    exists v. split; [exact Hv |]. unfold _as_monthly_series. rewrite Hv. reflexivity.
  - intros n an fill H. unfold _as_monthly_series.
    rewrite (float_of_int_exact n H). reflexivity.
  - intros n an fill H. unfold _as_monthly_series.
    rewrite (float_of_int_overflow n H). reflexivity.
  - intro v. split; [reflexivity |]. split; [reflexivity |]. intros m Hm.
    assert (Hc : m = 1 \/ m = 2 \/ m = 3 \/ m = 4 \/ m = 5 \/ m = 6 \/ m = 7
                 \/ m = 8 \/ m = 9 \/ m = 10 \/ m = 11 \/ m = 12) by lia.
    repeat (destruct Hc as [-> | Hc]; [reflexivity |]). subst m. reflexivity.
  - intros xs an fill H. unfold _as_monthly_series.
    destruct (Z.eqb_spec (len xs) 12) as [E | E]; [contradiction | reflexivity].
  - intros xs an fill H. exists (combine (range 1 13) xs).
    split; [apply as_monthly_seq; exact H | apply index_combine; exact H].
  - intros clim fut dl H. exact (monthly_deltas_index clim fut dl H).
Qed.

(** C10, counterexample: [_as_monthly_series] is not total on ints, and
    [allow_none] alone does not make [None] acceptable.  The int
    [10**400] raises OverflowError at [float(x)], and with the default
    [fill=None] the call [float(fill)] raises TypeError. *)
Lemma monthly_series_int_overflow :
  _as_monthly_series (PInt (10 ^ 400)) "k_rsds" false None
  = Raise (OtherError "OverflowError" "int too large to convert to float")
  /\ _as_monthly_series PNone "fut.hurs" true None
     = Raise (TypeError "float() argument must be a string or a real number, not 'NoneType'").
Proof.
  split; vm_compute; reflexivity.
Qed.

(* ----------------------------------------------------------------- *)
(** ** The calendar of 8760 hours *)

Section SortFacts.
Context {A : Type} (leb : A -> A -> bool).

Lemma insert_sorted_perm (x : A) (l : list A) :
  Permutation (insert_sorted leb x l) (x :: l).
Proof.
  induction l as [|y t IH]; simpl; [reflexivity |].
  destruct (leb x y); [reflexivity |].
  rewrite IH. apply perm_swap.
Qed.

Lemma isort_perm (l : list A) : Permutation (isort leb l) l.
Proof.
  induction l as [|x t IH]; simpl; [reflexivity |].
  rewrite insert_sorted_perm. constructor. exact IH.
Qed.
End SortFacts.

Lemma len_perm {A} (l l' : list A) : Permutation l l' -> len l = len l'.
Proof. intro H. unfold len. rewrite (Permutation_length H). reflexivity. Qed.

Lemma filter_perm {A} (p : A -> bool) (l l' : list A) :
  Permutation l l' -> Permutation (filter p l) (filter p l').
Proof.
  induction 1 as [| x l l' _ IH | x y l | l l' l'' _ IH1 _ IH2]; simpl.
  - constructor.
  - destruct (p x); [constructor |]; exact IH.
  - destruct (p x), (p y); try reflexivity. apply perm_swap.
  - etransitivity; eassumption.
Qed.

Lemma len_map {A B} (g : A -> B) (l : list A) : len (map g l) = len l.
Proof. unfold len. rewrite length_map. reflexivity. Qed.

(** The leap-day filter looks at month and day only. *)
Lemma filter_feb29_map (g : Hour -> Hour) (l : list Hour) :
  (forall h, is_feb29 (g h) = is_feb29 h) ->
  filter (fun h => negb (is_feb29 h)) (map g l)
  = map g (filter (fun h => negb (is_feb29 h)) l).
Proof.
  intro Hg. induction l as [|h t IH]; simpl; [reflexivity |].
  rewrite Hg. destruct (is_feb29 h); simpl; rewrite IH; reflexivity.
Qed.

Lemma drop_leap_day_map (g : Hour -> Hour) (l : list Hour) :
  (forall h, is_feb29 (g h) = is_feb29 h) ->
  drop_leap_day (map g l) = map g (drop_leap_day l).
Proof.
  intro Hg. unfold drop_leap_day. rewrite len_map.
  destruct (Z.eqb (len l) 8784); [apply filter_feb29_map; exact Hg | reflexivity].
Qed.

Lemma drop_leap_day_perm (l l' : list Hour) :
  Permutation l l' -> Permutation (drop_leap_day l) (drop_leap_day l').
Proof.
  intro H. unfold drop_leap_day. rewrite (len_perm _ _ H).
  destruct (Z.eqb (len l') 8784); [apply filter_perm; exact H | exact H].
Qed.

Lemma drop_leap_day_In (l : list Hour) (h : Hour) :
  In h (drop_leap_day l) -> In h l /\ (len l = 8784 -> is_feb29 h = false).
Proof.
  unfold drop_leap_day. destruct (Z.eqb_spec (len l) 8784) as [E | E].
  - intro H. apply filter_In in H. destruct H as [H1 H2].
    split; [exact H1 | intros _; apply negb_true_iff; exact H2].
  - intro H. split; [exact H | intro; contradiction].
Qed.

Lemma with_datetime_In (l : list CsvRow) (h : Hour) :
  In h (with_datetime l) ->
  exists c, In c l /\ c_DateTime c = Some (DateTime h)
            /\ GHI h = c_GHI c /\ DNI h = c_DNI c /\ DHI h = c_DHI c
            /\ TempC h = c_TempC c /\ WindSpeed h = c_WindSpeed c /\ RelHum h = c_RelHum c.
Proof.
  induction l as [|c t IH]; simpl; [contradiction |].
  destruct (c_DateTime c) as [ts|] eqn:E.
  - intros [<- | H].
    + exists c. simpl. repeat split; auto.
    + destruct (IH H) as [c' [Hin Hc']]. exists c'. split; [right; exact Hin | exact Hc'].
  - intro H. destruct (IH H) as [c' [Hin Hc']]. exists c'. split; [right; exact Hin | exact Hc'].
Qed.

Lemma with_datetime_len (l : list CsvRow) :
  count_nat l = 0 -> len (with_datetime l) = len l.
Proof.
  unfold count_nat, len. induction l as [|c t IH]; simpl; [reflexivity |].
  destruct (c_DateTime c); simpl; intro H; [| lia].
  f_equal. f_equal. apply Nat2Z.inj. apply IH. exact H.
Qed.

Lemma read_era5_base_inv
    (nanpercentile95 : list pyfloat -> pyfloat) (IRRAD_SCALE : option pyfloat)
    (f : Csv) (rows : list BaseRow) :
  read_era5_base nanpercentile95 IRRAD_SCALE f = Ok rows ->
  count_nat (csv_rows f) = 0
  /\ len rows = 8760
  /\ (forall b, In b rows -> month b = ts_month (DateTime (hour_of b)))
  /\ exists g : Hour -> Hour,
       (forall h, base_image h (g h))
       /\ Permutation (map hour_of rows)
                      (map g (drop_leap_day (with_datetime (csv_rows f)))).
Proof.
  unfold read_era5_base, ensure_datetime.
  destruct (negb (has_column f "DateTime")); [discriminate |].
  destruct (Z.eqb_spec (count_nat (csv_rows f)) 0) as [Hc | Hc]; [| discriminate].
  destruct (first_missing f); [discriminate |].
  set (fl := fun h => set_DateTime h (floor_h (DateTime h))).
  set (sorted := isort (fun a b => ts_leb (DateTime a) (DateTime b))
                       (map fl (with_datetime (csv_rows f)))).
  destruct (any_nan sorted); [discriminate |].
  set (scale := match IRRAD_SCALE with
                | Some s => s
                | None => _guess_irr_scale nanpercentile95 sorted
                end).
  set (sc := if fgtb (fabs (fsub scale (Fz 1))) (Fq 1 1000000)
             then scale_irradiance scale else (fun h => h)).
  assert (Hsc : (if fgtb (fabs (fsub scale (Fz 1))) (Fq 1 1000000)
                 then map (scale_irradiance scale) sorted else sorted) = map sc sorted).
  { unfold sc. destruct (fgtb _ _); [reflexivity | symmetry; apply map_id]. }
  rewrite Hsc.
  assert (Hfeb : forall h, is_feb29 (sc h) = is_feb29 h).
  { intro h. unfold sc. destruct (fgtb _ _); reflexivity. }
  destruct (Z.eqb_spec (len (drop_leap_day (map sc sorted))) 8760) as [Hl | Hl];
    cbn [negb]; [| discriminate].
  intro H. injection H as <-.
  split; [exact Hc |]. split; [rewrite len_map; exact Hl |].
  split.
  { intros b Hb. apply in_map_iff in Hb. destruct Hb as [h [<- _]]. reflexivity. }
  exists (fun h => sc (fl h)). split.
  - intro h. unfold base_image, sc, fl. destruct (fgtb _ _); repeat split.
  - rewrite map_map. cbn [hour_of]. rewrite map_id.
    rewrite (drop_leap_day_map sc sorted Hfeb).
    rewrite <- (map_map fl sc). apply Permutation_map.
    rewrite <- (drop_leap_day_map fl) by (intro h; reflexivity).
    apply drop_leap_day_perm. apply isort_perm.
Qed.

Lemma validate_sam_csv_inv (basename : string -> string) (path : string) (f : Csv) :
  validate_sam_csv basename path f = Ok tt ->
  count_nat (csv_rows f) = 0
  /\ any_nan (with_datetime (csv_rows f)) = false
  /\ len (drop_leap_day (with_datetime (csv_rows f))) = 8760.
Proof.
  unfold validate_sam_csv, ensure_datetime.
  destruct (negb (has_column f "DateTime")); [discriminate |].
  destruct (Z.eqb_spec (count_nat (csv_rows f)) 0) as [Hc | Hc]; [| discriminate].
  destruct (first_missing f); [discriminate |].
  destruct (any_nan (with_datetime (csv_rows f))); [discriminate |].
  destruct (Z.eqb_spec (len (drop_leap_day (with_datetime (csv_rows f)))) 8760) as [Hl | Hl];
    cbn [negb]; [| discriminate].
  intros _. repeat split; assumption.
Qed.



(* ----------------------------------------------------------------- *)
(** ** The consolidated table *)

(* ----------------------------------------------------------------- *)
(** ** File names *)

Lemma append_assoc (a b c : string) : (a ++ b) ++ c = a ++ (b ++ c).
Proof. induction a as [|x a IH]; simpl; [reflexivity | rewrite IH; reflexivity]. Qed.

Lemma strip_prefix_app (p s r : string) : strip_prefix p s = Some r -> s = p ++ r.
Proof.
  revert s. induction p as [|c p IH]; intros s H; simpl in H.
  - injection H as ->. reflexivity.
  - destruct s as [|c' s]; [discriminate |].
    destruct (Ascii.eqb_spec c c') as [-> | N]; [| discriminate].
    simpl. f_equal. apply IH. exact H.
Qed.

Lemma last_char_app (a : string) (c : ascii) (b : string) :
  last_char (a ++ String c b) = last_char (String c b).
Proof.
  induction a as [|x a IH]; [reflexivity |].
  change (String x a ++ String c b) with (String x (a ++ String c b)).
  destruct (a ++ String c b) eqn:E.
  - destruct a; discriminate.
  - rewrite <- E. cbn [last_char]. rewrite E in *. exact IH.
Qed.



Lemma fnmatch_cons_lit (c : ascii) (pat name : string) :
  c <> "*"%char ->
  fnmatch (String c pat) name
  = match name with
    | String c' name' => Ascii.eqb c c' && fnmatch pat name'
    | EmptyString => false
    end.
Proof.
  intro H. cbn [fnmatch]. destruct (Ascii.eqb_spec c "*"); [contradiction | reflexivity].
Qed.


(** *** Digits *)

Lemma byte_ascii (a : ascii) (n : Z) : byte a = n -> a = ascii_of_N (Z.to_N n).
Proof.
  unfold byte. intros <-. rewrite N2Z.id. symmetry. apply ascii_N_embedding.
Qed.

Lemma decimal_range (cp v : Z) : decimal cp = Some v -> 0 <= v <= 9.
Proof.
  unfold decimal.
  destruct (find _ nd_zeros) as [z|] eqn:E; [| discriminate].
  apply find_some in E. destruct E as [_ E].
  apply andb_prop in E. destruct E as [E1 E2].
  apply Z.leb_le in E1, E2. intro H. injection H as <-. lia.
Qed.

(** Among the ASCII characters the decimal digits are [0-9]. *)
Lemma decimal_ascii (n v : Z) :
  n < 128 -> decimal n = Some v -> 48 <= n <= 57 /\ v = n - 48.
Proof.
  intro Hn. unfold decimal.
  destruct (find _ nd_zeros) as [z|] eqn:E; [| discriminate].
  apply find_some in E. destruct E as [Hin E].
  apply andb_prop in E. destruct E as [E1 E2]. apply Z.leb_le in E1, E2.
  assert (Hz : z = 48 \/ 128 <= z).
  { assert (Hall : forallb (fun z => Z.eqb z 48 || Z.leb 128 z) nd_zeros = true)
      by (vm_compute; reflexivity).
    pose proof (forallb_In _ _ z Hall Hin) as Hb. apply orb_prop in Hb.
    destruct Hb as [Hb | Hb]; [left; apply Z.eqb_eq | right; apply Z.leb_le]; exact Hb. }
  intro H. injection H as <-. lia.
Qed.

Lemma decimal_digit (n : Z) : 48 <= n <= 57 -> decimal n = Some (n - 48).
Proof.
  intro H. unfold decimal, nd_zeros. cbn [find].
  assert (E : Z.leb 48 n && Z.leb n (48 + 9) = true).
  { apply andb_true_intro. split; apply Z.leb_le; lia. }
  rewrite E. reflexivity.
Qed.

Lemma cont_high (c : ascii) (x : Z) : cont c = Some x -> 128 <= byte c.
Proof.
  unfold cont. cbv zeta.
  destruct (Z.leb_spec 128 (byte c)) as [H | H]; [intros _; exact H | discriminate].
Qed.

(** The bytes of a string [\d] has matched: ASCII digits, or bytes of
    longer UTF-8 sequences. *)
Definition digit_bytes (d : string) : Prop :=
  forall c, In c (list_ascii_of_string d) -> 48 <= byte c <= 57 \/ 128 <= byte c.

Lemma list_ascii_app (a b : string) :
  list_ascii_of_string (a ++ b) = (list_ascii_of_string a ++ list_ascii_of_string b)%list.
Proof. induction a as [|c a IH]; simpl; [reflexivity | rewrite IH; reflexivity]. Qed.

Lemma digit_bytes_app (a b : string) :
  digit_bytes a -> digit_bytes b -> digit_bytes (a ++ b).
Proof.
  intros Ha Hb c Hc. rewrite list_ascii_app in Hc. apply in_app_or in Hc.
  destruct Hc as [Hc | Hc]; [apply Ha | apply Hb]; exact Hc.
Qed.

Lemma utf8_head_inv (s r : string) (cp : Z) :
  utf8_head s = Some (cp, r) ->
  (exists a, s = String a r /\ byte a = cp /\ cp < 128)
  \/ (exists d, s = d ++ r
                /\ forall c, In c (list_ascii_of_string d) -> 128 <= byte c).
Proof.
  destruct s as [|a s]; [discriminate |].
  unfold utf8_head. cbv zeta.
  destruct (Z.ltb_spec (byte a) 128) as [H1 | H1].
  { intro H. injection H as <- <-. left. exists a. auto. }
  destruct (Z.ltb_spec (byte a) 194) as [H2 | H2]; [discriminate |].
  destruct (Z.ltb_spec (byte a) 224) as [H3 | H3].
  { destruct s as [|b s]; [discriminate |].
    destruct (cont b) as [x|] eqn:Cb; [| discriminate].
    intro H. injection H as <- <-. right. exists (String a (String b "")).
    split; [reflexivity |].
    intros c [<- | [<- | []]]; [exact H1 | exact (cont_high _ _ Cb)]. }
  destruct (Z.ltb_spec (byte a) 240) as [H4 | H4].
  { destruct s as [|b [|c s]]; try discriminate.
    destruct (cont b) as [x|] eqn:Cb; [| discriminate].
    destruct (cont c) as [y|] eqn:Cc; [| discriminate].
    destruct (_ || _); [discriminate |].
    intro H. injection H as <- <-. right. exists (String a (String b (String c ""))).
    split; [reflexivity |].
    intros c' [<- | [<- | [<- | []]]];
      [exact H1 | exact (cont_high _ _ Cb) | exact (cont_high _ _ Cc)]. }
  destruct (Z.ltb_spec (byte a) 245) as [H5 | H5]; [| discriminate].
  destruct s as [|b [|c [|d s]]]; try discriminate.
  destruct (cont b) as [x|] eqn:Cb; [| discriminate].
  destruct (cont c) as [y|] eqn:Cc; [| discriminate].
  destruct (cont d) as [z|] eqn:Cd; [| discriminate].
  destruct (_ || _); [discriminate |].
  intro H. injection H as <- <-. right.
  exists (String a (String b (String c (String d "")))).
  split; [reflexivity |].
  intros c' [<- | [<- | [<- | [<- | []]]]];
    [exact H1 | exact (cont_high _ _ Cb) | exact (cont_high _ _ Cc)
     | exact (cont_high _ _ Cd)].
Qed.

(** What [\d] matches and the value [int] gives it. *)
Lemma digit_here_inv (s r : string) (v : Z) :
  digit_here s = Some (v, r) ->
  0 <= v <= 9 /\ exists d, s = d ++ r /\ digit_bytes d.
Proof.
  unfold digit_here.
  destruct (utf8_head s) as [[cp r'] |] eqn:E; [| discriminate].
  destruct (decimal cp) as [v' |] eqn:D; [| discriminate].
  intro H. injection H as <- <-.
  split; [exact (decimal_range _ _ D) |].
  destruct (utf8_head_inv _ _ _ E) as [(a & -> & Ha & Hlt) | (d & -> & Hd)].
  - exists (String a ""). split; [reflexivity |].
    intros c [<- | []]. left. subst cp. apply (decimal_ascii _ _ Hlt D).
  - exists d. split; [reflexivity |]. intros c Hc. right. apply Hd. exact Hc.
Qed.

(** On an ASCII character [\d] is [0-9]. *)
Lemma digit_here_ascii_inv (a : ascii) (r r' : string) (v : Z) :
  byte a < 128 -> digit_here (String a r) = Some (v, r') ->
  r' = r /\ 0 <= v <= 9 /\ a = ascii_of_N (Z.to_N (v + 48)).
Proof.
  intro Ha. unfold digit_here, utf8_head. cbv zeta.
  rewrite (proj2 (Z.ltb_lt _ _) Ha).
  destruct (decimal (byte a)) as [v' |] eqn:D; [| discriminate].
  intro H. injection H as <- <-.
  destruct (decimal_ascii _ _ Ha D) as [Hr ->].
  split; [reflexivity |]. split; [lia |]. apply byte_ascii. lia.
Qed.

Lemma digit_here_digit (a : ascii) (r : string) :
  48 <= byte a <= 57 -> digit_here (String a r) = Some (byte a - 48, r).
Proof.
  intro Ha. unfold digit_here, utf8_head. cbv zeta.
  rewrite (proj2 (Z.ltb_lt (byte a) 128)) by lia.
  rewrite (decimal_digit _ Ha). reflexivity.
Qed.

(** Four digits give a number of 0..9999, and they hold no ASCII
    character but [0-9]. *)
Lemma four_digits_inv (s r : string) (y : Z) :
  four_digits s = Some (y, r) ->
  0 <= y <= 9999 /\ exists d, s = d ++ r /\ digit_bytes d.
Proof.
  unfold four_digits.
  destruct (digit_here s) as [[x1 s1] |] eqn:E1; [| discriminate].
  destruct (digit_here s1) as [[x2 s2] |] eqn:E2; [| discriminate].
  destruct (digit_here s2) as [[x3 s3] |] eqn:E3; [| discriminate].
  destruct (digit_here s3) as [[x4 s4] |] eqn:E4; [| discriminate].
  intro H.
  assert (Hy : y = 1000 * x1 + 100 * x2 + 10 * x3 + x4 /\ r = s4) by (split; congruence).
  destruct Hy as [-> ->]. clear H.
  destruct (digit_here_inv _ _ _ E1) as (B1 & d1 & -> & D1).
  destruct (digit_here_inv _ _ _ E2) as (B2 & d2 & -> & D2).
  destruct (digit_here_inv _ _ _ E3) as (B3 & d3 & -> & D3).
  destruct (digit_here_inv _ _ _ E4) as (B4 & d4 & -> & D4).
  split; [lia |].
  exists (d1 ++ d2 ++ d3 ++ d4). split.
  - rewrite !append_assoc. reflexivity.
  - repeat apply digit_bytes_app; assumption.
Qed.


(** In an ASCII name the four digits determine the characters read. *)
Lemma four_digits_ascii_inv (s r : string) (y : Z) :
  is_ascii s = true ->
  four_digits s = Some (y, r) ->
  exists x1 x2 x3 x4,
    y = 1000 * x1 + 100 * x2 + 10 * x3 + x4
    /\ 0 <= x1 <= 9 /\ 0 <= x2 <= 9 /\ 0 <= x3 <= 9 /\ 0 <= x4 <= 9
    /\ s = String (ascii_of_N (Z.to_N (x1 + 48)))
             (String (ascii_of_N (Z.to_N (x2 + 48)))
                (String (ascii_of_N (Z.to_N (x3 + 48)))
                   (String (ascii_of_N (Z.to_N (x4 + 48))) r))).
Proof.
  intro Hs. unfold four_digits.
  destruct (digit_here s) as [[x1 s1] |] eqn:E1; [| discriminate].
  destruct (digit_here s1) as [[x2 s2] |] eqn:E2; [| discriminate].
  destruct (digit_here s2) as [[x3 s3] |] eqn:E3; [| discriminate].
  destruct (digit_here s3) as [[x4 s4] |] eqn:E4; [| discriminate].
  intro H.
  assert (Hy : y = 1000 * x1 + 100 * x2 + 10 * x3 + x4 /\ r = s4) by (split; congruence).
  destruct Hy as [-> ->]. clear H.
  destruct s as [|a s]; [discriminate E1 |].
  cbn [is_ascii] in Hs. apply andb_prop in Hs. destruct Hs as [Ha Hs]. apply Z.ltb_lt in Ha.
  destruct (digit_here_ascii_inv _ _ _ _ Ha E1) as (-> & B1 & ->).
  destruct s as [|b s]; [discriminate E2 |].
  cbn [is_ascii] in Hs. apply andb_prop in Hs. destruct Hs as [Hb Hs]. apply Z.ltb_lt in Hb.
  destruct (digit_here_ascii_inv _ _ _ _ Hb E2) as (-> & B2 & ->).
  destruct s as [|c s]; [discriminate E3 |].
  cbn [is_ascii] in Hs. apply andb_prop in Hs. destruct Hs as [Hc Hs]. apply Z.ltb_lt in Hc.
  destruct (digit_here_ascii_inv _ _ _ _ Hc E3) as (-> & B3 & ->).
  destruct s as [|d s]; [discriminate E4 |].
  cbn [is_ascii] in Hs. apply andb_prop in Hs. destruct Hs as [Hd Hs]. apply Z.ltb_lt in Hd.
  destruct (digit_here_ascii_inv _ _ _ _ Hd E4) as (-> & B4 & ->).
  exists x1, x2, x3, x4. repeat split; try lia.
Qed.

(** Four ASCII digits are read as the number they write. *)
Lemma four_digits_ascii (a b c d : ascii) (r : string) :
  48 <= byte a <= 57 -> 48 <= byte b <= 57 -> 48 <= byte c <= 57 -> 48 <= byte d <= 57 ->
  four_digits (String a (String b (String c (String d r))))
  = Some (1000 * (byte a - 48) + 100 * (byte b - 48) + 10 * (byte c - 48) + (byte d - 48), r).
Proof.
  intros Ha Hb Hc Hd. unfold four_digits.
  rewrite (digit_here_digit a _ Ha), (digit_here_digit b _ Hb),
    (digit_here_digit c _ Hc), (digit_here_digit d _ Hd).
  reflexivity.
Qed.


Lemma at_end_cases (e : string) : at_end e = true -> e = "" \/ e = newline.
Proof.
  unfold at_end. intro H. apply orb_prop in H.
  destruct H as [H | H]; apply String.eqb_eq in H; auto.
Qed.

(** The shape of a name one alternative of the log pattern accepts. *)
Lemma match_log_alt_inv (alt r : string) (k : Key) :
  match_log_alt alt r = Some k ->
  fst k = alt
  /\ exists r1 r2 e,
       r = (alt ++ "_") ++ r1 /\ four_digits r1 = Some (snd k, r2)
       /\ r2 = ".txt" ++ e /\ (e = "" \/ e = newline).
Proof.
  unfold match_log_alt.
  destruct (strip_prefix (alt ++ "_") r) as [r1|] eqn:E1; [| discriminate].
  destruct (four_digits r1) as [[y r2]|] eqn:E2; [| discriminate].
  destruct (strip_prefix ".txt" r2) as [e|] eqn:E3; [| discriminate].
  destruct (at_end e) eqn:E4; [| discriminate].
  intro H. injection H as <-. split; [reflexivity |].
  exists r1, r2, e. repeat split.
  - apply strip_prefix_app. exact E1.
  - exact E2.
  - apply strip_prefix_app. exact E3.
  - apply at_end_cases. exact E4.
Qed.

Lemma match_log_name_inv (name : string) (k : Key) :
  match_log_name name = Some k ->
  exists r1 r2 e,
    name = "log_" ++ (fst k ++ "_") ++ r1 /\ four_digits r1 = Some (snd k, r2)
    /\ r2 = ".txt" ++ e /\ (e = "" \/ e = newline).
Proof.
  unfold match_log_name.
  destruct (strip_prefix "log_" name) as [r|] eqn:E; [| discriminate].
  apply strip_prefix_app in E. subst name.
  assert (Halt : forall alt, match_log_alt alt r = Some k ->
            exists r1 r2 e,
              "log_" ++ r = "log_" ++ (fst k ++ "_") ++ r1
              /\ four_digits r1 = Some (snd k, r2)
              /\ r2 = ".txt" ++ e /\ (e = "" \/ e = newline)).
  { intros alt H. destruct (match_log_alt_inv _ _ _ H) as (Hk & r1 & r2 & e & -> & H2 & H3 & H4).
    exists r1, r2, e. rewrite Hk. repeat split; assumption. }
  destruct (match_log_alt "historical" r) as [k1|] eqn:E1.
  { intro H. injection H as ->. apply (Halt _ E1). }
  destruct (match_log_alt "ssp245" r) as [k2|] eqn:E2.
  { intro H. injection H as ->. apply (Halt _ E2). }
  intro H. apply (Halt _ H).
Qed.



(* ----------------------------------------------------------------- *)
(** ** Keys of the consolidated table *)

Lemma key_eqb_eq (a b : Key) : key_eqb a b = true <-> a = b.
Proof.
  destruct a as [s1 y1], b as [s2 y2]. unfold key_eqb. cbn [fst snd].
  rewrite andb_true_iff, String.eqb_eq, Z.eqb_eq.
  split; [intros [-> ->]; reflexivity | intro H; injection H as -> ->; split; reflexivity].
Qed.




Section ConsolidateFacts.
Variable MODEL DIR_LOGS DIR_CSVS sep : string.
Variable log_dir : list string.
Variable csv_dir : string -> option (list string).
Variable parse_log_file : string -> Parsed.
Variable path_exists : string -> bool.

#[local] Abbreviation log_row' := (log_row MODEL DIR_LOGS DIR_CSVS sep parse_log_file path_exists).
#[local] Abbreviation log_rows' := (log_rows MODEL DIR_LOGS DIR_CSVS sep parse_log_file path_exists).
#[local] Abbreviation sem_log_row' := (sem_log_row MODEL).
#[local] Abbreviation add_missing' := (add_missing MODEL).








(** A table comes out of the log loop, the completion loop and the
    sort, and has at least one row. *)
Lemma consolidate_inv (table : list TableRow) :
  consolidate MODEL DIR_LOGS DIR_CSVS sep log_dir csv_dir parse_log_file path_exists
  = Ok table ->
  exists rows,
    log_rows' (build_csv_map MODEL DIR_CSVS sep csv_dir)
              (isort String.leb (filter (fnmatch "log_*.txt") log_dir)) = Ok rows
    /\ add_missing' (build_csv_map MODEL DIR_CSVS sep csv_dir) rows <> []
    /\ table = isort (fun a b => key_leb (row_key a) (row_key b))
                     (add_missing' (build_csv_map MODEL DIR_CSVS sep csv_dir) rows).
Proof.
  unfold consolidate. cbv zeta.
  destruct (log_rows' _ _) as [rows |]; [| discriminate].
  destruct (add_missing' _ rows) as [| r all] eqn:E; [discriminate |].
  intro H. injection H as <-. exists rows.
  split; [reflexivity |]. rewrite E. split; [discriminate | reflexivity].
Qed.
End ConsolidateFacts.

Section ConsolidateTable.
Variable MODEL DIR_LOGS DIR_CSVS sep : string.
Variable log_dir : list string.
Variable csv_dir : string -> option (list string).
Variable parse_log_file : string -> Parsed.
Variable path_exists : string -> bool.

#[local] Abbreviation index_csvs' := (index_csvs MODEL DIR_CSVS sep).
#[local] Abbreviation build_csv_map' := (build_csv_map MODEL DIR_CSVS sep csv_dir).



End ConsolidateTable.



(** The table of the sample run, by scenario and year. *)
Lemma sample_table_rows :
  match sample_table with
  | Ok t => map (fun r => (row_key r, row_log_status r)) t
  | Raise _ => []
  end
  = [(("historical", 2010), "ERRO"); (("ssp245", 2030), "OK"); (("ssp245", 2031), "SEM_LOG")].
Proof. vm_compute. reflexivity. Qed.

(* ================================================================= *)
(** * Further properties of the code *)

(* ----------------------------------------------------------------- *)
(** ** The irradiance scale *)

Lemma Qc_eq_bool_neq (a b : Qc) : a <> b -> Qc_eq_bool a b = false.
Proof. intro H. unfold Qc_eq_bool. destruct (Qc_eq_dec a b); congruence. Qed.

Lemma np_clip_Fin (x lo hi : Qc) :
  (lo <= hi)%Qc ->
  exists q, np_clip (Fin x) (Fin lo) (Fin hi) = Fin q /\ (lo <= q <= hi)%Qc.
Proof.
  intro Hle. unfold np_clip.
  destruct (fltb (Fin x) (Fin lo)) eqn:E1.
  - destruct (fltb (Fin hi) (Fin lo)) eqn:E2.
    + apply fltb_Fin_false in Hle. congruence.
    + exists lo. split; [reflexivity | split; [apply Qcle_refl | exact Hle]].
  - destruct (fltb (Fin hi) (Fin x)) eqn:E2.
    + exists hi. split; [reflexivity | split; [exact Hle | apply Qcle_refl]].
    + exists x. split; [reflexivity |].
      apply fltb_Fin_false in E1, E2. split; assumption.
Qed.

Lemma guess_irr_scale_range (nanpercentile95 : list pyfloat -> pyfloat) (df : list Hour) :
  exists q : Qc,
    _guess_irr_scale nanpercentile95 df = Fin q /\ (qc 1 10 <= q <= qc 100 1)%Qc.
Proof.
  assert (H1 : (qc 1 10 <= qc 1 1 <= qc 100 1)%Qc) by (split; qc_order).
  unfold _guess_irr_scale.
  set (p95 := match map GHI df with [] => NaN | _ :: _ => nanpercentile95 (map GHI df) end).
  destruct p95 as [p| | |] eqn:Ep; cbn [isfinite negb orb];
    try (exists (qc 1 1); split; [reflexivity | exact H1]).
  destruct (fleb (Fin p) (Fz 0)) eqn:E0.
  + exists (qc 1 1). split; [reflexivity | exact H1].
  + assert (Hp : p <> 0%Qc).
    { intro Hz. subst p. discriminate E0. }
    unfold Fz at 1, fdiv. change (qc 0 1) with 0%Qc in *.
    rewrite (Qc_eq_bool_neq p 0 Hp).
    unfold Fq, Fz. apply np_clip_Fin. qc_order.
Qed.

(** X1. The automatic irradiance scale is always a finite number
    between 0.1 and 100; it is exactly 1 when the profile is empty or
    its 95th percentile is not a finite positive number. *)
Theorem guess_irr_scale_bounds (nanpercentile95 : list pyfloat -> pyfloat) (df : list Hour) :
  (exists q : Qc,
      _guess_irr_scale nanpercentile95 df = Fin q
      /\ (qc 1 10 <= q <= qc 100 1)%Qc)
  /\ (df = [] -> _guess_irr_scale nanpercentile95 df = Fz 1)
  /\ (isfinite (nanpercentile95 (map GHI df)) = false ->
      _guess_irr_scale nanpercentile95 df = Fz 1)
  /\ (fleb (nanpercentile95 (map GHI df)) (Fz 0) = true ->
      _guess_irr_scale nanpercentile95 df = Fz 1).
Proof.
  repeat match goal with |- _ /\ _ => split end.
  - apply guess_irr_scale_range.
  - intros ->. reflexivity.
  - intro H. unfold _guess_irr_scale. destruct (map GHI df); [reflexivity |].
    rewrite H. reflexivity.
  - intro H. unfold _guess_irr_scale. destruct (map GHI df); [reflexivity |].
    rewrite H. rewrite orb_true_r. reflexivity.
Qed.

(** X2. With automatic detection, whenever the 95th percentile of the
    global irradiance lies between 9 and 9000 the clip to [0.1, 100] is
    idle: the scale returned is the quotient [900.0 / p95] itself, as the
    division of the code gives it. *)
Theorem guess_irr_scale_normalises
    (nanpercentile95 : list pyfloat -> pyfloat) (df : list Hour) (p : Qc) :
  df <> [] -> nanpercentile95 (map GHI df) = Fin p -> (qc 9 1 <= p <= qc 9000 1)%Qc ->
  _guess_irr_scale nanpercentile95 df = fdiv (Fz 900) (Fin p).
Proof.
  intros Hdf Hp [Hlo Hhi].
  assert (Hpos : (0 < p)%Qc) by qc_order.
  assert (Hnz : p <> 0%Qc).
  { intro E. symmetry in E. exact (Qclt_not_eq _ _ Hpos E). }
  unfold _guess_irr_scale. destruct df as [| h df]; [contradiction |].
  cbn [map] in *. rewrite Hp. cbn [isfinite negb orb].
  assert (E0 : fleb (Fin p) (Fz 0) = false).
  { unfold fleb, fcompare, Fz. change (qc 0 1) with 0%Qc.
    assert (Hc : (0 ?= p)%Qc = Lt) by (apply Qclt_alt; exact Hpos).
    rewrite (Qccompare_antisym 0 p), Hc. reflexivity. }
  rewrite E0. unfold Fz at 1 3, fdiv. change (qc 0 1) with 0%Qc.
  rewrite (Qc_eq_bool_neq p 0 Hnz).
  assert (Hb : (qc 1 10 <= qc 900 1 / p <= qc 100 1)%Qc).
  { unfold Qcle, Qcdiv, Qcmult, Qcinv, qc in *. cbn [this Q2Qc] in *.
    rewrite ?Qred_correct in *.
    assert (Hp0 : (0 < this p)%Q) by (unfold Qclt in Hpos; exact Hpos).
    split.
    - apply (Qle_shift_div_l (1 # 10) (900 # 1) (this p) Hp0). lra.
    - apply (Qle_shift_div_r (900 # 1) (this p) (100 # 1) Hp0). lra. }
  unfold np_clip, Fq, Fz.
  rewrite (proj2 (fltb_Fin_false _ _) (proj1 Hb)), (proj2 (fltb_Fin_false _ _) (proj2 Hb)).
  reflexivity.
Qed.

(** A profile in W/m2 whose 95th percentile is 500 is scaled by 900/500,
    and the clip leaves the quotient alone. *)
Lemma guess_irr_scale_normalises_witness :
  _guess_irr_scale (fun _ => Fz 500) [sample_hour 1] = fdiv (Fz 900) (Fz 500).
Proof.
  assert (H1 : [sample_hour 1] <> []) by discriminate.
  assert (H2 : (qc 9 1 <= qc 500 1 <= qc 9000 1)%Qc) by (split; qc_order).
  exact (guess_irr_scale_normalises (fun _ => Fz 500) [sample_hour 1] (qc 500 1)
           H1 eq_refl H2).
Defined.

(** X3. The reader multiplies the three irradiance columns of every
    row by one and the same factor, the configured one or the detected
    one (then between 0.1 and 100), and leaves them as they are when the
    factor is within 1e-6 of 1. *)
Theorem read_era5_base_one_scale
    (nanpercentile95 : list pyfloat -> pyfloat) (IRRAD_SCALE : option pyfloat)
    (f : Csv) (rows : list BaseRow) :
  read_era5_base nanpercentile95 IRRAD_SCALE f = Ok rows ->
  exists s,
    match IRRAD_SCALE with
    | Some s' => s = s'
    | None => exists q, s = Fin q /\ (qc 1 10 <= q <= qc 100 1)%Qc
    end
    /\ forall b, In b rows ->
         exists c, In c (csv_rows f)
           /\ if fgtb (fabs (fsub s (Fz 1))) (Fq 1 1000000)
              then GHI (hour_of b) = fmul (c_GHI c) s
                   /\ DNI (hour_of b) = fmul (c_DNI c) s
                   /\ DHI (hour_of b) = fmul (c_DHI c) s
              else GHI (hour_of b) = c_GHI c
                   /\ DNI (hour_of b) = c_DNI c
                   /\ DHI (hour_of b) = c_DHI c.
Proof.
  unfold read_era5_base, ensure_datetime.
  destruct (negb (has_column f "DateTime")); [discriminate |].
  destruct (Z.eqb_spec (count_nat (csv_rows f)) 0) as [Hc | Hc]; [| discriminate].
  destruct (first_missing f); [discriminate |].
  set (fl := fun h => set_DateTime h (floor_h (DateTime h))).
  set (sorted := isort (fun a b => ts_leb (DateTime a) (DateTime b))
                       (map fl (with_datetime (csv_rows f)))).
  destruct (any_nan sorted); [discriminate |].
  set (scale := match IRRAD_SCALE with
                | Some s => s
                | None => _guess_irr_scale nanpercentile95 sorted
                end).
  assert (Horigin : forall h, In h sorted ->
            exists c, In c (csv_rows f) /\ GHI h = c_GHI c /\ DNI h = c_DNI c
                      /\ DHI h = c_DHI c).
  { intros h Hh. apply (Permutation_in _ (isort_perm _ _)) in Hh.
    apply in_map_iff in Hh. destruct Hh as (h0 & <- & Hh0).
    destruct (with_datetime_In _ _ Hh0) as (c & Hin & _ & Hg & Hn & Hd & _).
    exists c. split; [exact Hin |]. split; [exact Hg |]. split; [exact Hn | exact Hd]. }
  intro H. exists scale. split.
  { unfold scale. destruct IRRAD_SCALE; [reflexivity |]. apply guess_irr_scale_range. }
  destruct (fgtb (fabs (fsub scale (Fz 1))) (Fq 1 1000000)).
  - destruct (Z.eqb (len (drop_leap_day (map (scale_irradiance scale) sorted))) 8760);
      cbn [negb] in H; [| discriminate H].
    injection H as <-. intros b Hb. apply in_map_iff in Hb. destruct Hb as (h & <- & Hh).
    apply drop_leap_day_In in Hh. destruct Hh as [Hh _].
    apply in_map_iff in Hh. destruct Hh as (h0 & <- & Hh0).
    destruct (Horigin h0 Hh0) as (c & Hin & Hg & Hn & Hd).
    exists c. split; [exact Hin |]. cbn [hour_of scale_irradiance GHI DNI DHI].
    rewrite Hg, Hn, Hd. repeat split.
  - destruct (Z.eqb (len (drop_leap_day sorted)) 8760); cbn [negb] in H; [| discriminate H].
    injection H as <-. intros b Hb. apply in_map_iff in Hb. destruct Hb as (h & <- & Hh).
    apply drop_leap_day_In in Hh. destruct Hh as [Hh _].
    destruct (Horigin h Hh) as (c & Hin & Hg & Hn & Hd).
    exists c. split; [exact Hin |]. cbn [hour_of]. repeat split; assumption.
Qed.


(** The reference file of 2019 read with the scale 2: every global
    irradiance is 1000. *)
Lemma read_era5_base_one_scale_witness :
  exists rows,
    read_era5_base (fun _ => Fz 500) (Some (Fz 2)) (sample_csv 2019) = Ok rows
    /\ forall b, In b rows -> GHI (hour_of b) = Fz 1000.
Proof.
  assert (Hb : match read_era5_base (fun _ => Fz 500) (Some (Fz 2)) (sample_csv 2019)
               with Ok _ => true | Raise _ => false end = true) by (vm_compute; reflexivity).
  destruct (read_era5_base (fun _ => Fz 500) (Some (Fz 2)) (sample_csv 2019))
    as [rows | e] eqn:E; [| discriminate Hb].
  exists rows. split; [reflexivity |].
  destruct (read_era5_base_one_scale _ _ _ rows E) as (s & Hs & Hrows).
  cbv beta iota in Hs. subst s.
  intros b Hin. destruct (Hrows b Hin) as (c & Hc & Hcase).
  change (fgtb (fabs (fsub (Fz 2) (Fz 1))) (Fq 1 1000000)) with true in Hcase.
  cbv iota in Hcase. destruct Hcase as (Hg & _). rewrite Hg.
  unfold sample_csv in Hc. cbn [csv_rows] in Hc. apply in_map_iff in Hc.
  destruct Hc as (t & <- & _). cbn [c_GHI].
  apply feqb_eq. vm_compute. reflexivity.
Defined.

(* ----------------------------------------------------------------- *)
(** ** The order of the reference frame *)

Lemma lex_leb_total (a b : list Z) : lex_leb a b = false -> lex_leb b a = true.
Proof.
  revert b. induction a as [|x a IH]; intros [|y b]; simpl; try congruence.
  destruct (Z.ltb_spec x y), (Z.ltb_spec y x); try congruence; try lia.
  apply IH.
Qed.

Lemma lex_leb_trans (a b c : list Z) :
  lex_leb a b = true -> lex_leb b c = true -> lex_leb a c = true.
Proof.
  revert b c. induction a as [|x a IH]; intros [|y b] [|z c]; simpl; try congruence.
  destruct (Z.ltb_spec x y), (Z.ltb_spec y x), (Z.ltb_spec y z), (Z.ltb_spec z y),
           (Z.ltb_spec x z), (Z.ltb_spec z x); try congruence; try lia.
  apply IH.
Qed.

Section SortLemmas.
Context {A : Type} (leb : A -> A -> bool).
Hypothesis leb_total : forall a b, leb a b = false -> leb b a = true.
Hypothesis leb_trans : forall a b c, leb a b = true -> leb b c = true -> leb a c = true.

Lemma insert_sorted_In (x y : A) (l : list A) :
  In y (insert_sorted leb x l) -> y = x \/ In y l.
Proof.
  induction l as [|z t IH]; simpl.
  - intros [<- | []]. left. reflexivity.
  - destruct (leb x z); simpl.
    + intros [<- | H]; [left; reflexivity | right; exact H].
    + intros [<- | H]; [right; left; reflexivity |].
      destruct (IH H) as [-> | H']; [left; reflexivity | right; right; exact H'].
Qed.

Lemma insert_sorted_sorted (x : A) (l : list A) :
  StronglySorted (fun a b => leb a b = true) l ->
  StronglySorted (fun a b => leb a b = true) (insert_sorted leb x l).
Proof.
  induction 1 as [| z t Hs IH Hz]; simpl.
  - constructor; constructor.
  - destruct (leb x z) eqn:E.
    + constructor; [constructor; assumption |].
      constructor; [exact E |].
      rewrite Forall_forall in *. intros y Hy. apply (leb_trans _ z); [exact E | apply Hz, Hy].
    + constructor; [exact IH |].
      rewrite Forall_forall in *. intros y Hy.
      destruct (insert_sorted_In _ _ _ Hy) as [-> | Hy'];
        [apply leb_total; exact E | apply Hz, Hy'].
Qed.

Lemma isort_sorted (l : list A) : StronglySorted (fun a b => leb a b = true) (isort leb l).
Proof.
  induction l as [|x t IH]; simpl; [constructor | apply insert_sorted_sorted; exact IH].
Qed.
End SortLemmas.

Lemma StronglySorted_filter {A} (R : A -> A -> Prop) (p : A -> bool) (l : list A) :
  StronglySorted R l -> StronglySorted R (filter p l).
Proof.
  induction 1 as [| x t Hs IH Hx]; simpl; [constructor |].
  destruct (p x); [| exact IH].
  constructor; [exact IH |].
  rewrite Forall_forall in *. intros y Hy. apply filter_In in Hy. apply Hx, Hy.
Qed.

Lemma StronglySorted_map {A B} (R : B -> B -> Prop) (g : A -> B) (l : list A) :
  StronglySorted (fun a b => R (g a) (g b)) l -> StronglySorted R (map g l).
Proof.
  induction 1 as [| x t Hs IH Hx]; simpl; constructor; [exact IH |].
  rewrite Forall_forall in *. intros y Hy. apply in_map_iff in Hy.
  destruct Hy as (a & <- & Ha). apply Hx, Ha.
Qed.

Lemma StronglySorted_unmap {A B} (R : B -> B -> Prop) (g : A -> B) (l : list A) :
  StronglySorted R (map g l) -> StronglySorted (fun a b => R (g a) (g b)) l.
Proof.
  induction l as [|x t IH]; simpl; intro H; [constructor |].
  inversion H as [| ? ? Hs Hx]; subst. constructor; [apply IH; exact Hs |].
  rewrite Forall_forall in *. intros y Hy. apply Hx. apply in_map. exact Hy.
Qed.

Lemma drop_leap_day_sorted (R : Hour -> Hour -> Prop) (l : list Hour) :
  StronglySorted R l -> StronglySorted R (drop_leap_day l).
Proof.
  intro H. unfold drop_leap_day. destruct (Z.eqb (len l) 8784);
    [apply StronglySorted_filter; exact H | exact H].
Qed.

(** The hours the reader returns, in terms of the table it sorted. *)
Lemma read_era5_base_rows
    (nanpercentile95 : list pyfloat -> pyfloat) (IRRAD_SCALE : option pyfloat)
    (f : Csv) (rows : list BaseRow) :
  read_era5_base nanpercentile95 IRRAD_SCALE f = Ok rows ->
  exists sc : Hour -> Hour,
    (forall h, DateTime (sc h) = DateTime h)
    /\ map hour_of rows
       = map sc (drop_leap_day
                   (isort (fun a b => ts_leb (DateTime a) (DateTime b))
                      (map (fun h => set_DateTime h (floor_h (DateTime h)))
                           (with_datetime (csv_rows f))))).
Proof.
  unfold read_era5_base, ensure_datetime.
  destruct (negb (has_column f "DateTime")); [discriminate |].
  destruct (Z.eqb_spec (count_nat (csv_rows f)) 0) as [Hc | Hc]; [| discriminate].
  destruct (first_missing f); [discriminate |].
  set (fl := fun h => set_DateTime h (floor_h (DateTime h))).
  set (sorted := isort (fun a b => ts_leb (DateTime a) (DateTime b))
                       (map fl (with_datetime (csv_rows f)))).
  destruct (any_nan sorted); [discriminate |].
  set (scale := match IRRAD_SCALE with
                | Some s => s
                | None => _guess_irr_scale nanpercentile95 sorted
                end).
  set (sc := if fgtb (fabs (fsub scale (Fz 1))) (Fq 1 1000000)
             then scale_irradiance scale else (fun h => h)).
  assert (Hsc : (if fgtb (fabs (fsub scale (Fz 1))) (Fq 1 1000000)
                 then map (scale_irradiance scale) sorted else sorted) = map sc sorted).
  { unfold sc. destruct (fgtb _ _); [reflexivity | symmetry; apply map_id]. }
  rewrite Hsc.
  destruct (Z.eqb_spec (len (drop_leap_day (map sc sorted))) 8760) as [Hl | Hl];
    cbn [negb]; [| discriminate].
  intro H. injection H as <-.
  exists sc. split.
  - intro h. unfold sc. destruct (fgtb _ _); reflexivity.
  - rewrite map_map. cbn [hour_of]. rewrite map_id.
    apply drop_leap_day_map. intro h. unfold sc. destruct (fgtb _ _); reflexivity.
Qed.

(** X4. The frame [read_era5_base] returns is in the order of its
    timestamps, whatever the order of the lines of the file, and every
    timestamp is a full hour. *)
Theorem read_era5_base_sorted
    (nanpercentile95 : list pyfloat -> pyfloat) (IRRAD_SCALE : option pyfloat)
    (f : Csv) (rows : list BaseRow) :
  read_era5_base nanpercentile95 IRRAD_SCALE f = Ok rows ->
  StronglySorted
    (fun a b => ts_leb (DateTime (hour_of a)) (DateTime (hour_of b)) = true) rows
  /\ forall b, In b rows -> ts_rest (DateTime (hour_of b)) = 0.
Proof.
  intro H. destruct (read_era5_base_rows _ _ _ _ H) as (sc & Hsc & E).
  set (leb := fun a b : Hour => ts_leb (DateTime a) (DateTime b)) in *.
  split.
  - apply (StronglySorted_unmap (fun a b => leb a b = true) hour_of). rewrite E.
    apply StronglySorted_map.
    assert (Hs : StronglySorted (fun a b => leb a b = true)
                   (drop_leap_day (isort leb
                      (map (fun h => set_DateTime h (floor_h (DateTime h)))
                           (with_datetime (csv_rows f)))))).
    { apply drop_leap_day_sorted. apply isort_sorted.
      - intros a b. unfold leb, ts_leb. apply lex_leb_total.
      - intros a b c. unfold leb, ts_leb. apply lex_leb_trans. }
    revert Hs. apply StronglySorted_ind with
      (P := fun l => StronglySorted (fun a b => leb (sc a) (sc b) = true) l).
    + constructor.
    + intros a l _ IH Ha. constructor; [exact IH |].
      rewrite Forall_forall in *. intros y Hy. unfold leb. rewrite !Hsc. apply Ha, Hy.
  - intros b Hb.
    assert (Hin : In (hour_of b) (map hour_of rows)) by (apply in_map; exact Hb).
    rewrite E in Hin. apply in_map_iff in Hin. destruct Hin as (h & <- & Hh).
    rewrite Hsc. apply drop_leap_day_In in Hh. destruct Hh as [Hh _].
    apply (Permutation_in _ (isort_perm leb _)) in Hh.
    apply in_map_iff in Hh. destruct Hh as (h0 & <- & _). reflexivity.
Qed.

(** The file of the year 2019 with its first two lines exchanged is
    read into an ordered frame. *)
Lemma read_era5_base_sorted_witness :
  exists rows,
    read_era5_base (fun _ => Fz 500) (Some (Fz 1)) unordered_csv = Ok rows
    /\ StronglySorted
         (fun a b => ts_leb (DateTime (hour_of a)) (DateTime (hour_of b)) = true) rows
    /\ forall b, In b rows -> ts_rest (DateTime (hour_of b)) = 0.
Proof.
  assert (Hb : match read_era5_base (fun _ => Fz 500) (Some (Fz 1)) unordered_csv
               with Ok _ => true | Raise _ => false end = true) by (vm_compute; reflexivity).
  destruct (read_era5_base (fun _ => Fz 500) (Some (Fz 1)) unordered_csv)
    as [rows | e] eqn:E; [| discriminate Hb].
  exists rows. split; [reflexivity |].
  exact (read_era5_base_sorted _ _ _ rows E).
Defined.

(* ----------------------------------------------------------------- *)
(** ** Which files the reader and the validator accept *)

Lemma has_column_In (f : Csv) (c : string) : has_column f c = true <-> In c (columns f).
Proof.
  unfold has_column. rewrite existsb_exists. split.
  - intros (x & Hx & E). apply String.eqb_eq in E. subst x. exact Hx.
  - intro H. exists c. split; [exact H | apply String.eqb_refl].
Qed.

Lemma first_missing_None (f : Csv) :
  first_missing f = None <-> forall c, In c req -> In c (columns f).
Proof.
  unfold first_missing. split.
  - intros H c Hc. apply has_column_In.
    pose proof (find_none _ _ H c Hc) as Hn. apply negb_false_iff in Hn. exact Hn.
  - intro H. destruct (find (fun c => negb (has_column f c)) req) as [c|] eqn:E; [| reflexivity].
    apply find_some in E. destruct E as [Hc Hn].
    apply negb_true_iff in Hn. apply H, has_column_In in Hc. congruence.
Qed.

Lemma count_nat_zero (l : list CsvRow) :
  count_nat l = 0 <-> forall r, In r l -> c_DateTime r <> None.
Proof.
  unfold count_nat, len. induction l as [|r t IH]; simpl.
  - split; [intros _ r [] | reflexivity].
  - destruct (c_DateTime r) eqn:E; simpl.
    + rewrite IH. split.
      * intros H x [<- | Hx]; [congruence | apply H; exact Hx].
      * intros H x Hx. apply H. right. exact Hx.
    + split; [lia | intro H; exfalso; apply (H r); [left; reflexivity | exact E]].
Qed.

(** The six numeric cells of a CSV line. *)
Lemma with_datetime_all (l : list CsvRow) :
  count_nat l = 0 ->
  with_datetime l
  = map (fun r => mkHour (match c_DateTime r with Some t => t | None => mkTimestamp 0 0 0 0 0 end)
                         (c_GHI r) (c_DNI r) (c_DHI r) (c_TempC r) (c_WindSpeed r) (c_RelHum r)) l.
Proof.
  intro H. rewrite count_nat_zero in H.
  induction l as [|r t IH]; simpl; [reflexivity |].
  destruct (c_DateTime r) eqn:E.
  - f_equal. apply IH. intros x Hx. apply H. right. exact Hx.
  - exfalso. apply (H r); [left; reflexivity | exact E].
Qed.

Lemma any_nan_false (l : list Hour) :
  any_nan l = false <-> forall h, In h l -> hour_has_nan h = false.
Proof.
  unfold any_nan. split.
  - intros H h Hh. destruct (hour_has_nan h) eqn:E; [| reflexivity].
    assert (Ht : existsb hour_has_nan l = true) by (apply existsb_exists; exists h; auto).
    congruence.
  - intro H. destruct (existsb hour_has_nan l) eqn:E; [| reflexivity].
    apply existsb_exists in E. destruct E as (h & Hh & Hn). rewrite (H h Hh) in Hn. discriminate.
Qed.

Lemma any_nan_perm (l l' : list Hour) : Permutation l l' -> any_nan l = any_nan l'.
Proof.
  intro H. destruct (any_nan l') eqn:E.
  - unfold any_nan in *. apply existsb_exists in E. destruct E as (h & Hh & Hn).
    apply existsb_exists. exists h. split; [| exact Hn].
    apply (Permutation_in _ (Permutation_sym H)). exact Hh.
  - rewrite any_nan_false in *. intros h Hh. apply E. apply (Permutation_in _ H). exact Hh.
Qed.

Lemma any_nan_map (g : Hour -> Hour) (l : list Hour) :
  (forall h, hour_has_nan (g h) = hour_has_nan h) -> any_nan (map g l) = any_nan l.
Proof.
  intro Hg. unfold any_nan. induction l as [|h t IH]; simpl; [reflexivity |].
  rewrite Hg, IH. reflexivity.
Qed.

(** The row count the two functions test, on the table as read. *)
Lemma read_era5_base_ok_iff
    (nanpercentile95 : list pyfloat -> pyfloat) (IRRAD_SCALE : option pyfloat) (f : Csv) :
  (exists rows, read_era5_base nanpercentile95 IRRAD_SCALE f = Ok rows)
  <-> has_column f "DateTime" = true
      /\ count_nat (csv_rows f) = 0
      /\ first_missing f = None
      /\ any_nan (with_datetime (csv_rows f)) = false
      /\ len (drop_leap_day (with_datetime (csv_rows f))) = 8760.
Proof.
  unfold read_era5_base, ensure_datetime.
  destruct (has_column f "DateTime"); cbn [negb];
    [| split; [intros [? H]; discriminate H | intros (H & _); discriminate H]].
  destruct (Z.eqb_spec (count_nat (csv_rows f)) 0) as [Hc | Hc];
    [| split; [intros [? H]; discriminate H | intros (_ & H & _); contradiction]].
  destruct (first_missing f);
    [split; [intros [? H]; discriminate H | intros (_ & _ & H & _); discriminate H] |].
  set (df := with_datetime (csv_rows f)).
  set (fl := fun h => set_DateTime h (floor_h (DateTime h))).
  set (sorted := isort (fun a b => ts_leb (DateTime a) (DateTime b)) (map fl df)).
  assert (Hnan : any_nan sorted = any_nan df).
  { unfold sorted. rewrite (any_nan_perm _ _ (isort_perm _ _)).
    apply any_nan_map. intro h. reflexivity. }
  set (scale := match IRRAD_SCALE with
                | Some s => s
                | None => _guess_irr_scale nanpercentile95 sorted
                end).
  set (sc := if fgtb (fabs (fsub scale (Fz 1))) (Fq 1 1000000)
             then scale_irradiance scale else (fun h => h)).
  assert (Hsc : (if fgtb (fabs (fsub scale (Fz 1))) (Fq 1 1000000)
                 then map (scale_irradiance scale) sorted else sorted) = map sc sorted).
  { unfold sc. destruct (fgtb _ _); [reflexivity | symmetry; apply map_id]. }
  assert (Hlen : len (drop_leap_day (map sc sorted)) = len (drop_leap_day df)).
  { rewrite drop_leap_day_map by (intro h; unfold sc; destruct (fgtb _ _); reflexivity).
    rewrite len_map. unfold sorted.
    rewrite (len_perm _ _ (drop_leap_day_perm _ _ (isort_perm _ _))).
    rewrite drop_leap_day_map by (intro h; reflexivity). apply len_map. }
  rewrite Hsc, Hlen, Hnan.
  destruct (any_nan df);
    [split; [intros [? H]; discriminate H | intros (_ & _ & _ & H & _); discriminate H] |].
  destruct (Z.eqb_spec (len (drop_leap_day df)) 8760) as [Hl | Hl]; cbn [negb].
  - split; [intros _; repeat split; assumption | intros _; eexists; reflexivity].
  - split; [intros [? H]; discriminate H | intros (_ & _ & _ & _ & H); contradiction].
Qed.

Lemma validate_sam_csv_ok_iff (basename : string -> string) (path : string) (f : Csv) :
  validate_sam_csv basename path f = Ok tt
  <-> has_column f "DateTime" = true
      /\ count_nat (csv_rows f) = 0
      /\ first_missing f = None
      /\ any_nan (with_datetime (csv_rows f)) = false
      /\ len (drop_leap_day (with_datetime (csv_rows f))) = 8760.
Proof.
  unfold validate_sam_csv, ensure_datetime.
  destruct (has_column f "DateTime"); cbn [negb];
    [| split; [intro H; discriminate H | intros (H & _); discriminate H]].
  destruct (Z.eqb_spec (count_nat (csv_rows f)) 0) as [Hc | Hc];
    [| split; [intro H; discriminate H | intros (_ & H & _); contradiction]].
  destruct (first_missing f);
    [split; [intro H; discriminate H | intros (_ & _ & H & _); discriminate H] |].
  destruct (any_nan (with_datetime (csv_rows f)));
    [split; [intro H; discriminate H | intros (_ & _ & _ & H & _); discriminate H] |].
  destruct (Z.eqb_spec (len (drop_leap_day (with_datetime (csv_rows f)))) 8760) as [Hl | Hl];
    cbn [negb].
  - split; [intros _; repeat split; assumption | reflexivity].
  - split; [intro H; discriminate H | intros (_ & _ & _ & _ & H); contradiction].
Qed.

Lemma len_filter_negb {A} (p : A -> bool) (l : list A) :
  len (filter (fun x => negb (p x)) l) = len l - len (filter p l).
Proof.
  assert (H : (List.length (filter (fun x => negb (p x)) l) + List.length (filter p l)
               = List.length l)%nat).
  { induction l as [|x t IH]; [reflexivity |].
    cbn [filter]. destruct (p x); cbn [negb List.length]; lia. }
  unfold len. lia.
Qed.

Lemma drop_leap_day_8760 (l : list Hour) :
  len (drop_leap_day l) = 8760
  <-> len l = 8760 \/ (len l = 8784 /\ len (filter is_feb29 l) = 24).
Proof.
  unfold drop_leap_day. destruct (Z.eqb_spec (len l) 8784) as [E | E].
  - rewrite len_filter_negb. lia.
  - lia.
Qed.

Lemma csv_rows_clean (l : list CsvRow) :
  count_nat l = 0 /\ any_nan (with_datetime l) = false
  <-> forall r, In r l ->
        c_DateTime r <> None
        /\ isna (c_GHI r) = false /\ isna (c_DNI r) = false /\ isna (c_DHI r) = false
        /\ isna (c_TempC r) = false /\ isna (c_WindSpeed r) = false
        /\ isna (c_RelHum r) = false.
Proof.
  split.
  - intros [Hc Hn] r Hr. split; [apply (proj1 (count_nat_zero l) Hc r Hr) |].
    rewrite (with_datetime_all l Hc) in Hn.
    pose proof (proj1 (any_nan_false _) Hn _ (in_map _ _ _ Hr)) as H.
    unfold hour_has_nan in H. cbn [GHI DNI DHI TempC WindSpeed RelHum] in H.
    repeat (apply orb_false_iff in H; destruct H as [H ?]).
    repeat split; assumption.
  - intro H.
    assert (Hc : count_nat l = 0).
    { apply count_nat_zero. intros r Hr. apply (H r Hr). }
    split; [exact Hc |]. rewrite (with_datetime_all l Hc).
    apply any_nan_false. intros h Hh. apply in_map_iff in Hh. destruct Hh as (r & <- & Hr).
    destruct (H r Hr) as (_ & H1 & H2 & H3 & H4 & H5 & H6).
    unfold hour_has_nan. cbn [GHI DNI DHI TempC WindSpeed RelHum].
    rewrite H1, H2, H3, H4, H5, H6. reflexivity.
Qed.

(** X5. The base reader and the validator accept exactly the same
    files: whatever the percentile function, the configured scale and
    the file name, [read_era5_base] returns a frame if and only if
    [validate_sam_csv] ends without raising. *)
Theorem reader_and_validator_accept_the_same_files
    (nanpercentile95 : list pyfloat -> pyfloat) (IRRAD_SCALE : option pyfloat)
    (basename : string -> string) (path : string) (f : Csv) :
  (exists rows, read_era5_base nanpercentile95 IRRAD_SCALE f = Ok rows)
  <-> validate_sam_csv basename path f = Ok tt.
Proof.
  rewrite read_era5_base_ok_iff, validate_sam_csv_ok_iff. reflexivity.
Qed.

(** X6. What [validate_sam_csv] accepts: the file has the column
    DateTime and the six data columns, every line has a date and six
    numbers that are not NaN, and there are 8760 lines, or 8784 of which
    exactly 24 fall on a 29 February.  Nothing else is checked: neither
    the order of the hours, nor repeated or missing hours, nor the year. *)
Theorem validate_sam_csv_accepts (basename : string -> string) (path : string) (f : Csv) :
  validate_sam_csv basename path f = Ok tt
  <-> (forall c, In c ("DateTime" :: req) -> In c (columns f))
      /\ (forall r, In r (csv_rows f) ->
            c_DateTime r <> None
            /\ isna (c_GHI r) = false /\ isna (c_DNI r) = false /\ isna (c_DHI r) = false
            /\ isna (c_TempC r) = false /\ isna (c_WindSpeed r) = false
            /\ isna (c_RelHum r) = false)
      /\ (len (csv_rows f) = 8760
          \/ (len (csv_rows f) = 8784
              /\ len (filter is_feb29 (with_datetime (csv_rows f))) = 24)).
Proof.
  rewrite validate_sam_csv_ok_iff, has_column_In, first_missing_None, drop_leap_day_8760.
  rewrite <- csv_rows_clean. split.
  - intros (Hd & Hc & Hm & Hn & Hl). rewrite (with_datetime_len _ Hc) in Hl.
    split; [| split; [split; assumption | exact Hl]].
    intros c [<- | Hc']; [exact Hd | apply Hm; exact Hc'].
  - intros (Hcols & [Hc Hn] & Hl). rewrite (with_datetime_len _ Hc).
    split; [apply Hcols; left; reflexivity |].
    split; [exact Hc |]. split; [intros c Hc'; apply Hcols; right; exact Hc' |].
    split; assumption.
Qed.

(* ----------------------------------------------------------------- *)
(** ** What the loaders return *)

(** X7. [load_future_monthly] fails only when the archive of radiation,
    temperature or wind fails, with that archive's exception; when the
    three are read, the dict holds the four variables in the order of
    [VARS], and a humidity archive that cannot be read is stored as
    [None] instead of stopping the run. *)
Theorem load_future_monthly_outcome
    (_load_nex_one_year_monthly : string -> Z -> string -> result Series)
    (ssp : string) (year : Z) :
  let load := fun v => _load_nex_one_year_monthly v year (ssp_name ssp year) in
  (forall e, load_future_monthly _load_nex_one_year_monthly ssp year = Raise e ->
     exists v, In v ["rsds"; "tas"; "sfcWind"] /\ load v = Raise e)
  /\ (forall a b c, load "rsds" = Ok a -> load "tas" = Ok b -> load "sfcWind" = Ok c ->
        load_future_monthly _load_nex_one_year_monthly ssp year
        = Ok [("rsds", Some a); ("tas", Some b); ("sfcWind", Some c);
              ("hurs", match load "hurs" with Ok s => Some s | Raise _ => None end)]).
Proof.
  intro load.
  assert (Hvar : forall fut v,
            load_future_var _load_nex_one_year_monthly (ssp_name ssp year) year fut v
            = match load v with
              | Ok s => Ok (dict_set String.eqb fut v (Some s))
              | Raise e => if String.eqb v "hurs"
                           then Ok (dict_set String.eqb fut v None) else Raise e
              end) by reflexivity.
  unfold load_future_monthly, VARS. cbn [fold_left]. cbn [rbind]. rewrite !Hvar.
  split.
  - intros e. destruct (load "rsds") as [a | e1] eqn:E1; cbn [rbind].
    2: { change ("rsds" =? "hurs")%string with false. cbn [rbind].
         intro H. injection H as <-. exists "rsds". split; [left; reflexivity | exact E1]. }
    rewrite Hvar.
    destruct (load "tas") as [b | e2] eqn:E2; cbn [rbind].
    2: { change ("tas" =? "hurs")%string with false. cbn [rbind].
         intro H. injection H as <-.
         exists "tas". split; [right; left; reflexivity | exact E2]. }
    rewrite Hvar.
    destruct (load "sfcWind") as [c | e3] eqn:E3; cbn [rbind].
    2: { change ("sfcWind" =? "hurs")%string with false. cbn [rbind].
         intro H. injection H as <-.
         exists "sfcWind". split; [right; right; left; reflexivity | exact E3]. }
    rewrite Hvar.
    destruct (load "hurs"); [discriminate |].
    change ("hurs" =? "hurs")%string with true. discriminate.
  - intros a b c E1 E2 E3. rewrite E1. cbn [rbind]. rewrite Hvar, E2. cbn [rbind].
    rewrite Hvar, E3. cbn [rbind]. rewrite Hvar.
    destruct (load "hurs"); reflexivity.
Qed.

Lemma dict_get_set_same {V} (d : list (string * V)) (k : string) (v : V) :
  dict_get String.eqb (dict_set String.eqb d k v) k = Some v.
Proof.
  induction d as [|[k' v'] t IH]; simpl.
  - rewrite String.eqb_refl. reflexivity.
  - destruct (String.eqb k' k) eqn:E; simpl; rewrite E; [reflexivity | exact IH].
Qed.

Lemma dict_get_set_other {V} (d : list (string * V)) (k k' : string) (v : V) :
  k <> k' -> dict_get String.eqb (dict_set String.eqb d k v) k' = dict_get String.eqb d k'.
Proof.
  intro Hne. induction d as [|[k0 v0] t IH]; simpl.
  - destruct (String.eqb_spec k k'); [contradiction | reflexivity].
  - destruct (String.eqb_spec k0 k) as [-> | Hk]; simpl.
    + destruct (String.eqb_spec k k'); [contradiction | reflexivity].
    + destruct (String.eqb_spec k0 k'); [reflexivity | exact IH].
Qed.

(** One turn of the loop over radiation and temperature: the archive's
    series when it can be read; otherwise the run goes on only if the
    spreadsheet gave twelve values. *)
Lemma load_hist_clim_var_ok
    (_load_nex_hist_monthly : string -> result Series)
    (_load_rsds_tas_from_planilha : result (list (string * Series)))
    (planilha_exists : bool)
    (clim clim' : list (string * Series)) (v : string) (out out' : list string) :
  dict_has String.eqb clim v = false ->
  load_hist_clim_var _load_nex_hist_monthly _load_rsds_tas_from_planilha planilha_exists
                     clim v out = (Ok clim', out') ->
  exists s, clim' = dict_set String.eqb clim v s
            /\ match _load_nex_hist_monthly v with
               | Ok s' => s = s' /\ out' = out
               | Raise _ =>
                   planilha_exists = true
                   /\ (exists plan, _load_rsds_tas_from_planilha = Ok plan
                                    /\ dict_get String.eqb plan v = Some s)
                   /\ len s = 12
               end.
Proof.
  intro Hno. unfold load_hist_clim_var, try_except, bind, lift, ret, raise, print.
  destruct (_load_nex_hist_monthly v) as [s | e].
  - intro H. injection H as <- <-. exists s. repeat split.
  - destruct planilha_exists.
    + destruct _load_rsds_tas_from_planilha as [plan | e']; [| discriminate].
      destruct (dict_get String.eqb plan v) as [s |] eqn:Eg.
      * destruct (Z.eqb_spec (len s) 12) as [Hl | Hl].
        -- unfold dict_has. rewrite dict_get_set_same. cbn [negb].
           intro H. injection H as <- <-. exists s. split; [reflexivity |].
           split; [reflexivity |]. split; [| exact Hl]. exists plan. split; [reflexivity | exact Eg].
        -- rewrite Hno. discriminate.
      * rewrite Hno. discriminate.
    + rewrite Hno. discriminate.
Qed.

(** What a run of [load_hist_clims] that returns has read. *)
Lemma load_hist_clims_inv
    (_load_nex_hist_monthly : string -> result Series)
    (_load_hurs_hist_monthly_from_dir : result Series)
    (_load_rsds_tas_from_planilha : result (list (string * Series)))
    (planilha_exists : bool)
    (_load_wind_clim_from_era5_csvs : result Series)
    (out out' : list string) (clim : list (string * Series)) :
  load_hist_clims _load_nex_hist_monthly _load_hurs_hist_monthly_from_dir
                  _load_rsds_tas_from_planilha planilha_exists
                  _load_wind_clim_from_era5_csvs out = (Ok clim, out') ->
  (forall v, In v ["rsds"; "tas"] ->
     exists s, dict_get String.eqb clim v = Some s
               /\ (forall s', _load_nex_hist_monthly v = Ok s' -> s = s'))
  /\ (exists s, dict_get String.eqb clim "sfcWind" = Some s
                /\ match _load_wind_clim_from_era5_csvs with
                   | Ok w => s = w
                   | Raise _ => _load_nex_hist_monthly "sfcWind" = Ok s
                   end)
  /\ dict_get String.eqb clim "hurs"
     = match _load_hurs_hist_monthly_from_dir with Ok s => Some s | Raise _ => None end
  /\ (forall e, _load_hurs_hist_monthly_from_dir = Raise e ->
        exists pre,
          out' = (pre ++ ["[AVISO] Climatologia histórica de 'hurs' indisponível. Delta 0% será usado."])%list).
Proof.
  unfold load_hist_clims. unfold bind at 1.
  destruct (load_hist_clim_var _ _ _ [] "rsds" out) as [[c1 | e1] o1] eqn:E1; [| discriminate].
  apply load_hist_clim_var_ok in E1; [| reflexivity].
  destruct E1 as (s1 & -> & H1).
  unfold bind at 1.
  destruct (load_hist_clim_var _ _ _ _ "tas" o1) as [[c2 | e2] o2] eqn:E2; [| discriminate].
  apply load_hist_clim_var_ok in E2; [| reflexivity].
  destruct E2 as (s2 & -> & H2).
  unfold bind at 1.
  set (c2 := dict_set String.eqb (dict_set String.eqb [] "rsds" s1) "tas" s2).
  assert (Hwind : forall o,
            try_except
              (print "[AVISO] Usando climatologia ERA5 (seus CSVs) para 'sfcWind' (1994–2014)." ;;;
               s <- lift _load_wind_clim_from_era5_csvs ;;
               ret (dict_set String.eqb c2 "sfcWind" s))%M
              (fun _ =>
                 print "  [Fallback] Tentando NEX historical para 'sfcWind'." ;;;
                 s <- lift (_load_nex_hist_monthly "sfcWind") ;;
                 ret (dict_set String.eqb c2 "sfcWind" s))%M o
            = match _load_wind_clim_from_era5_csvs with
              | Ok w => (Ok (dict_set String.eqb c2 "sfcWind" w),
                         (o ++ ["[AVISO] Usando climatologia ERA5 (seus CSVs) para 'sfcWind' (1994–2014)."])%list)
              | Raise _ =>
                  (match _load_nex_hist_monthly "sfcWind" with
                   | Ok s => Ok (dict_set String.eqb c2 "sfcWind" s)
                   | Raise e => Raise e
                   end,
                   ((o ++ ["[AVISO] Usando climatologia ERA5 (seus CSVs) para 'sfcWind' (1994–2014)."])
                      ++ ["  [Fallback] Tentando NEX historical para 'sfcWind'."])%list)
              end).
  { intro o. unfold try_except, bind, print, lift, ret.
    destruct _load_wind_clim_from_era5_csvs; [reflexivity |].
    destruct (_load_nex_hist_monthly "sfcWind"); reflexivity. }
  rewrite Hwind. clear Hwind.
  assert (Hfinal : forall c3 o3,
            try_except
              (s <- lift _load_hurs_hist_monthly_from_dir ;;
               ret (dict_set String.eqb c3 "hurs" s))%M
              (fun _ =>
                 print "[AVISO] Climatologia histórica de 'hurs' indisponível. Delta 0% será usado." ;;;
                 ret c3)%M o3 = (Ok clim, out') ->
            dict_get String.eqb c3 "hurs" = None ->
            (forall k, k <> "hurs" -> dict_get String.eqb clim k = dict_get String.eqb c3 k)
            /\ dict_get String.eqb clim "hurs"
               = match _load_hurs_hist_monthly_from_dir with Ok s => Some s | Raise _ => None end
            /\ (forall e, _load_hurs_hist_monthly_from_dir = Raise e ->
                  exists pre,
                    out' = (pre ++ ["[AVISO] Climatologia histórica de 'hurs' indisponível. Delta 0% será usado."])%list)).
  { intros c3 o3. unfold try_except, bind, print, lift, ret.
    destruct _load_hurs_hist_monthly_from_dir as [h | eh]; intros H Hn; injection H as <- <-.
    - split; [intros k Hk; apply dict_get_set_other; congruence |].
      split; [apply dict_get_set_same | intros e He; discriminate He].
    - split; [reflexivity |]. split; [exact Hn |]. intros e _. exists o3. reflexivity. }
  assert (Hc2 : forall s3, dict_get String.eqb (dict_set String.eqb c2 "sfcWind" s3) "hurs" = None).
  { intro s3. reflexivity. }
  assert (Hrsds : forall s3, dict_get String.eqb (dict_set String.eqb c2 "sfcWind" s3) "rsds"
                             = Some s1) by (intro; reflexivity).
  assert (Htas : forall s3, dict_get String.eqb (dict_set String.eqb c2 "sfcWind" s3) "tas"
                            = Some s2) by (intro; reflexivity).
  assert (Hw : forall s3, dict_get String.eqb (dict_set String.eqb c2 "sfcWind" s3) "sfcWind"
                          = Some s3) by (intro; apply dict_get_set_same).
  assert (Hmain : forall s3 o3,
            try_except
              (s <- lift _load_hurs_hist_monthly_from_dir ;;
               ret (dict_set String.eqb (dict_set String.eqb c2 "sfcWind" s3) "hurs" s))%M
              (fun _ =>
                 print "[AVISO] Climatologia histórica de 'hurs' indisponível. Delta 0% será usado." ;;;
                 ret (dict_set String.eqb c2 "sfcWind" s3))%M o3 = (Ok clim, out') ->
            dict_get String.eqb clim "rsds" = Some s1
            /\ dict_get String.eqb clim "tas" = Some s2
            /\ dict_get String.eqb clim "sfcWind" = Some s3
            /\ dict_get String.eqb clim "hurs"
               = match _load_hurs_hist_monthly_from_dir with Ok s => Some s | Raise _ => None end
            /\ (forall e, _load_hurs_hist_monthly_from_dir = Raise e ->
                  exists pre,
                    out' = (pre ++ ["[AVISO] Climatologia histórica de 'hurs' indisponível. Delta 0% será usado."])%list)).
  { intros s3 o3 H. destruct (Hfinal _ _ H (Hc2 s3)) as (Hk & Hh & Ho).
    rewrite !Hk by discriminate. rewrite Hrsds, Htas, Hw. repeat split; assumption. }
  clear Hfinal.
  assert (Hsrc : forall v, In v ["rsds"; "tas"] ->
            exists s, (v = "rsds" /\ s = s1 \/ v = "tas" /\ s = s2)
                      /\ (forall s', _load_nex_hist_monthly v = Ok s' -> s = s')).
  { intros v [<- | [<- | []]].
    - exists s1. split; [left; split; reflexivity |]. intros s' Hs'. rewrite Hs' in H1. apply H1.
    - exists s2. split; [right; split; reflexivity |]. intros s' Hs'. rewrite Hs' in H2. apply H2. }
  destruct _load_wind_clim_from_era5_csvs as [w | ew].
  - intro H. apply Hmain in H. destruct H as (Ha & Hb & Hc & Hd & He).
    split; [| split; [exists w; split; [exact Hc | reflexivity] | split; assumption]].
    intros v Hv. destruct (Hsrc v Hv) as (s & [[-> ->] | [-> ->]] & Hs); eexists; split; eassumption.
  - destruct (_load_nex_hist_monthly "sfcWind") as [w | e3] eqn:E3; [| discriminate].
    intro H. apply Hmain in H. destruct H as (Ha & Hb & Hc & Hd & He).
    split; [| split; [exists w; split; [exact Hc | reflexivity] | split; assumption]].
    intros v Hv. destruct (Hsrc v Hv) as (s & [[-> ->] | [-> ->]] & Hs); eexists; split; eassumption.
Qed.

(** X8. When [load_hist_clims] returns, the dict holds radiation,
    temperature and wind; the archive's series is used for radiation and
    temperature whenever it can be read; wind comes from the hourly
    ERA5 files when they can be read and from the archive otherwise;
    humidity is in the dict exactly when its archive could be read, and
    its absence is announced on standard output instead of stopping the
    run. *)
Theorem load_hist_clims_outcome
    (_load_nex_hist_monthly : string -> result Series)
    (_load_hurs_hist_monthly_from_dir : result Series)
    (_load_rsds_tas_from_planilha : result (list (string * Series)))
    (planilha_exists : bool)
    (_load_wind_clim_from_era5_csvs : result Series)
    (out out' : list string) (clim : list (string * Series)) :
  load_hist_clims _load_nex_hist_monthly _load_hurs_hist_monthly_from_dir
                  _load_rsds_tas_from_planilha planilha_exists
                  _load_wind_clim_from_era5_csvs out = (Ok clim, out') ->
  (forall v, In v ["rsds"; "tas"] ->
     exists s, dict_get String.eqb clim v = Some s
               /\ (forall s', _load_nex_hist_monthly v = Ok s' -> s = s'))
  /\ (exists s, dict_get String.eqb clim "sfcWind" = Some s
                /\ match _load_wind_clim_from_era5_csvs with
                   | Ok w => s = w
                   | Raise _ => _load_nex_hist_monthly "sfcWind" = Ok s
                   end)
  /\ dict_get String.eqb clim "hurs"
     = match _load_hurs_hist_monthly_from_dir with Ok s => Some s | Raise _ => None end
  /\ (forall e, _load_hurs_hist_monthly_from_dir = Raise e ->
        exists pre,
          out' = (pre ++ ["[AVISO] Climatologia histórica de 'hurs' indisponível. Delta 0% será usado."])%list).
Proof.
  exact (load_hist_clims_inv _load_nex_hist_monthly _load_hurs_hist_monthly_from_dir
           _load_rsds_tas_from_planilha planilha_exists _load_wind_clim_from_era5_csvs
           out out' clim).
Qed.

(** With the sample archives (no humidity archive, no hourly wind
    files), the run goes on with three climatologies and the warning. *)
Lemma load_hist_clims_outcome_witness :
  exists clim out',
    load_hist_clims sample_hist no_file (Raise (FileNotFoundError "planilha")) false no_file []
    = (Ok clim, out')
    /\ dict_get String.eqb clim "sfcWind" = Some (constant_series (Fz 3))
    /\ dict_get String.eqb clim "hurs" = None
    /\ exists pre,
         out' = (pre ++ ["[AVISO] Climatologia histórica de 'hurs' indisponível. Delta 0% será usado."])%list.
Proof.
  eexists. eexists.
  assert (E : load_hist_clims sample_hist no_file (Raise (FileNotFoundError "planilha")) false
                              no_file []
              = (Ok [("rsds", constant_series (Fz 200)); ("tas", constant_series (Fz 25));
                     ("sfcWind", constant_series (Fz 3))],
                 ["[AVISO] Usando climatologia ERA5 (seus CSVs) para 'sfcWind' (1994–2014).";
                  "  [Fallback] Tentando NEX historical para 'sfcWind'.";
                  "[AVISO] Climatologia histórica de 'hurs' indisponível. Delta 0% será usado."]))
    by reflexivity.
  split; [exact E |].
  destruct (load_hist_clims_outcome _ _ _ _ _ _ _ _ E) as (_ & (s & Hs & Hw) & Hh & Ho).
  split; [rewrite Hs; f_equal; cbv beta iota in Hw; injection Hw as <-; reflexivity |].
  split; [exact Hh |]. exact (Ho _ eq_refl).
Defined.

(* ----------------------------------------------------------------- *)
(** ** The spreadsheet as a substitute for the historical archive *)

Lemma planilha_raises (xls : Workbook) :
  exists e, _load_rsds_tas_from_planilha xls = Raise e.
Proof.
  unfold _load_rsds_tas_from_planilha.
  destruct xls as [[| [name [cols | e]] rest] | e]; eexists; reflexivity.
Qed.

(** X9. [_load_rsds_tas_from_planilha] never returns: a workbook whose
    first sheet can be read ends it with a NameError.  So the
    climatologies of radiation and temperature can only come from the
    historical archive: [load_hist_clims] returns only when the archive
    gave both, and when the archive of radiation is missing and the
    spreadsheet exists with a readable first sheet, the run stops with
    the NameError right after announcing the spreadsheet. *)
Theorem planilha_never_substitutes
    (_load_nex_hist_monthly : string -> result Series)
    (_load_hurs_hist_monthly_from_dir : result Series)
    (xls : Workbook) (planilha_exists : bool)
    (_load_wind_clim_from_era5_csvs : result Series)
    (out : list string) :
  let run := load_hist_clims _load_nex_hist_monthly _load_hurs_hist_monthly_from_dir
               (_load_rsds_tas_from_planilha xls) planilha_exists
               _load_wind_clim_from_era5_csvs out in
  (exists e, _load_rsds_tas_from_planilha xls = Raise e)
  /\ (forall name cols rest, xls = Ok ((name, Ok cols) :: rest) ->
        _load_rsds_tas_from_planilha xls
        = Raise (OtherError "NameError" "name 'c' is not defined"))
  /\ (forall clim out', run = (Ok clim, out') ->
        exists a b, _load_nex_hist_monthly "rsds" = Ok a
                    /\ _load_nex_hist_monthly "tas" = Ok b
                    /\ dict_get String.eqb clim "rsds" = Some a
                    /\ dict_get String.eqb clim "tas" = Some b)
  /\ (forall e name cols rest,
        _load_nex_hist_monthly "rsds" = Raise e -> planilha_exists = true ->
        xls = Ok ((name, Ok cols) :: rest) ->
        run = (Raise (OtherError "NameError" "name 'c' is not defined"),
               (out ++ ["[AVISO] Usando climatologia da planilha para 'rsds' (1994–2014)."])%list))
  /\ (forall e, _load_nex_hist_monthly "rsds" = Raise e -> planilha_exists = false ->
        run = (Raise e, out)).
Proof.
  intro run. split; [apply planilha_raises |].
  split; [intros name cols rest ->; reflexivity |].
  split; [| split].
  - intros clim out' H.
    destruct (load_hist_clims_inv _ _ _ _ _ _ _ _ H) as (Hsrc & _).
    unfold run, load_hist_clims in H. unfold bind at 1 in H.
    destruct (load_hist_clim_var _ _ _ [] "rsds" out) as [[c1 | e1] o1] eqn:E1;
      [| discriminate H].
    apply load_hist_clim_var_ok in E1; [| reflexivity]. destruct E1 as (s1 & -> & H1).
    unfold bind at 1 in H.
    destruct (load_hist_clim_var _ _ _ _ "tas" o1) as [[c2 | e2] o2] eqn:E2;
      [| discriminate H].
    apply load_hist_clim_var_ok in E2; [| reflexivity]. destruct E2 as (s2 & -> & H2).
    clear H.
    destruct (planilha_raises xls) as [ex Hx].
    destruct (_load_nex_hist_monthly "rsds") as [a | ea] eqn:Ea;
      [| destruct H1 as (_ & (plan & Hp & _) & _); rewrite Hx in Hp; discriminate Hp].
    destruct (_load_nex_hist_monthly "tas") as [b | eb] eqn:Eb;
      [| destruct H2 as (_ & (plan & Hp & _) & _); rewrite Hx in Hp; discriminate Hp].
    exists a, b. split; [reflexivity |]. split; [reflexivity |].
    destruct (Hsrc "rsds" (or_introl eq_refl)) as (x & Hx1 & Hx2).
    destruct (Hsrc "tas" (or_intror (or_introl eq_refl))) as (y & Hy1 & Hy2).
    rewrite Hx1, Hy1, (Hx2 a Ea), (Hy2 b Eb). split; reflexivity.
  - intros e name cols rest He -> ->.
    unfold run, load_hist_clims, load_hist_clim_var, bind, try_except, lift, print.
    rewrite He. reflexivity.
  - intros e He ->.
    unfold run, load_hist_clims, load_hist_clim_var, bind, try_except, lift, print, ret, raise.
    rewrite He. reflexivity.
Qed.

(* ----------------------------------------------------------------- *)
(** ** A target year equal to the climatology *)

Lemma fdiv_same (q : Qc) : q <> 0%Qc -> fdiv (Fin q) (Fin q) = Fz 1.
Proof.
  intro H. unfold fdiv. rewrite (Qc_eq_bool_neq _ _ H).
  unfold Fz. change (qc 1 1) with 1%Qc. f_equal. unfold Qcdiv. apply Qcmult_inv_r. exact H.
Qed.

Lemma fsub_same (q : Qc) : fsub (Fin q) (Fin q) = Fz 0.
Proof.
  unfold fsub, fneg, fadd, Fz. change (qc 0 1) with 0%Qc. f_equal. apply Qcplus_opp_r.
Qed.

Lemma nth_values_In (xs : list pyfloat) (m : Z) :
  len xs = 12 -> 1 <= m <= 12 -> In (nth (Z.to_nat (m - 1)) xs NaN) xs.
Proof. intros H Hm. apply nth_In. unfold len in H. lia. Qed.

Lemma same_series_factor (s : Series) (m : Z) :
  usable_values true s -> 1 <= m <= 12 ->
  map_dict (series_binop fdiv (combine (range 1 13) (values s))
                              (combine (range 1 13) (values s))) m = Fz 1.
Proof.
  intros [Hl Hv] Hm. rewrite map_dict_fdiv.
  rewrite map_dict_combine by (rewrite ?len_values; assumption).
  destruct (Hv _ (nth_values_In _ m (eq_trans (len_values s) Hl) Hm)) as (q & -> & Hq).
  apply fdiv_same. apply Hq. reflexivity.
Qed.

Lemma same_series_offset (s : Series) (m : Z) :
  usable_values false s -> 1 <= m <= 12 ->
  map_dict (series_binop fsub (combine (range 1 13) (values s))
                              (combine (range 1 13) (values s))) m = Fz 0.
Proof.
  intros [Hl Hv] Hm. rewrite map_dict_fsub.
  rewrite map_dict_combine by (rewrite ?len_values; assumption).
  destruct (Hv _ (nth_values_In _ m (eq_trans (len_values s) Hl) Hm)) as (q & -> & Hq).
  apply fsub_same.
Qed.

(** A row morphed with factor 1 and offset 0 in its month. *)
Lemma neutral_row (dl : Deltas) (r : BaseRow) :
  map_dict (k_rsds dl) (month r) = Fz 1 ->
  map_dict (d_tas dl) (month r) = Fz 0 ->
  map_dict (k_wspd dl) (month r) = Fz 1 ->
  map_dict (d_hurs dl) (month r) = Fz 0 ->
  identity_image r (morph_row dl r).
Proof.
  intros H1 H2 H3 H4. unfold identity_image, morph_row.
  cbn [GHI DNI DHI TempC WindSpeed RelHum].
  rewrite H1, H2, H3, H4, !fadd_0_r, !fmul_1_r.
  repeat match goal with |- _ /\ _ => split end; try reflexivity.
  - intro H. apply clip_lower_idle; assumption.
  - intro H. apply clip_lower_idle; assumption.
  - intros Ha Hb. apply clip_idle; assumption.
Qed.

(** X10. A target year whose monthly values equal the climatology
    (twelve finite values each, radiation and wind without a zero;
    humidity equal too, or absent on both sides) gives factor 1 and
    offset 0 in every month, so the morph treats every row as the
    identity deltas do. *)
Theorem same_climate_is_neutral
    (clim : list (string * Series)) (fut : list (string * option Series))
    (rsds tas wind : Series) :
  dict_get String.eqb clim "rsds" = Some rsds -> get_flat fut "rsds" = Some rsds ->
  dict_get String.eqb clim "tas" = Some tas -> get_flat fut "tas" = Some tas ->
  dict_get String.eqb clim "sfcWind" = Some wind -> get_flat fut "sfcWind" = Some wind ->
  (get_flat fut "hurs" = None /\ dict_get String.eqb clim "hurs" = None
   \/ exists hurs, get_flat fut "hurs" = Some hurs
                   /\ dict_get String.eqb clim "hurs" = Some hurs
                   /\ usable_values false hurs) ->
  usable_values true rsds -> usable_values false tas -> usable_values true wind ->
  exists dl,
    monthly_deltas clim fut = Ok dl
    /\ (forall m, 1 <= m <= 12 ->
          map_dict (k_rsds dl) m = Fz 1 /\ map_dict (d_tas dl) m = Fz 0
          /\ map_dict (k_wspd dl) m = Fz 1 /\ map_dict (d_hurs dl) m = Fz 0)
    /\ (forall r, 1 <= month r <= 12 -> identity_image r (morph_row dl r)).
Proof.
  intros Hcr Hfr Hct Hft Hcw Hfw Hh Ur Ut Uw.
  assert (Hdl : exists dl,
             monthly_deltas clim fut = Ok dl
             /\ forall m, 1 <= m <= 12 ->
                  map_dict (k_rsds dl) m = Fz 1 /\ map_dict (d_tas dl) m = Fz 0
                  /\ map_dict (k_wspd dl) m = Fz 1 /\ map_dict (d_hurs dl) m = Fz 0).
  { unfold monthly_deltas.
    rewrite (as_monthly_get _ rsds _ _ _ Hcr (proj1 Ur)), (as_monthly_get _ rsds _ _ _ Hfr (proj1 Ur)),
      (as_monthly_get _ tas _ _ _ Hct (proj1 Ut)), (as_monthly_get _ tas _ _ _ Hft (proj1 Ut)),
      (as_monthly_get _ wind _ _ _ Hcw (proj1 Uw)), (as_monthly_get _ wind _ _ _ Hfw (proj1 Uw)).
    cbn [rbind].
    destruct Hh as [[Hfh Hch] | (hurs & Hfh & Hch & Uh)].
    - rewrite Hfh, Hch. cbn [_as_monthly_series rbind].
      eexists. split; [reflexivity |]. intros m Hm. cbn [k_rsds d_tas k_wspd d_hurs fst snd].
      split; [apply same_series_factor; assumption |].
      split; [apply same_series_offset; assumption |].
      split; [apply same_series_factor; assumption |].
      assert (Hc : m = 1 \/ m = 2 \/ m = 3 \/ m = 4 \/ m = 5 \/ m = 6 \/ m = 7
                   \/ m = 8 \/ m = 9 \/ m = 10 \/ m = 11 \/ m = 12) by lia.
      repeat (destruct Hc as [-> | Hc]; [vm_compute; reflexivity |]). subst m.
      vm_compute; reflexivity.
    - rewrite Hfh.
      rewrite (as_monthly_get _ hurs _ _ _ eq_refl (proj1 Uh)),
        (as_monthly_get _ hurs _ _ _ Hch (proj1 Uh)).
      cbn [rbind]. eexists. split; [reflexivity |]. intros m Hm.
      cbn [k_rsds d_tas k_wspd d_hurs fst snd].
      split; [apply same_series_factor; assumption |].
      split; [apply same_series_offset; assumption |].
      split; [apply same_series_factor; assumption |].
      apply same_series_offset; assumption. }
  destruct Hdl as (dl & E & Hm). exists dl. split; [exact E |]. split; [exact Hm |].
  intros r Hr. destruct (Hm _ Hr) as (H1 & H2 & H3 & H4). apply neutral_row; assumption.
Qed.

Lemma usable_constant (nonzero : bool) (q : Qc) :
  (nonzero = true -> q <> 0%Qc) -> usable_values nonzero (constant_series (Fin q)).
Proof.
  intro H. split; [reflexivity |]. intros x Hx.
  exists q. split; [| exact H].
  unfold constant_series, values in Hx. rewrite map_map in Hx. apply in_map_iff in Hx.
  destruct Hx as (m & <- & _). reflexivity.
Qed.

(** The sample target year against climatologies equal to it. *)
Lemma same_climate_is_neutral_witness :
  exists dl,
    monthly_deltas sample_fut_clim sample_fut = Ok dl
    /\ (forall m, 1 <= m <= 12 ->
          map_dict (k_rsds dl) m = Fz 1 /\ map_dict (d_tas dl) m = Fz 0
          /\ map_dict (k_wspd dl) m = Fz 1 /\ map_dict (d_hurs dl) m = Fz 0)
    /\ (forall r, 1 <= month r <= 12 -> identity_image r (morph_row dl r)).
Proof.
  assert (Hnz : forall n d, Qc_eq_bool (qc n d) 0 = false -> qc n d <> 0%Qc).
  { intros n d H E. rewrite E in H. discriminate H. }
  apply (same_climate_is_neutral sample_fut_clim sample_fut
           (constant_series (Fz 210)) (constant_series (Fz 26)) (constant_series (Fz 3)));
    try reflexivity.
  - right. exists (constant_series (Fz 72)). split; [reflexivity |]. split; [reflexivity |].
    apply usable_constant. intro H; discriminate H.
  - apply usable_constant. intros _. apply Hnz. vm_compute. reflexivity.
  - apply usable_constant. intro H; discriminate H.
  - apply usable_constant. intros _. apply Hnz. vm_compute. reflexivity.
Defined.

(* ----------------------------------------------------------------- *)
(** ** Hours without sun; when the factors exist *)

Lemma morph_row_dark (dl : Deltas) (r : BaseRow) :
  GHI (hour_of r) = Fz 0 -> isfinite (map_dict (k_rsds dl) (month r)) = true ->
  GHI (morph_row dl r) = Fz 0 /\ DNI (morph_row dl r) = Fz 0 /\ DHI (morph_row dl r) = Fz 0.
Proof.
  intros Hg Hk.
  assert (G : GHI (morph_row dl r) = Fz 0).
  { unfold morph_row. cbn [GHI]. rewrite Hg.
    destruct (map_dict (k_rsds dl) (month r)) as [q | | |]; try discriminate Hk.
    unfold Fz, fmul. change (qc 0 1) with 0%Qc. rewrite Qcmult_0_l. reflexivity. }
  split; [exact G |].
  destruct (frac_dni_unit dl r) as (f & Hf & Hr).
  split.
  - rewrite morph_row_DNI, G, Hf. unfold Fz, fmul. change (qc 0 1) with 0%Qc.
    rewrite Qcmult_0_l. reflexivity.
  - rewrite morph_row_DHI, G, (frac_dhi_complement dl r f Hf Hr).
    unfold Fz, fmul. change (qc 0 1) with 0%Qc. rewrite Qcmult_0_l. reflexivity.
Qed.

(** X11. An hour without global irradiance stays without any
    irradiance, whatever its direct and diffuse columns hold, as long
    as the radiation factor of its month is a finite number. *)
Theorem dark_hours_stay_dark (base : list BaseRow) (dl : Deltas) (year : Z) (out : list Hour) :
  morph_frame base dl year = Ok out ->
  Forall2 (fun r h =>
             GHI (hour_of r) = Fz 0 ->
             isfinite (map_dict (k_rsds dl) (month r)) = true ->
             GHI h = Fz 0 /\ DNI h = Fz 0 /\ DHI h = Fz 0)
          base out.
Proof.
  unfold morph_frame. intro H. apply mapM_Forall2 in H.
  remember (map (morph_row dl) base) as l eqn:El.
  revert base El. induction H as [| x y l out Hxy _ IH]; intros base El.
  - destruct base; [constructor | discriminate El].
  - destruct base as [| r base]; [discriminate El |].
    cbn [map] in El. injection El as -> ->. constructor; [| apply IH; reflexivity].
    intros Hg Hk. destruct (restamp_fields _ _ _ Hxy) as (H1 & H2 & H3 & _).
    rewrite H1, H2, H3. apply morph_row_dark; assumption.
Qed.

Lemma dark_hours_stay_dark_witness :
  morph_frame [night_row] january_deltas 2030
  = Ok [set_DateTime (morph_row january_deltas night_row) (mkTimestamp 2030 1 1 0 0)]
  /\ GHI (morph_row january_deltas night_row) = Fz 0
  /\ DNI (morph_row january_deltas night_row) = Fz 0
  /\ DHI (morph_row january_deltas night_row) = Fz 0.
Proof.
  assert (E : morph_frame [night_row] january_deltas 2030
              = Ok [set_DateTime (morph_row january_deltas night_row)
                                 (mkTimestamp 2030 1 1 0 0)]) by reflexivity.
  split; [exact E |].
  pose proof (dark_hours_stay_dark _ _ _ _ E) as H.
  inversion H as [| r h base out Hrow _]; subst.
  apply Hrow; reflexivity.
Defined.

Lemma as_monthly_required (o : option Series) (name : string) :
  (exists s, _as_monthly_series (of_get o) name false None = Ok s)
  <-> exists s, o = Some s /\ len s = 12.
Proof.
  unfold of_get, _as_monthly_series. destruct o as [s |].
  - rewrite len_values. destruct (Z.eqb_spec (len s) 12) as [E | E]; cbn [negb].
    + split; [intros _; exists s; split; [reflexivity | exact E] | intros _; eexists; reflexivity].
    + split; [intros [? H]; discriminate H | intros (s' & H & Hl)].
      injection H as <-. contradiction.
  - split; [intros [? H]; discriminate H | intros (s' & H & _); discriminate H].
Qed.

(** X12. The twelve factors and offsets exist exactly when radiation,
    temperature and wind are present with twelve values on both sides,
    and humidity is present with twelve values on both sides, or absent
    from the target year and absent or of twelve values in the
    climatology; in every other case the morph raises. *)
Theorem monthly_deltas_defined_iff
    (clim : list (string * Series)) (fut : list (string * option Series)) :
  (exists dl, monthly_deltas clim fut = Ok dl)
  <-> (forall v, In v ["rsds"; "tas"; "sfcWind"] ->
         (exists c, dict_get String.eqb clim v = Some c /\ len c = 12)
         /\ (exists f, get_flat fut v = Some f /\ len f = 12))
      /\ hurs_usable clim fut.
Proof.
  assert (Hreq : forall o name,
            (exists s, _as_monthly_series (of_get o) name false None = Ok s)
            \/ (exists e, _as_monthly_series (of_get o) name false None = Raise e
                          /\ ~ exists s, o = Some s /\ len s = 12)).
  { intros o name. destruct (_as_monthly_series (of_get o) name false None) as [s | e] eqn:E.
    - left. exists s. reflexivity.
    - right. exists e. split; [reflexivity |]. intro H.
      apply (as_monthly_required o name) in H. destruct H as [s H]. congruence. }
  unfold monthly_deltas.
  destruct (Hreq (dict_get String.eqb clim "rsds") "clim.rsds") as [[s1 E1] | (e & E & N)];
    rewrite ?E1, ?E; cbn [rbind].
  2: { split; [intros [? H]; discriminate H | intros [H _]; exfalso; apply N].
       apply (H "rsds"). left. reflexivity. }
  destruct (Hreq (dict_get String.eqb clim "tas") "clim.tas") as [[s2 E2] | (e & E & N)];
    rewrite ?E2, ?E; cbn [rbind].
  2: { split; [intros [? H]; discriminate H | intros [H _]; exfalso; apply N].
       apply (H "tas"). right. left. reflexivity. }
  destruct (Hreq (dict_get String.eqb clim "sfcWind") "clim.sfcWind") as [[s3 E3] | (e & E & N)];
    rewrite ?E3, ?E; cbn [rbind].
  2: { split; [intros [? H]; discriminate H | intros [H _]; exfalso; apply N].
       apply (H "sfcWind"). right. right. left. reflexivity. }
  destruct (Hreq (get_flat fut "rsds") "fut.rsds") as [[s4 E4] | (e & E & N)];
    rewrite ?E4, ?E; cbn [rbind].
  2: { split; [intros [? H]; discriminate H | intros [H _]; exfalso; apply N].
       apply (H "rsds"). left. reflexivity. }
  destruct (Hreq (get_flat fut "tas") "fut.tas") as [[s5 E5] | (e & E & N)];
    rewrite ?E5, ?E; cbn [rbind].
  2: { split; [intros [? H]; discriminate H | intros [H _]; exfalso; apply N].
       apply (H "tas"). right. left. reflexivity. }
  destruct (Hreq (get_flat fut "sfcWind") "fut.sfcWind") as [[s6 E6] | (e & E & N)];
    rewrite ?E6, ?E; cbn [rbind].
  2: { split; [intros [? H]; discriminate H | intros [H _]; exfalso; apply N].
       apply (H "sfcWind"). right. right. left. reflexivity. }
  assert (Hthree : forall v, In v ["rsds"; "tas"; "sfcWind"] ->
            (exists c, dict_get String.eqb clim v = Some c /\ len c = 12)
            /\ (exists f, get_flat fut v = Some f /\ len f = 12)).
  { intros v [<- | [<- | [<- | []]]]; split.
    - apply (as_monthly_required _ "clim.rsds"). exists s1. exact E1.
    - apply (as_monthly_required _ "fut.rsds"). exists s4. exact E4.
    - apply (as_monthly_required _ "clim.tas"). exists s2. exact E2.
    - apply (as_monthly_required _ "fut.tas"). exists s5. exact E5.
    - apply (as_monthly_required _ "clim.sfcWind"). exists s3. exact E3.
    - apply (as_monthly_required _ "fut.sfcWind"). exists s6. exact E6. }
  unfold hurs_usable.
  destruct (get_flat fut "hurs") as [fh |] eqn:Efh.
  - destruct (dict_get String.eqb clim "hurs") as [ch |] eqn:Ech.
    + unfold of_get, _as_monthly_series. rewrite !len_values.
      destruct (Z.eqb_spec (len fh) 12) as [L1 | L1]; cbn [negb rbind].
      * destruct (Z.eqb_spec (len ch) 12) as [L2 | L2]; cbn [negb rbind].
        -- split; [intros _; split; [exact Hthree | split; assumption]
                  | intros _; eexists; reflexivity].
        -- split; [intros [? H]; discriminate H | intros [_ [_ H]]; contradiction].
      * split; [intros [? H]; discriminate H | intros [_ [H _]]; contradiction].
    + unfold of_get, _as_monthly_series. rewrite !len_values.
      destruct (Z.eqb_spec (len fh) 12) as [L1 | L1]; cbn [negb rbind];
        (split; [intros [? H]; discriminate H | intros [_ H]; contradiction]).
  - change (_as_monthly_series PNone "fut.hurs" true (Some (Fz 0)))
      with (@Ok Series (constant_series (Fz 0))).
    cbn [rbind].
    destruct (dict_get String.eqb clim "hurs") as [ch |] eqn:Ech.
    + unfold _as_monthly_series. rewrite len_values.
      destruct (Z.eqb_spec (len ch) 12) as [L2 | L2]; cbn [negb rbind].
      * split; [intros _; split; [exact Hthree | exact L2] | intros _; eexists; reflexivity].
      * split; [intros [? H]; discriminate H | intros [_ H]; contradiction].
    + split; [intros _; split; [exact Hthree | exact I] | intros _; eexists; reflexivity].
Qed.

(* ----------------------------------------------------------------- *)
(** ** Moving the frame to the target year *)





Lemma Forall2_len {A B} (R : A -> B -> Prop) (l : list A) (l' : list B) :
  Forall2 R l l' -> len l' = len l.
Proof. intro H. unfold len. rewrite (Forall2_length H). reflexivity. Qed.



(* ----------------------------------------------------------------- *)
(** ** The file the morph writes, seen by the validator *)

Lemma with_datetime_to_csv (df : list Hour) :
  with_datetime (csv_rows (to_csv df)) = df /\ count_nat (csv_rows (to_csv df)) = 0.
Proof.
  unfold to_csv, count_nat, len. cbn [csv_rows].
  induction df as [|h t [IH1 IH2]]; [split; reflexivity |].
  cbn [map with_datetime filter c_DateTime c_GHI c_DNI c_DHI c_TempC c_WindSpeed c_RelHum].
  rewrite IH1. split; [destruct h; reflexivity | exact IH2].
Qed.

(** On a table written by [to_csv], only the NaN test and the row count
    of [validate_sam_csv] can fail. *)
Lemma validate_to_csv (basename : string -> string) (path : string) (df : list Hour) :
  len df = 8760 ->
  validate_sam_csv basename path (to_csv df)
  = if any_nan df then Raise (ValueError "NaN após morph.") else Ok tt.
Proof.
  intro Hl. unfold validate_sam_csv, ensure_datetime.
  destruct (with_datetime_to_csv df) as [Hw Hc]. rewrite Hc, Hw.
  change (has_column (to_csv df) "DateTime") with true.
  change (first_missing (to_csv df)) with (@None string).
  cbn [negb Z.eqb]. destruct (any_nan df); [reflexivity |].
  unfold drop_leap_day. rewrite Hl. change (Z.eqb 8760 8784) with false. cbv iota.
  rewrite Hl. reflexivity.
Qed.

(** What a run of [morph_one_year] that returns has gone through. *)
Lemma morph_one_year_inv
    (_load_nex_one_year_monthly : string -> Z -> string -> result Series)
    (_load_nex_hist_monthly : string -> result Series)
    (_load_hurs_hist_monthly_from_dir : result Series)
    (_load_rsds_tas_from_planilha : result (list (string * Series)))
    (planilha_exists : bool)
    (_load_wind_clim_from_era5_csvs : result Series)
    (base_csv : result Csv)
    (nanpercentile95 : list pyfloat -> pyfloat) (IRRAD_SCALE : option pyfloat)
    (MODEL OUT_SAM_CSV_DIR sep ssp : string) (year : Z)
    (out out' : list string) (p : string) (f : Csv) :
  morph_one_year _load_nex_one_year_monthly _load_nex_hist_monthly
                 _load_hurs_hist_monthly_from_dir _load_rsds_tas_from_planilha
                 planilha_exists _load_wind_clim_from_era5_csvs base_csv
                 nanpercentile95 IRRAD_SCALE MODEL OUT_SAM_CSV_DIR sep ssp year out
  = (Ok (p, f), out') ->
  exists file base clim fut dl df,
    base_csv = Ok file
    /\ read_era5_base nanpercentile95 IRRAD_SCALE file = Ok base
    /\ load_hist_clims _load_nex_hist_monthly _load_hurs_hist_monthly_from_dir
                       _load_rsds_tas_from_planilha planilha_exists
                       _load_wind_clim_from_era5_csvs out = (Ok clim, out')
    /\ load_future_monthly _load_nex_one_year_monthly ssp year = Ok fut
    /\ monthly_deltas clim fut = Ok dl
    /\ morph_frame base dl year = Ok df
    /\ p = out_path MODEL OUT_SAM_CSV_DIR sep ssp year
    /\ f = to_csv df.
Proof.
  unfold morph_one_year, bind, lift, ret.
  destruct base_csv as [file | e]; cbn [rbind]; [| discriminate].
  destruct (read_era5_base nanpercentile95 IRRAD_SCALE file) as [base | e] eqn:E1;
    [| discriminate].
  destruct (load_hist_clims _ _ _ _ _ out) as [[clim | e] o1] eqn:E2; [| discriminate].
  destruct (load_future_monthly _ ssp year) as [fut | e] eqn:E3; [| discriminate].
  destruct (monthly_deltas clim fut) as [dl | e] eqn:E4; [| discriminate].
  destruct (morph_frame base dl year) as [df | e] eqn:E5; [| discriminate].
  intro H. injection H as <- <- <-.
  exists file, base, clim, fut, dl, df. repeat split; assumption.
Qed.

(** The table a run of [morph_one_year] has written. *)
Lemma morph_one_year_file
    (_load_nex_one_year_monthly : string -> Z -> string -> result Series)
    (_load_nex_hist_monthly : string -> result Series)
    (_load_hurs_hist_monthly_from_dir : result Series)
    (_load_rsds_tas_from_planilha : result (list (string * Series)))
    (planilha_exists : bool)
    (_load_wind_clim_from_era5_csvs : result Series)
    (base_csv : result Csv)
    (nanpercentile95 : list pyfloat -> pyfloat) (IRRAD_SCALE : option pyfloat)
    (MODEL OUT_SAM_CSV_DIR sep ssp : string) (year : Z)
    (out out' : list string) (p : string) (f : Csv) :
  morph_one_year _load_nex_one_year_monthly _load_nex_hist_monthly
                 _load_hurs_hist_monthly_from_dir _load_rsds_tas_from_planilha
                 planilha_exists _load_wind_clim_from_era5_csvs base_csv
                 nanpercentile95 IRRAD_SCALE MODEL OUT_SAM_CSV_DIR sep ssp year out
  = (Ok (p, f), out') ->
  exists df, f = to_csv df /\ len df = 8760
             /\ p = out_path MODEL OUT_SAM_CSV_DIR sep ssp year.
Proof.
  intro H. apply morph_one_year_inv in H.
  destruct H as (file & base & clim & fut & dl & df & _ & Hread & _ & _ & _ & Hm & -> & ->).
  exists df. split; [reflexivity |]. split; [| reflexivity].
  destruct (read_era5_base_inv _ _ _ _ Hread) as (_ & Hb & _).
  unfold morph_frame in Hm. apply mapM_Forall2 in Hm.
  rewrite (Forall2_len _ _ _ Hm), len_map. exact Hb.
Qed.

(** X14. A file [morph_one_year] has written always has the seven
    columns, a date on every line and 8760 lines: [validate_sam_csv]
    accepts it unless a value is NaN, and can fail on it with no other
    message than the one about NaN. *)
Theorem morphed_file_validation
    (_load_nex_one_year_monthly : string -> Z -> string -> result Series)
    (_load_nex_hist_monthly : string -> result Series)
    (_load_hurs_hist_monthly_from_dir : result Series)
    (_load_rsds_tas_from_planilha : result (list (string * Series)))
    (planilha_exists : bool)
    (_load_wind_clim_from_era5_csvs : result Series)
    (base_csv : result Csv)
    (nanpercentile95 : list pyfloat -> pyfloat) (IRRAD_SCALE : option pyfloat)
    (MODEL OUT_SAM_CSV_DIR sep ssp : string) (year : Z)
    (basename : string -> string)
    (out out' : list string) (p : string) (f : Csv) :
  morph_one_year _load_nex_one_year_monthly _load_nex_hist_monthly
                 _load_hurs_hist_monthly_from_dir _load_rsds_tas_from_planilha
                 planilha_exists _load_wind_clim_from_era5_csvs base_csv
                 nanpercentile95 IRRAD_SCALE MODEL OUT_SAM_CSV_DIR sep ssp year out
  = (Ok (p, f), out') ->
  len (csv_rows f) = 8760
  /\ columns f = "DateTime" :: req
  /\ (forall r, In r (csv_rows f) -> c_DateTime r <> None)
  /\ validate_sam_csv basename p f
     = if any_nan (with_datetime (csv_rows f))
       then Raise (ValueError "NaN após morph.") else Ok tt.
Proof.
  intro H. apply morph_one_year_file in H. destruct H as (df & -> & Hl & _).
  destruct (with_datetime_to_csv df) as [Hw Hc].
  split; [rewrite <- (with_datetime_len _ Hc), Hw; exact Hl |].
  split; [reflexivity |].
  split; [apply count_nat_zero; exact Hc |].
  rewrite Hw. apply validate_to_csv. exact Hl.
Qed.

(** The sample archives, the reference file of 2019 and the target 2030
    under ssp245: the file written is one the validator accepts. *)
Lemma morphed_file_validation_witness :
  exists p f out',
    morph_one_year (sample_year 210 sample_hurs_hist) sample_hist sample_hurs_hist
                   (Raise (FileNotFoundError "planilha")) false (Ok (constant_series (Fz 3)))
                   (Ok (sample_csv 2019)) (fun _ => Fz 500) (Some (Fz 1))
                   "ACCESS-CM2" "SAM_CSV_MORPH" "/" "ssp245" 2030 []
    = (Ok (p, f), out')
    /\ len (csv_rows f) = 8760
    /\ validate_sam_csv (fun s => s) p f = Ok tt.
Proof.
  assert (Hb : match fst (morph_one_year (sample_year 210 sample_hurs_hist) sample_hist
                            sample_hurs_hist (Raise (FileNotFoundError "planilha")) false
                            (Ok (constant_series (Fz 3))) (Ok (sample_csv 2019))
                            (fun _ => Fz 500) (Some (Fz 1))
                            "ACCESS-CM2" "SAM_CSV_MORPH" "/" "ssp245" 2030 [])
               with
               | Ok (_, f) => negb (any_nan (with_datetime (csv_rows f)))
               | Raise _ => false
               end = true) by (vm_compute; reflexivity).
  destruct (morph_one_year (sample_year 210 sample_hurs_hist) sample_hist
              sample_hurs_hist (Raise (FileNotFoundError "planilha")) false
              (Ok (constant_series (Fz 3))) (Ok (sample_csv 2019))
              (fun _ => Fz 500) (Some (Fz 1))
              "ACCESS-CM2" "SAM_CSV_MORPH" "/" "ssp245" 2030 [])
    as [[[p f] | e] out'] eqn:E; [| discriminate Hb].
  exists p, f, out'. split; [reflexivity |].
  destruct (morphed_file_validation _ _ _ _ _ _ _ _ _ _ _ _ _ _ (fun s => s) _ _ _ _ E)
    as (Hl & _ & _ & Hv).
  split; [exact Hl |]. rewrite Hv.
  change (negb (any_nan (with_datetime (csv_rows f))) = true) in Hb.
  apply negb_true_iff in Hb. rewrite Hb. reflexivity.
Defined.

(* ----------------------------------------------------------------- *)
(** ** The loop of [main] *)

Section MainLoop.
Variable _load_nex_one_year_monthly : string -> Z -> string -> result Series.
Variable _load_nex_hist_monthly : string -> result Series.
Variable _load_hurs_hist_monthly_from_dir : result Series.
Variable planilha : Workbook.
Variable planilha_exists : bool.
Variable _load_wind_clim_from_era5_csvs : result Series.
Variable base_csv : result Csv.
Variable nanpercentile95 : list pyfloat -> pyfloat.
Variable IRRAD_SCALE : option pyfloat.
Variable MODEL : string.
Variable OUT_SAM_CSV_DIR : string.
Variable LOG_DIR : string.
Variable sep : string.
Variable basename : string -> string.
Variable SCENARIOS : list string.
Variable YEARS : list Z.
Variables LAT LON ELEV TZ : pyfloat.
Variable pvwatts : SolarResource -> result SamOutputs.
Variable elapsed : string -> pyfloat.
Variable round_ : pyfloat -> Z -> pyfloat.
Variable str_float : pyfloat -> string.
Variable fmt_3f : pyfloat -> string.

#[local] Abbreviation morph' :=
  (morph_one_year _load_nex_one_year_monthly _load_nex_hist_monthly
     _load_hurs_hist_monthly_from_dir (_load_rsds_tas_from_planilha planilha)
     planilha_exists _load_wind_clim_from_era5_csvs base_csv
     nanpercentile95 IRRAD_SCALE MODEL OUT_SAM_CSV_DIR sep).
#[local] Abbreviation run_sam' :=
  (run_sam_from_csv basename LAT LON ELEV TZ pvwatts elapsed round_).
#[local] Abbreviation run_target' :=
  (run_target _load_nex_one_year_monthly _load_nex_hist_monthly
     _load_hurs_hist_monthly_from_dir planilha planilha_exists
     _load_wind_clim_from_era5_csvs base_csv nanpercentile95 IRRAD_SCALE
     MODEL OUT_SAM_CSV_DIR sep basename LAT LON ELEV TZ pvwatts elapsed round_
     str_float fmt_3f).
#[local] Abbreviation year_step' :=
  (year_step _load_nex_one_year_monthly _load_nex_hist_monthly
     _load_hurs_hist_monthly_from_dir planilha planilha_exists
     _load_wind_clim_from_era5_csvs base_csv nanpercentile95 IRRAD_SCALE
     MODEL OUT_SAM_CSV_DIR LOG_DIR sep basename SCENARIOS LAT LON ELEV TZ pvwatts
     elapsed round_ str_float fmt_3f).
#[local] Abbreviation main_loop' :=
  (main_loop _load_nex_one_year_monthly _load_nex_hist_monthly
     _load_hurs_hist_monthly_from_dir planilha planilha_exists
     _load_wind_clim_from_era5_csvs base_csv nanpercentile95 IRRAD_SCALE
     MODEL OUT_SAM_CSV_DIR LOG_DIR sep basename SCENARIOS YEARS LAT LON ELEV TZ pvwatts
     elapsed round_ str_float fmt_3f).

(** The three ways a target can end. *)
Lemma run_target_cases (ssp : string) (year : Z) (out : list string) :
  exists r l out',
    run_target' ssp year out = (Ok (r, l), out')
    /\ res_modelo r = MODEL /\ res_ssp r = result_ssp ssp year /\ res_ano r = year
    /\ ((exists p f o1 res,
            morph' ssp year out = (Ok (p, f), o1)
            /\ validate_sam_csv basename p f = Ok tt
            /\ run_sam' p f = Ok res
            /\ res_sam r = Some res /\ res_erro r = None /\ l = LogJson r)
        \/ (exists p f o1 e,
               morph' ssp year out = (Ok (p, f), o1)
               /\ validate_sam_csv basename p f = Ok tt
               /\ run_sam' p f = Raise e
               /\ res_sam r = None
               /\ res_erro r = Some ("SAM falhou: " ++ exn_str e)
               /\ l = LogErro ("SAM falhou: " ++ exn_str e))
        \/ (exists e,
               ((exists o1, morph' ssp year out = (Raise e, o1))
                \/ (exists p f o1, morph' ssp year out = (Ok (p, f), o1)
                                   /\ validate_sam_csv basename p f = Raise e))
               /\ res_sam r = None
               /\ res_erro r = Some (exn_str e)
               /\ l = LogErro (exn_str e))).
Proof.
  unfold run_target, try_except, bind, print, lift, ret.
  destruct (morph' ssp year out) as [[[p f] | e] o1] eqn:Em.
  - cbn [fst snd].
    destruct (validate_sam_csv basename p f) as [[] | e] eqn:Ev.
    + destruct (run_sam' p f) as [res | e] eqn:Es.
      * do 3 eexists. split; [reflexivity |].
        split; [reflexivity |]. split; [reflexivity |]. split; [reflexivity |].
        left. exists p, f, o1, res. repeat split; assumption.
      * do 3 eexists. split; [reflexivity |].
        split; [reflexivity |]. split; [reflexivity |]. split; [reflexivity |].
        right. left. exists p, f, o1, e. repeat split; assumption.
    + do 3 eexists. split; [reflexivity |].
      split; [reflexivity |]. split; [reflexivity |]. split; [reflexivity |].
      right. right. exists e. split; [| repeat split].
      right. exists p, f, o1. split; [reflexivity | assumption].
  - do 3 eexists. split; [reflexivity |].
    split; [reflexivity |]. split; [reflexivity |]. split; [reflexivity |].
    right. right. exists e. split; [| repeat split].
    left. exists o1. reflexivity.
Qed.

Lemma dict_has_set {V} (d : list (string * V)) (k k' : string) (v : V) :
  dict_has String.eqb (dict_set String.eqb d k v) k'
  = String.eqb k k' || dict_has String.eqb d k'.
Proof.
  unfold dict_has. destruct (String.eqb_spec k k') as [<- | Hne].
  - rewrite dict_get_set_same. reflexivity.
  - rewrite dict_get_set_other by exact Hne. reflexivity.
Qed.

(** The years the loop runs for a scenario. *)
#[local] Abbreviation runs ssp :=
  (filter (fun year => negb (Z.ltb year 2015 && negb (String.eqb ssp (hd "" SCENARIOS))))).
#[local] Abbreviation log_path ssp year := (LOG_DIR ++ sep ++ log_file_name ssp year).
#[local] Abbreviation targets' := (targets SCENARIOS YEARS).

Lemma forM_years (ssp : string) (years : list Z) (st : Run) (out : list string) :
  exists rs logs out',
    forM years st (year_step' ssp) out = (Ok ((fst st ++ rs)%list, logs), out')
    /\ map result_key rs = map (fun y => (result_ssp ssp y, y)) (runs ssp years)
    /\ (forall r, In r rs -> res_modelo r = MODEL)
    /\ (forall path,
          dict_has String.eqb logs path = true
          <-> dict_has String.eqb (snd st) path = true
              \/ exists y, In y (runs ssp years) /\ path = log_path ssp y).
Proof.
  revert st out. induction years as [|y years IH]; intros st out.
  - exists [], (snd st), out. cbn [forM filter map]. unfold ret.
    rewrite app_nil_r. split; [destruct st; reflexivity |].
    split; [reflexivity |]. split; [intros r [] |].
    intro path. split; [intro H; left; exact H | intros [H | (y & [] & _)]; exact H].
  - cbn [forM filter]. unfold bind at 1. unfold year_step at 1.
    destruct (Z.ltb y 2015 && negb (String.eqb ssp (hd "" SCENARIOS))) eqn:Eskip; cbn [negb].
    + unfold ret at 1. apply IH.
    + unfold bind at 1.
      destruct (run_target_cases ssp y out) as (r & l & o1 & Hrun & Hmod & Hssp & Hano & _).
      rewrite Hrun. unfold ret at 1. cbn [fst snd].
      destruct (IH ((fst st ++ [r])%list, dict_set String.eqb (snd st) (log_path ssp y) l) o1)
        as (rs & logs & out' & Hfor & Hkeys & Hmods & Hlogs).
      cbn [fst snd] in Hfor, Hlogs.
      exists (r :: rs), logs, out'.
      split; [rewrite Hfor, <- app_assoc; reflexivity |].
      split; [cbn [map]; rewrite Hkeys; unfold result_key; rewrite Hssp, Hano; reflexivity |].
      split; [intros r' [<- | Hr']; [exact Hmod | apply Hmods; exact Hr'] |].
      intro path. rewrite Hlogs, dict_has_set. split.
      * intros [H | (y' & Hy' & ->)].
        -- apply orb_true_iff in H. destruct H as [H | H]; [| left; exact H].
           apply String.eqb_eq in H. right. exists y. split; [left; reflexivity | auto].
        -- right. exists y'. split; [right; exact Hy' | reflexivity].
      * intros [H | (y' & [<- | Hy'] & ->)].
        -- left. rewrite H. apply orb_true_r.
        -- left. rewrite String.eqb_refl. reflexivity.
        -- right. exists y'. split; [exact Hy' | reflexivity].
Qed.

Lemma forM_scenarios (scens : list string) (st : Run) (out : list string) :
  exists rs logs out',
    forM scens st (fun st ssp => forM YEARS st (year_step' ssp)) out
    = (Ok ((fst st ++ rs)%list, logs), out')
    /\ map result_key rs
       = map (fun t => (result_ssp (fst t) (snd t), snd t))
             (flat_map (fun ssp => map (fun year => (ssp, year)) (runs ssp YEARS)) scens)
    /\ (forall r, In r rs -> res_modelo r = MODEL)
    /\ (forall path,
          dict_has String.eqb logs path = true
          <-> dict_has String.eqb (snd st) path = true
              \/ exists t,
                   In t (flat_map (fun ssp => map (fun year => (ssp, year)) (runs ssp YEARS))
                                  scens)
                   /\ path = log_path (fst t) (snd t)).
Proof.
  revert st out. induction scens as [|ssp scens IH]; intros st out.
  - exists [], (snd st), out. cbn [forM flat_map map]. unfold ret.
    rewrite app_nil_r. split; [destruct st; reflexivity |].
    split; [reflexivity |]. split; [intros r [] |].
    intro path. split; [intro H; left; exact H | intros [H | (y & [] & _)]; exact H].
  - cbn [forM flat_map]. unfold bind at 1.
    destruct (forM_years ssp YEARS st out) as (rs1 & logs1 & o1 & H1 & Hk1 & Hm1 & Hl1).
    rewrite H1.
    destruct (IH ((fst st ++ rs1)%list, logs1) o1) as (rs2 & logs2 & o2 & H2 & Hk2 & Hm2 & Hl2).
    cbn [fst snd] in H2, Hl2.
    exists (rs1 ++ rs2)%list, logs2, o2.
    split; [rewrite H2, <- app_assoc; reflexivity |].
    split; [rewrite !map_app, Hk1, Hk2, map_map; reflexivity |].
    split; [intros r Hr; apply in_app_or in Hr; destruct Hr; [apply Hm1 | apply Hm2]; assumption |].
    intro path. rewrite Hl2, Hl1. split.
    + intros [[H | (y & Hy & ->)] | (t & Ht & ->)].
      * left. exact H.
      * right. exists (ssp, y). split; [| reflexivity].
        apply in_or_app. left. apply in_map. exact Hy.
      * right. exists t. split; [apply in_or_app; right; exact Ht | reflexivity].
    + intros [H | (t & Ht & ->)]; [left; left; exact H |].
      apply in_app_or in Ht. destruct Ht as [Ht | Ht].
      * apply in_map_iff in Ht. destruct Ht as (y & <- & Hy).
        left. right. exists y. split; [exact Hy | reflexivity].
      * right. exists t. split; [exact Ht | reflexivity].
Qed.

(** X15. The loops of [main] never stop on an exception of the morph,
    of the validator or of SAM: they end with one record for every
    target (each scenario with each year, the years before 2015 only
    under the first scenario), in the order of the loops, filed under
    the scenario ["historical"] for the years before 2015; and the log
    files written are exactly those of the targets. *)
Theorem main_loop_records (out : list string) :
  exists results logs out',
    main_loop' out = (Ok (results, logs), out')
    /\ map result_key results
       = map (fun t => (result_ssp (fst t) (snd t), snd t)) targets'
    /\ (forall r, In r results -> res_modelo r = MODEL)
    /\ (forall path,
          dict_has String.eqb logs path = true
          <-> exists t, In t targets' /\ path = log_path (fst t) (snd t)).
Proof.
  destruct (forM_scenarios SCENARIOS ([], []) out) as (rs & logs & out' & H & Hk & Hm & Hl).
  exists rs, logs, out'. split; [exact H |]. split; [exact Hk |]. split; [exact Hm |].
  intro path. rewrite Hl. cbn [snd]. unfold dict_has at 1. cbn [dict_get].
  split; [intros [H' | H']; [discriminate H' | exact H'] | intro H'; right; exact H'].
Qed.

(** The table SAM is given. *)
Lemma run_sam_from_csv_inv (path : string) (f : Csv) (res : SamRes) :
  run_sam' path f = Ok res ->
  len (drop_leap_day (with_datetime (csv_rows f))) = 8760
  /\ exists o,
       pvwatts (df_to_solar_resource LAT LON ELEV TZ
                  (drop_leap_day (with_datetime (csv_rows f)))) = Ok o
       /\ res = mkSamRes (basename path)
                         (round_ (fdiv (annual_energy o) (Fz 1000)) 3)
                         (fdiv (out_capacity_factor o) (Fz 100))
                         (ac_monthly o) (round_ (elapsed path) 2).
Proof.
  unfold run_sam_from_csv. fold (drop_leap_day (with_datetime (csv_rows f))).
  destruct (Z.eqb_spec (len (drop_leap_day (with_datetime (csv_rows f)))) 8760) as [Hl | Hl];
    cbn [negb]; [| discriminate].
  destruct (pvwatts _) as [o |]; [| discriminate].
  intro H. injection H as <-. split; [exact Hl |]. exists o. split; reflexivity.
Qed.

(** X16. One target of [main] always ends with a record and a log
    text, whatever was raised on the way.  The record has no error
    exactly when it carries the figures of SAM; in that case the file
    the morph wrote has 8760 lines without NaN, it passed the validator,
    and the log holds the record; otherwise the log holds the line of
    the error the record names. *)
Theorem main_target_record (ssp : string) (year : Z) (out : list string) :
  exists r l out',
    run_target' ssp year out = (Ok (r, l), out')
    /\ result_key r = (result_ssp ssp year, year)
    /\ (res_erro r = None <-> res_sam r <> None)
    /\ (res_erro r = None ->
        l = LogJson r
        /\ exists p f o1 res,
             morph' ssp year out = (Ok (p, f), o1)
             /\ validate_sam_csv basename p f = Ok tt
             /\ len (csv_rows f) = 8760
             /\ any_nan (with_datetime (csv_rows f)) = false
             /\ run_sam' p f = Ok res /\ res_sam r = Some res)
    /\ (forall m, res_erro r = Some m -> l = LogErro m).
Proof.
  destruct (run_target_cases ssp year out) as (r & l & out' & Hrun & _ & Hssp & Hano & Hc).
  exists r, l, out'. split; [exact Hrun |].
  split; [unfold result_key; rewrite Hssp, Hano; reflexivity |].
  destruct Hc as [(p & f & o1 & res & Hm & Hv & Hs & Hrs & He & Hl)
                 | [(p & f & o1 & e & Hm & Hv & Hs & Hrs & He & Hl)
                   | (e & _ & Hrs & He & Hl)]].
  - split; [rewrite He, Hrs; split; [discriminate | reflexivity] |].
    split; [| intros m Hm'; rewrite He in Hm'; discriminate Hm'].
    intros _. split; [exact Hl |]. exists p, f, o1, res.
    destruct (morph_one_year_file _ _ _ _ _ _ _ _ _ _ _ _ _ _ _ _ _ _ Hm) as (df & Hf & Hlen & _).
    destruct (validate_sam_csv_inv _ _ _ Hv) as (Hc & Hn & _).
    repeat split; try assumption.
    rewrite <- (with_datetime_len _ Hc). rewrite Hf.
    rewrite (proj1 (with_datetime_to_csv df)). exact Hlen.
  - split; [rewrite He, Hrs; split; [discriminate | intro H; contradiction] |].
    split; [rewrite He; discriminate |].
    intros m Hm'. rewrite He in Hm'. injection Hm' as <-. exact Hl.
  - split; [rewrite He, Hrs; split; [discriminate | intro H; contradiction] |].
    split; [rewrite He; discriminate |].
    intros m Hm'. rewrite He in Hm'. injection Hm' as <-. exact Hl.
Qed.

(** X17. A file the validator accepts never trips the assertion of
    [run_sam_from_csv]: SAM is executed on it, and every array of the
    solar resource it is given has 8760 entries, the minutes all 0. *)
Theorem validated_file_reaches_sam (path : string) (f : Csv) :
  validate_sam_csv basename path f = Ok tt ->
  let df := drop_leap_day (with_datetime (csv_rows f)) in
  let sr := df_to_solar_resource LAT LON ELEV TZ df in
  run_sam' path f
  = match pvwatts sr with
    | Raise e => Raise e
    | Ok o => Ok (mkSamRes (basename path)
                           (round_ (fdiv (annual_energy o) (Fz 1000)) 3)
                           (fdiv (out_capacity_factor o) (Fz 100))
                           (ac_monthly o) (round_ (elapsed path) 2))
    end
  /\ len (sr_year sr) = 8760 /\ len (sr_month sr) = 8760 /\ len (sr_day sr) = 8760
  /\ len (sr_hour sr) = 8760 /\ len (sr_minute sr) = 8760
  /\ len (sr_gh sr) = 8760 /\ len (sr_dn sr) = 8760 /\ len (sr_df sr) = 8760
  /\ len (sr_tdry sr) = 8760 /\ len (sr_wspd sr) = 8760 /\ len (sr_rh sr) = 8760
  /\ (forall m, In m (sr_minute sr) -> m = 0).
Proof.
  intros Hv df sr. destruct (validate_sam_csv_inv _ _ _ Hv) as (_ & _ & Hl).
  fold df in Hl. split.
  - unfold run_sam_from_csv. fold (drop_leap_day (with_datetime (csv_rows f))). fold df.
    rewrite Hl. reflexivity.
  - unfold sr, df_to_solar_resource.
    cbn [sr_year sr_month sr_day sr_hour sr_minute sr_gh sr_dn sr_df sr_tdry sr_wspd sr_rh].
    rewrite !len_map.
    repeat match goal with |- _ /\ _ => split end; try exact Hl.
    intros m Hm. apply in_map_iff in Hm. destruct Hm as (h & <- & _). reflexivity.
Qed.

Lemma NoDup_map_on {A B} (g : A -> B) (l : list A) :
  NoDup l -> (forall x y, In x l -> In y l -> g x = g y -> x = y) -> NoDup (map g l).
Proof.
  induction 1 as [| a l Ha Hnd IH]; intro Hinj; cbn [map]; constructor.
  - intro Hin. apply in_map_iff in Hin. destruct Hin as (x & Hx & Hxl).
    assert (x = a) by (apply Hinj; [right; exact Hxl | left; reflexivity | exact Hx]).
    subst x. contradiction.
  - apply IH. intros x y Hx Hy. apply Hinj; right; assumption.
Qed.

Lemma targets_In (t : string * Z) :
  In t targets'
  <-> In (fst t) SCENARIOS /\ In (snd t) YEARS
      /\ (snd t < 2015 -> fst t = hd "" SCENARIOS).
Proof.
  unfold targets. rewrite in_flat_map. split.
  - intros (ssp & Hs & Ht). apply in_map_iff in Ht. destruct Ht as (y & <- & Hy).
    apply filter_In in Hy. destruct Hy as [Hy Hc]. cbn [fst snd].
    split; [exact Hs |]. split; [exact Hy |]. intro Hlt.
    apply negb_true_iff, andb_false_iff in Hc. destruct Hc as [Hc | Hc].
    + apply Z.ltb_ge in Hc. lia.
    + apply negb_false_iff, String.eqb_eq in Hc. exact Hc.
  - intros (Hs & Hy & Hc). exists (fst t). split; [exact Hs |].
    apply in_map_iff. exists (snd t). split; [destruct t; reflexivity |].
    apply filter_In. split; [exact Hy |].
    apply negb_true_iff, andb_false_iff.
    destruct (Z.ltb_spec (snd t) 2015) as [Hlt | Hge]; [right | left; reflexivity].
    apply negb_false_iff, String.eqb_eq. apply Hc. exact Hlt.
Qed.

Lemma targets_NoDup : NoDup SCENARIOS -> NoDup YEARS -> NoDup targets'.
Proof.
  intros Hs Hy. unfold targets.
  assert (Hsub : forall l, NoDup l -> (forall s, In s l -> In s SCENARIOS) ->
            NoDup (flat_map (fun ssp => map (fun year => (ssp, year)) (runs ssp YEARS)) l)).
  { induction 1 as [| s l Hsl Hnd IH]; intro Hin; cbn [flat_map]; [constructor |].
    apply NoDup_app.
    - apply NoDup_map_on; [apply NoDup_filter; exact Hy |].
      intros x y _ _ H. injection H as H. exact H.
    - apply IH. intros s' Hs'. apply Hin. right. exact Hs'.
    - intros t Ht Ht'. apply in_map_iff in Ht. destruct Ht as (y & <- & _).
      apply in_flat_map in Ht'. destruct Ht' as (s' & Hs' & Ht').
      apply in_map_iff in Ht'. destruct Ht' as (y' & E & _). injection E as -> _.
      contradiction. }
  apply Hsub; [exact Hs | auto].
Qed.

Lemma target_keys_NoDup :
  NoDup SCENARIOS -> NoDup YEARS ->
  NoDup (map (fun t => (result_ssp (fst t) (snd t), snd t)) targets').
Proof.
  intros Hs Hy. apply NoDup_map_on; [apply targets_NoDup; assumption |].
  intros [s1 y1] [s2 y2] H1 H2 E. cbn [fst snd] in E. injection E as Es Ey. subst y2.
  apply targets_In in H1. apply targets_In in H2. cbn [fst snd] in H1, H2.
  destruct H1 as (_ & _ & H1). destruct H2 as (_ & _ & H2).
  unfold result_ssp in Es. destruct (Z.ltb_spec y1 2015) as [Hlt | Hge].
  - rewrite (H1 Hlt), (H2 Hlt). reflexivity.
  - rewrite Es. reflexivity.
Qed.

(** X18. With no scenario and no year listed twice, no two records of
    [main] stand for the same scenario and year, although the years
    before 2015 are all filed under ["historical"]: that is what
    running them under the first scenario only is for. *)
Theorem main_loop_keys_distinct
    (out out' : list string) (results : list Result) (logs : list (string * LogText)) :
  NoDup SCENARIOS -> NoDup YEARS ->
  main_loop' out = (Ok (results, logs), out') ->
  NoDup (map result_key results).
Proof.
  intros Hs Hy H.
  destruct (forM_scenarios SCENARIOS ([], []) out) as (rs & logs' & o' & H' & Hk & _).
  assert (H'' : main_loop' out = (Ok (([] ++ rs)%list, logs'), o')) by exact H'.
  rewrite H'' in H. injection H as <- _ _.
  cbn [fst app]. rewrite Hk. apply target_keys_NoDup; assumption.
Qed.
End MainLoop.

(** Two scenarios and the years 2010 and 2030: three records, 2010 once. *)
Lemma main_loop_keys_distinct_witness :
  NoDup ["ssp245"; "ssp585"] /\ NoDup [2010; 2030]
  /\ exists results logs out',
       sample_main = (Ok (results, logs), out')
       /\ map result_key results
          = [("historical", 2010); ("ssp245", 2030); ("ssp585", 2030)]
       /\ NoDup (map result_key results).
Proof.
  assert (Hs : NoDup ["ssp245"; "ssp585"]).
  { repeat constructor; simpl; intuition discriminate. }
  assert (Hy : NoDup [2010; 2030]).
  { repeat constructor; simpl; intuition discriminate. }
  split; [exact Hs |]. split; [exact Hy |].
  unfold sample_main.
  match goal with
  | |- exists results logs out', ?run = _ /\ _ =>
      destruct run as [[[results logs] | e] out'] eqn:E
  end.
  - exists results, logs, out'. split; [reflexivity |].
    split.
    + apply (f_equal (fun r => match fst r with
                               | Ok st => map result_key (fst st)
                               | Raise _ => []
                               end)) in E.
      cbn [fst] in E. rewrite <- E. vm_compute. reflexivity.
    + exact (main_loop_keys_distinct _ _ _ _ _ _ _ _ _ _ _ _ _ _ _ _ _ _ _ _ _ _ _ _ _
               _ _ _ _ Hs Hy E).
  - exfalso.
    apply (f_equal (fun r => match fst r with Ok _ => true | Raise _ => false end)) in E.
    vm_compute in E. discriminate E.
Defined.

(** The reference file of 2019 handed to SAM as it is. *)
Lemma validated_file_reaches_sam_witness :
  validate_sam_csv (fun p => p) "SAM_2019.csv" (sample_csv 2019) = Ok tt
  /\ run_sam_from_csv (fun p => p) (Fq (-217) 10) (Fq (-413) 10) (Fz 20) (Fz (-3))
                      sample_pvwatts (fun _ => Fq 12 100) (fun x _ => x)
                      "SAM_2019.csv" (sample_csv 2019)
     = Ok (mkSamRes "SAM_2019.csv" (fdiv (Fz 1650123) (Fz 1000))
                    (fdiv (Fq 1884 100) (Fz 100)) (repeat (Fq 1650123 12) 12) (Fq 12 100)).
Proof.
  assert (Hv : validate_sam_csv (fun p => p) "SAM_2019.csv" (sample_csv 2019) = Ok tt)
    by (vm_compute; reflexivity).
  split; [exact Hv |].
  destruct (validated_file_reaches_sam (fun p => p) (Fq (-217) 10) (Fq (-413) 10) (Fz 20)
              (Fz (-3)) sample_pvwatts (fun _ => Fq 12 100) (fun x _ => x)
              "SAM_2019.csv" (sample_csv 2019) Hv) as [Hrun _].
  exact Hrun.
Defined.

(* ----------------------------------------------------------------- *)
(** ** The names [main] writes, read by the consolidator *)

Lemma range_In (a b n : Z) : a <= n < b -> In n (range a b).
Proof.
  intro H. unfold range. apply in_map_iff. exists (Z.to_nat (n - a)).
  split; [lia |]. apply in_seq. lia.
Qed.

Lemma str_int_four (n : Z) :
  1000 <= n <= 9999 ->
  exists d, str_int n = d /\ String.length d = 4%nat
            /\ forall r, four_digits (d ++ r) = Some (n, r).
Proof.
  intro H.
  assert (Hall : forallb reads_back (range 1000 10000) = true) by (vm_compute; reflexivity).
  pose proof (forallb_In _ _ n Hall (range_In 1000 10000 n ltac:(lia))) as Hn.
  unfold reads_back in Hn.
  destruct (str_int n) as [|a [|b [|c [|d [|]]]]]; try discriminate Hn.
  apply andb_prop in Hn. destruct Hn as [Hasc Hn].
  destruct (four_digits (String a (String b (String c (String d ""))))) as [[y [|]] |] eqn:E;
    try discriminate Hn.
  apply Z.eqb_eq in Hn. subst y.
  destruct (four_digits_ascii_inv _ _ _ Hasc E)
    as (x1 & x2 & x3 & x4 & Hy & B1 & B2 & B3 & B4 & Hs).
  exists (String a (String b (String c (String d "")))).
  split; [reflexivity |]. split; [reflexivity |].
  intro r. rewrite Hs. cbn [append].
  assert (Hb : forall x, 0 <= x <= 9 -> byte (ascii_of_N (Z.to_N (x + 48))) = x + 48).
  { intros x Hx. unfold byte. rewrite N_ascii_embedding; [lia |].
    apply N2Z.inj_lt. rewrite Z2N.id by lia. simpl. lia. }
  rewrite four_digits_ascii by (rewrite Hb by assumption; lia).
  rewrite !Hb by assumption. f_equal. f_equal. lia.
Qed.

Lemma star_with_app (rest : string -> bool) (p t : string) :
  rest t = true -> star_with rest (p ++ t) = true.
Proof.
  intro H. induction p as [|c p IH].
  - cbn [append]. destruct t; cbn [star_with]; rewrite H; reflexivity.
  - cbn [append star_with]. rewrite IH. apply orb_true_r.
Qed.

Lemma length_app (a b : string) :
  String.length (a ++ b) = (String.length a + String.length b)%nat.
Proof. induction a as [|c a IH]; cbn [append String.length]; [reflexivity | rewrite IH; reflexivity]. Qed.

(** X19. The log of a target is found again by the consolidator: for a
    scenario among historical, ssp245 and ssp585 and a year of four
    digits, the name [main] gives the log file passes the glob
    [log_*.txt], and the pattern of the consolidator reads from it the
    scenario the record was filed under and the year. *)
Theorem log_name_round_trip (ssp : string) (year : Z) :
  In ssp ["historical"; "ssp245"; "ssp585"] -> 1000 <= year <= 9999 ->
  fnmatch "log_*.txt" (log_file_name ssp year) = true
  /\ match_log_name (log_file_name ssp year) = Some (result_ssp ssp year, year).
Proof.
  intros Hssp Hy. unfold log_file_name.
  destruct (str_int_four year Hy) as (d & -> & _ & Hd).
  assert (Hr : In (result_ssp ssp year) ["historical"; "ssp245"; "ssp585"]).
  { unfold result_ssp. destruct (Z.ltb year 2015); [left; reflexivity | exact Hssp]. }
  set (alt := result_ssp ssp year) in *. clearbody alt. clear Hssp.
  split.
  - change ("log_" ++ alt ++ "_" ++ d ++ ".txt")
      with (String "l" (String "o" (String "g" (String "_" (alt ++ "_" ++ d ++ ".txt"))))).
    rewrite !fnmatch_cons_lit by discriminate.
    rewrite !Ascii.eqb_refl. cbn [andb].
    change (fnmatch "*.txt") with (star_with (fnmatch ".txt")).
    rewrite <- !append_assoc. apply star_with_app. reflexivity.
  - unfold match_log_name.
    change (strip_prefix "log_" ("log_" ++ alt ++ "_" ++ d ++ ".txt"))
      with (Some (alt ++ "_" ++ d ++ ".txt")).
    unfold match_log_alt.
    destruct Hr as [<- | [<- | [<- | []]]].
    + change (strip_prefix ("historical" ++ "_") ("historical" ++ "_" ++ d ++ ".txt"))
        with (Some (d ++ ".txt")).
      cbv beta iota. rewrite Hd. reflexivity.
    + change (strip_prefix ("historical" ++ "_") ("ssp245" ++ "_" ++ d ++ ".txt"))
        with (@None string).
      change (strip_prefix ("ssp245" ++ "_") ("ssp245" ++ "_" ++ d ++ ".txt"))
        with (Some (d ++ ".txt")).
      cbv beta iota. rewrite Hd. reflexivity.
    + change (strip_prefix ("historical" ++ "_") ("ssp585" ++ "_" ++ d ++ ".txt"))
        with (@None string).
      change (strip_prefix ("ssp245" ++ "_") ("ssp585" ++ "_" ++ d ++ ".txt"))
        with (@None string).
      change (strip_prefix ("ssp585" ++ "_") ("ssp585" ++ "_" ++ d ++ ".txt"))
        with (Some (d ++ ".txt")).
      cbv beta iota. rewrite Hd. reflexivity.
Qed.

Lemma log_name_round_trip_witness :
  In "ssp245" ["historical"; "ssp245"; "ssp585"] /\ 1000 <= 2010 <= 9999
  /\ log_file_name "ssp245" 2010 = "log_historical_2010.txt"
  /\ fnmatch "log_*.txt" (log_file_name "ssp245" 2010) = true
  /\ match_log_name (log_file_name "ssp245" 2010) = Some ("historical", 2010).
Proof.
  assert (H1 : In "ssp245" ["historical"; "ssp245"; "ssp585"]) by (right; left; reflexivity).
  assert (H2 : 1000 <= 2010 <= 9999) by lia.
  split; [exact H1 |]. split; [exact H2 |]. split; [reflexivity |].
  exact (log_name_round_trip "ssp245" 2010 H1 H2).
Defined.

Lemma digit_bytes_no_underscore (d : string) :
  digit_bytes d -> ~ In "_"%char (list_ascii_of_string d).
Proof.
  intros Hd Hin. destruct (Hd _ Hin) as [H | H]; vm_compute in H; destruct H; congruence.
Qed.

Lemma append_inv_tail (a b t : string) : a ++ t = b ++ t -> a = b.
Proof.
  intro H. apply (f_equal list_ascii_of_string) in H.
  rewrite !list_ascii_app in H. apply app_inv_tail in H.
  rewrite <- (string_of_list_ascii_of_string a), <- (string_of_list_ascii_of_string b).
  rewrite H. reflexivity.
Qed.

Lemma match_year_here_inv (s : string) (y : Z) :
  match_year_here s = Some y ->
  exists d e, s = "_" ++ d ++ "_morph.csv" ++ e /\ digit_bytes d
              /\ four_digits (d ++ "_morph.csv" ++ e) = Some (y, "_morph.csv" ++ e)
              /\ (e = "" \/ e = newline).
Proof.
  unfold match_year_here.
  destruct (strip_prefix "_" s) as [r |] eqn:E1; [| discriminate].
  destruct (four_digits r) as [[y' r1] |] eqn:E2; [| discriminate].
  destruct (strip_prefix "_morph.csv" r1) as [e |] eqn:E3; [| discriminate].
  destruct (at_end e) eqn:E4; [| discriminate].
  intro H. injection H as <-.
  apply strip_prefix_app in E1, E3. subst s r1.
  destruct (four_digits_inv _ _ _ E2) as (_ & d & Hr & Hd).
  exists d, e.
  split; [rewrite Hr; reflexivity |]. split; [exact Hd |].
  split; [rewrite <- Hr; exact E2 | apply at_end_cases; exact E4].
Qed.

(** The year pattern finds the year at the end of the name, whatever
    comes before it. *)
Lemma search_year_suffix (p d : string) (y : Z) :
  (forall r, four_digits (d ++ r) = Some (y, r)) ->
  search_year (p ++ "_" ++ d ++ "_morph.csv") = Some y.
Proof.
  intros Hd.
  assert (Hhere : match_year_here ("_" ++ d ++ "_morph.csv") = Some y).
  { unfold match_year_here.
    change (strip_prefix "_" ("_" ++ d ++ "_morph.csv")) with (Some (d ++ "_morph.csv")).
    cbv beta iota. rewrite Hd. reflexivity. }
  induction p as [|c p IH].
  - cbn [append]. change (String "_" (d ++ "_morph.csv")) with ("_" ++ d ++ "_morph.csv").
    destruct ("_" ++ d ++ "_morph.csv") eqn:E; cbn [search_year]; rewrite Hhere; reflexivity.
  - change ((String c p) ++ "_" ++ d ++ "_morph.csv")
      with (String c (p ++ "_" ++ d ++ "_morph.csv")).
    cbn [search_year].
    destruct (match_year_here (String c (p ++ "_" ++ d ++ "_morph.csv"))) as [y' |] eqn:E;
      [| exact IH].
    exfalso. apply match_year_here_inv in E.
    destruct E as (d' & e & Hs & Hd' & _ & He).
    destruct He as [-> | ->].
    + (* the digits of the earlier match would hold the [_] before [d] *)
      assert (E1 : String c (p ++ "_" ++ d ++ "_morph.csv")
                   = (String c (p ++ "_" ++ d)) ++ "_morph.csv").
      { cbn [append]. rewrite !append_assoc. reflexivity. }
      assert (E2 : "_" ++ d' ++ "_morph.csv" ++ "" = ("_" ++ d') ++ "_morph.csv").
      { rewrite !append_assoc. reflexivity. }
      rewrite E1, E2 in Hs. apply append_inv_tail in Hs.
      cbn [append] in Hs. injection Hs as _ Hs.
      apply (digit_bytes_no_underscore d' Hd').
      rewrite <- Hs, list_ascii_app. apply in_or_app. right. left. reflexivity.
    + assert (E1 : String c (p ++ "_" ++ d ++ "_morph.csv")
                   = (String c p ++ "_" ++ d ++ "_morph.cs") ++ String "v" "").
      { rewrite !append_assoc. reflexivity. }
      assert (E2 : "_" ++ d' ++ "_morph.csv" ++ newline
                   = ("_" ++ d' ++ "_morph.csv") ++ String (ascii_of_nat 10) "").
      { rewrite !append_assoc. reflexivity. }
      rewrite E1, E2 in Hs.
      apply (f_equal last_char) in Hs. rewrite !last_char_app in Hs.
      discriminate Hs.
Qed.

(** X20. The file of a target is found again by the consolidator: for
    a scenario directory among historical, ssp245 and ssp585 and a year
    of four digits, whatever the model is called, the name
    [morph_one_year] gives the file passes the glob of its directory,
    the year pattern reads the year from it, and, the output directory
    being the model's directory under [DIR_CSVS], the path is the one
    the consolidator indexes. *)
Theorem csv_name_round_trip (MODEL DIR_CSVS sep ssp : string) (year : Z) :
  In ssp ["historical"; "ssp245"; "ssp585"] -> 1000 <= year <= 9999 ->
  let sub := out_subdir ssp year in
  let name := morph_csv_name MODEL sub year in
  fnmatch ("SAM_*_" ++ sub ++ "_*_morph.csv") name = true
  /\ search_year name = Some year
  /\ out_path MODEL (DIR_CSVS ++ sep ++ MODEL) sep ssp year
     = csv_path MODEL DIR_CSVS sep sub name.
Proof.
  intros Hssp Hy sub name.
  assert (Hsub : In sub ["historical"; "ssp245"; "ssp585"]).
  { unfold sub, out_subdir. destruct (Z.ltb year 2015); [left; reflexivity | exact Hssp]. }
  assert (Hpath : out_path MODEL (DIR_CSVS ++ sep ++ MODEL) sep ssp year
                  = csv_path MODEL DIR_CSVS sep sub name).
  { unfold out_path, csv_path, name, morph_csv_name, sub. rewrite !append_assoc. reflexivity. }
  split; [| split; [| exact Hpath]]; clear Hpath; clearbody sub; unfold name, morph_csv_name;
    destruct (str_int_four year Hy) as (d & Hstr & Hlen & Hd).
  - rewrite Hstr.
    change ("SAM_*_" ++ sub ++ "_*_morph.csv")
      with (String "S" (String "A" (String "M" (String "_" ("*_" ++ sub ++ "_*_morph.csv"))))).
    change ("SAM_" ++ MODEL ++ "_" ++ sub ++ "_" ++ d ++ "_morph.csv")
      with (String "S" (String "A" (String "M" (String "_"
              (MODEL ++ "_" ++ sub ++ "_" ++ d ++ "_morph.csv"))))).
    rewrite !fnmatch_cons_lit by discriminate.
    rewrite !Ascii.eqb_refl. cbn [andb].
    change (fnmatch ("*_" ++ sub ++ "_*_morph.csv"))
      with (star_with (fnmatch ("_" ++ sub ++ "_*_morph.csv"))).
    apply star_with_app.
    assert (Hyear : fnmatch "*_morph.csv" (d ++ "_morph.csv") = true).
    { change (fnmatch "*_morph.csv") with (star_with (fnmatch "_morph.csv")).
      apply star_with_app. reflexivity. }
    destruct Hsub as [<- | [<- | [<- | []]]]; exact Hyear.
  - rewrite Hstr.
    replace ("SAM_" ++ MODEL ++ "_" ++ sub ++ "_" ++ d ++ "_morph.csv")
      with (("SAM_" ++ MODEL ++ "_" ++ sub) ++ "_" ++ d ++ "_morph.csv")
      by (rewrite !append_assoc; reflexivity).
    apply search_year_suffix; assumption.
Qed.

Lemma csv_name_round_trip_witness :
  In "ssp585" ["historical"; "ssp245"; "ssp585"] /\ 1000 <= 2040 <= 9999
  /\ morph_csv_name "ACCESS-CM2" (out_subdir "ssp585" 2040) 2040
     = "SAM_ACCESS-CM2_ssp585_2040_morph.csv"
  /\ fnmatch ("SAM_*_" ++ out_subdir "ssp585" 2040 ++ "_*_morph.csv")
             (morph_csv_name "ACCESS-CM2" (out_subdir "ssp585" 2040) 2040) = true
  /\ search_year (morph_csv_name "ACCESS-CM2" (out_subdir "ssp585" 2040) 2040) = Some 2040.
Proof.
  assert (H1 : In "ssp585" ["historical"; "ssp245"; "ssp585"])
    by (right; right; left; reflexivity).
  assert (H2 : 1000 <= 2040 <= 9999) by lia.
  split; [exact H1 |]. split; [exact H2 |]. split; [reflexivity |].
  destruct (csv_name_round_trip "ACCESS-CM2" "SAM_CSV_MORPH" "/" "ssp585" 2040 H1 H2)
    as (Hg & Hs & _).
  split; [exact Hg | exact Hs].
Defined.

(* ----------------------------------------------------------------- *)
(** ** The rows of the consolidated table *)

Lemma ascii_compare_N (a b : ascii) :
  Ascii.compare a b = N.compare (N_of_ascii a) (N_of_ascii b).
Proof. reflexivity. Qed.

Lemma string_compare_trans (a b c : string) :
  String.compare a b = Lt -> String.compare b c = Lt -> String.compare a c = Lt.
Proof.
  revert b c. induction a as [|x a IH]; intros [|y b] [|z c]; cbn [String.compare];
    try congruence.
  rewrite !ascii_compare_N.
  destruct (N.compare_spec (N_of_ascii x) (N_of_ascii y)) as [Exy | Lxy | Gxy];
    destruct (N.compare_spec (N_of_ascii y) (N_of_ascii z)) as [Eyz | Lyz | Gyz];
    try congruence; intros H1 H2.
  - rewrite Exy, Eyz, N.compare_refl. exact (IH _ _ H1 H2).
  - rewrite Exy. apply N.compare_lt_iff in Lyz. rewrite Lyz. reflexivity.
  - rewrite <- Eyz. apply N.compare_lt_iff in Lxy. rewrite Lxy. reflexivity.
  - assert (L : (N_of_ascii x < N_of_ascii z)%N) by lia.
    apply N.compare_lt_iff in L. rewrite L. reflexivity.
Qed.

Lemma string_ltb_irrefl (a : string) : String.ltb a a = false.
Proof.
  unfold String.ltb. destruct (String.compare a a) eqn:E; try reflexivity.
  pose proof (String.compare_antisym a a) as H. rewrite E in H. discriminate H.
Qed.

Lemma key_leb_total (a b : Key) : key_leb a b = false -> key_leb b a = true.
Proof.
  unfold key_leb, String.ltb. rewrite (String.compare_antisym (fst a) (fst b)).
  destruct (String.compare (fst b) (fst a)) eqn:E; cbn [CompOpp orb]; try discriminate.
  - apply String.compare_eq_iff in E. rewrite E, String.eqb_refl. cbn [andb].
    intro H. apply Z.leb_gt in H. apply Z.leb_le. lia.
  - reflexivity.
Qed.

Lemma key_leb_trans (a b c : Key) :
  key_leb a b = true -> key_leb b c = true -> key_leb a c = true.
Proof.
  unfold key_leb. intros H1 H2.
  apply orb_true_iff in H1. apply orb_true_iff in H2. apply orb_true_iff.
  destruct H1 as [H1 | H1], H2 as [H2 | H2].
  - left. unfold String.ltb in *.
    destruct (String.compare (fst a) (fst b)) eqn:E1; try discriminate.
    destruct (String.compare (fst b) (fst c)) eqn:E2; try discriminate.
    rewrite (string_compare_trans _ _ _ E1 E2). reflexivity.
  - apply andb_true_iff in H2. destruct H2 as [H2 _]. apply String.eqb_eq in H2.
    left. rewrite <- H2. exact H1.
  - apply andb_true_iff in H1. destruct H1 as [H1 _]. apply String.eqb_eq in H1.
    left. rewrite H1. exact H2.
  - apply andb_true_iff in H1. apply andb_true_iff in H2.
    destruct H1 as [H1 L1], H2 as [H2 L2]. apply String.eqb_eq in H1, H2.
    right. rewrite H1, H2, String.eqb_refl. cbn [andb].
    apply Z.leb_le in L1, L2. apply Z.leb_le. lia.
Qed.

Lemma match_log_name_key (name : string) (k : Key) :
  match_log_name name = Some k ->
  In (fst k) ["historical"; "ssp245"; "ssp585"] /\ 0 <= snd k <= 9999.
Proof.
  intro H.
  assert (Hy : 0 <= snd k <= 9999).
  { destruct (match_log_name_inv _ _ H) as (r1 & r2 & e & _ & Hd & _).
    apply (four_digits_inv _ _ _ Hd). }
  split; [| exact Hy]. unfold match_log_name in H.
  destruct (strip_prefix "log_" name) as [r |]; [| discriminate].
  destruct (match_log_alt "historical" r) as [k1 |] eqn:E1.
  { injection H as <-. apply match_log_alt_inv in E1. destruct E1 as [-> _].
    left. reflexivity. }
  destruct (match_log_alt "ssp245" r) as [k2 |] eqn:E2.
  { injection H as <-. apply match_log_alt_inv in E2. destruct E2 as [-> _].
    right. left. reflexivity. }
  apply match_log_alt_inv in H. destruct H as [-> _]. right. right. left. reflexivity.
Qed.

Lemma search_year_range (s : string) (y : Z) : search_year s = Some y -> 0 <= y <= 9999.
Proof.
  induction s as [|c s IH]; cbn [search_year].
  - destruct (match_year_here "") as [y' |] eqn:E; [| discriminate].
    intro H. injection H as <-. discriminate E.
  - destruct (match_year_here (String c s)) as [y' |] eqn:E; [| exact IH].
    intro H. injection H as <-.
    destruct (match_year_here_inv _ _ E) as (d & e & _ & _ & Hd & _).
    apply (four_digits_inv _ _ _ Hd).
Qed.

Section ConsolidateRows.
Variable MODEL DIR_LOGS DIR_CSVS sep : string.
Variable log_dir : list string.
Variable csv_dir : string -> option (list string).
Variable parse_log_file : string -> Parsed.
Variable path_exists : string -> bool.

#[local] Abbreviation consolidate' :=
  (consolidate MODEL DIR_LOGS DIR_CSVS sep log_dir csv_dir parse_log_file path_exists).
#[local] Abbreviation csv_map' := (build_csv_map MODEL DIR_CSVS sep csv_dir).
#[local] Abbreviation csv_path' := (csv_path MODEL DIR_CSVS sep).

#[local] Abbreviation log_row' :=
  (log_row MODEL DIR_LOGS DIR_CSVS sep parse_log_file path_exists).
#[local] Abbreviation log_rows' :=
  (log_rows MODEL DIR_LOGS DIR_CSVS sep parse_log_file path_exists).
(** The path the consolidator expects for a key the index lacks. *)
#[local] Abbreviation csv_guess k :=
  (DIR_CSVS ++ sep ++ MODEL ++ sep ++ fst k ++ sep
   ++ "SAM_" ++ MODEL ++ "_" ++ fst k ++ "_" ++ str_int (snd k) ++ "_morph.csv").
(** An entry of the index comes from a file of a scenario directory. *)
#[local] Abbreviation indexed kp :=
  (In (fst (fst kp)) ["historical"; "ssp245"; "ssp585"]
   /\ exists names name,
        csv_dir (fst (fst kp)) = Some names /\ In name names
        /\ fnmatch ("SAM_*_" ++ fst (fst kp) ++ "_*_morph.csv") name = true
        /\ search_year name = Some (snd (fst kp))
        /\ snd kp = csv_path' (fst (fst kp)) name).

Lemma dict_set_In {V} (d : list (Key * V)) (k : Key) (v : V) (kv : Key * V) :
  In kv (dict_set key_eqb d k v) -> kv = (k, v) \/ In kv d.
Proof.
  induction d as [|[k0 v0] d IH]; cbn [dict_set].
  - intros [<- | []]. left. reflexivity.
  - destruct (key_eqb k0 k) eqn:E.
    + apply key_eqb_eq in E. subst k0.
      intros [<- | H]; [left; reflexivity | right; right; exact H].
    + intros [<- | H]; [right; left; reflexivity |].
      destruct (IH H) as [-> | H']; [left; reflexivity | right; right; exact H'].
Qed.

Lemma index_csvs_entries (sub : string) (all names : list string) (acc : list (Key * string)) :
  In sub ["historical"; "ssp245"; "ssp585"] -> csv_dir sub = Some all ->
  (forall n, In n names -> In n all) ->
  (forall kp, In kp acc -> indexed kp) ->
  forall kp, In kp (index_csvs MODEL DIR_CSVS sep sub names acc) -> indexed kp.
Proof.
  intros Hsub Hdir. revert acc. induction names as [|n names IH]; intros acc Hall Hacc.
  - exact Hacc.
  - unfold index_csvs. cbn [fold_left]. fold (index_csvs MODEL DIR_CSVS sep sub names).
    apply IH; [intros m Hm; apply Hall; right; exact Hm |].
    destruct (fnmatch ("SAM_*_" ++ sub ++ "_*_morph.csv") n) eqn:Eg; [| exact Hacc].
    destruct (search_year n) as [y |] eqn:Ey; [| exact Hacc].
    intros kp Hkp. apply dict_set_In in Hkp. destruct Hkp as [-> | Hkp]; [| apply Hacc, Hkp].
    cbn [fst snd]. split; [exact Hsub |].
    exists all, n. repeat split; try assumption. apply Hall. left. reflexivity.
Qed.

Lemma build_csv_map_entries (kp : Key * string) : In kp csv_map' -> indexed kp.
Proof.
  unfold build_csv_map. cbn [fold_left].
  assert (Hstep : forall sub acc,
            In sub ["historical"; "ssp245"; "ssp585"] ->
            (forall kp, In kp acc -> indexed kp) ->
            forall kp,
              In kp (match csv_dir sub with
                     | Some names => index_csvs MODEL DIR_CSVS sep sub names acc
                     | None => acc
                     end) -> indexed kp).
  { intros sub acc Hsub Hacc. destruct (csv_dir sub) as [names |] eqn:E; [| exact Hacc].
    apply (index_csvs_entries sub names names acc Hsub E); auto. }
  revert kp. apply Hstep; [right; right; left; reflexivity |].
  apply Hstep; [right; left; reflexivity |].
  apply Hstep; [left; reflexivity |].
  intros kp [].
Qed.

Lemma add_missing_origin (csv_map : list (Key * string)) (rows : list TableRow) (r : TableRow) :
  In r (add_missing MODEL csv_map rows) ->
  In r rows \/ exists k p, In (k, p) csv_map /\ r = sem_log_row MODEL k p.
Proof.
  revert rows. induction csv_map as [|[k p] cm IH]; intros rows; [left; assumption |].
  unfold add_missing. cbn [fold_left fst snd]. fold (add_missing MODEL cm).
  intro H. apply IH in H. destruct H as [H | (k' & p' & H & ->)].
  - destruct (existsb _ rows); cbn [negb] in H; [left; exact H |].
    apply in_app_or in H. destruct H as [H | [<- | []]]; [left; exact H |].
    right. exists k, p. split; [left; reflexivity | reflexivity].
  - right. exists k', p'. split; [right; exact H | reflexivity].
Qed.

Lemma add_missing_keeps (csv_map : list (Key * string)) (rows : list TableRow) (r : TableRow) :
  In r rows -> In r (add_missing MODEL csv_map rows).
Proof.
  revert rows. induction csv_map as [|[k p] cm IH]; intros rows H; [exact H |].
  unfold add_missing. cbn [fold_left fst snd]. fold (add_missing MODEL cm).
  apply IH. destruct (existsb _ rows); cbn [negb]; [exact H |].
  apply in_or_app. left. exact H.
Qed.

Lemma log_rows_origin (csv_map : list (Key * string)) (names : list string)
    (rows : list TableRow) :
  log_rows' csv_map names = Ok rows ->
  (forall r, In r rows ->
     exists name k, In name names /\ match_log_name name = Some k
                    /\ log_row' csv_map name k = Ok r)
  /\ (forall name k, In name names -> match_log_name name = Some k ->
        exists r, In r rows /\ log_row' csv_map name k = Ok r).
Proof.
  revert rows. induction names as [|n names IH]; intros rows H; cbn [log_rows] in H.
  - injection H as <-. split; [intros r [] | intros name k []].
  - destruct (match_log_name n) as [k |] eqn:Ek.
    + destruct (log_row' csv_map n k) as [r0 |] eqn:Er; [| discriminate].
      destruct (log_rows' csv_map names) as [rs |] eqn:Ers; [| discriminate].
      injection H as <-. destruct (IH rs eq_refl) as [IH1 IH2]. split.
      * intros r [<- | Hr].
        -- exists n, k. split; [left; reflexivity | split; assumption].
        -- destruct (IH1 r Hr) as (name & k' & Hin & Hm & Hrow).
           exists name, k'. split; [right; exact Hin | split; assumption].
      * intros name k' [<- | Hin] Hm.
        -- rewrite Ek in Hm. injection Hm as <-. exists r0. split; [left; reflexivity | exact Er].
        -- destruct (IH2 name k' Hin Hm) as (r & Hr & Hrow).
           exists r. split; [right; exact Hr | exact Hrow].
    + destruct (IH rows H) as [IH1 IH2]. split.
      * intros r Hr. destruct (IH1 r Hr) as (name & k' & Hin & Hm & Hrow).
        exists name, k'. split; [right; exact Hin | split; assumption].
      * intros name k' [<- | Hin] Hm; [rewrite Ek in Hm; discriminate Hm |].
        exact (IH2 name k' Hin Hm).
Qed.

(** What the row of a log says. *)
Lemma log_row_fields (csv_map : list (Key * string)) (name : string) (k : Key) (r : TableRow) :
  log_row' csv_map name k = Ok r ->
  row_key r = k
  /\ row_log_arquivo r = DIR_LOGS ++ sep ++ name
  /\ (row_log_status r = "OK" \/ row_log_status r = "ERRO")
  /\ (row_log_status r = "OK"
      <-> ok (parse_log_file name) = true
          /\ forall d, data (parse_log_file name) = JDict d ->
                truthy (jget d "erro" JNull) = false)
  /\ row_caminho_csv r
     = match dict_get key_eqb csv_map k with
       | Some p => p
       | None => if path_exists (csv_guess k) then csv_guess k
                 else csv_guess k ++ " (NAO_ENCONTRADO)"
       end.
Proof.
  unfold log_row. destruct k as [s y]. cbn [fst snd].
  destruct (ok (parse_log_file name)) eqn:Eok; cbn [andb].
  - destruct (truthy (data (parse_log_file name))) eqn:Et.
    + destruct (data (parse_log_file name)) as [| b | x | str | l | d] eqn:Ed; try discriminate.
      destruct (truthy (jget d "erro" JNull)) eqn:Ee; intro H; injection H as <-;
        cbn [row_key row_ssp row_ano row_log_arquivo row_log_status row_caminho_csv].
      * split; [reflexivity |]. split; [reflexivity |]. split; [right; reflexivity |].
        split; [| reflexivity]. split; [discriminate |].
        intros [_ H]. specialize (H d eq_refl). congruence.
      * split; [reflexivity |]. split; [reflexivity |]. split; [left; reflexivity |].
        split; [| reflexivity]. split; [| reflexivity].
        intros _. split; [reflexivity |]. intros d' Hd'. injection Hd' as <-. exact Ee.
    + intro H; injection H as <-;
        cbn [row_key row_ssp row_ano row_log_arquivo row_log_status row_caminho_csv].
      split; [reflexivity |]. split; [reflexivity |]. split; [left; reflexivity |].
      split; [| reflexivity]. split; [| reflexivity].
      intros _. split; [reflexivity |]. intros d' Hd'. rewrite Hd' in Et.
      destruct d' as [| kv d']; [reflexivity | discriminate Et].
  - intro H; injection H as <-;
      cbn [row_key row_ssp row_ano row_log_arquivo row_log_status row_caminho_csv].
    split; [reflexivity |]. split; [reflexivity |]. split; [right; reflexivity |].
    split; [| reflexivity]. split; [discriminate | intros [H _]; discriminate H].
Qed.

(** X21. The table the consolidator saves is in the order of scenario,
    then year. *)
Theorem consolidated_table_sorted (table : list TableRow) :
  consolidate' = Ok table ->
  StronglySorted (fun a b => key_leb (row_key a) (row_key b) = true) table.
Proof.
  intro H.
  destruct (consolidate_inv _ _ _ _ _ _ _ _ _ H) as (rows & _ & _ & ->).
  apply (isort_sorted (fun a b => key_leb (row_key a) (row_key b))).
  - intros a b. apply key_leb_total.
  - intros a b c. apply key_leb_trans.
Qed.

(** X22. Every row of the consolidated table has one of the scenarios
    historical, ssp245 and ssp585 and a year of at most four digits.  It
    either stands for a log file of the directory, with that file's
    path, the status OK when the log parsed and carries no error and
    ERRO otherwise, and as CSV path the indexed one or else the expected
    one, marked when the file does not exist; or it stands for an
    indexed CSV without log, with the status SEM_LOG. *)
Theorem consolidated_table_rows (table : list TableRow) (r : TableRow) :
  consolidate' = Ok table -> In r table ->
  In (row_ssp r) ["historical"; "ssp245"; "ssp585"]
  /\ 0 <= row_ano r <= 9999
  /\ ((exists name,
         In name log_dir /\ fnmatch "log_*.txt" name = true
         /\ match_log_name name = Some (row_key r)
         /\ row_log_arquivo r = DIR_LOGS ++ sep ++ name
         /\ (row_log_status r = "OK" \/ row_log_status r = "ERRO")
         /\ (row_log_status r = "OK"
             <-> ok (parse_log_file name) = true
                 /\ forall d, data (parse_log_file name) = JDict d ->
                       truthy (jget d "erro" JNull) = false)
         /\ row_caminho_csv r
            = match dict_get key_eqb csv_map' (row_key r) with
              | Some p => p
              | None => if path_exists (csv_guess (row_key r)) then csv_guess (row_key r)
                        else csv_guess (row_key r) ++ " (NAO_ENCONTRADO)"
              end)
      \/ (row_log_status r = "SEM_LOG" /\ row_log_arquivo r = ""
          /\ exists names name,
               csv_dir (row_ssp r) = Some names /\ In name names
               /\ fnmatch ("SAM_*_" ++ row_ssp r ++ "_*_morph.csv") name = true
               /\ search_year name = Some (row_ano r)
               /\ row_caminho_csv r = csv_path' (row_ssp r) name)).
Proof.
  intro H.
  destruct (consolidate_inv _ _ _ _ _ _ _ _ _ H) as (rows & Hrows & _ & ->).
  intro Hr.
  apply (Permutation_in _ (isort_perm _ _)) in Hr.
  apply add_missing_origin in Hr. destruct Hr as [Hr | (k & p & Hkp & ->)].
  - destruct (proj1 (log_rows_origin _ _ _ Hrows) r Hr) as (name & k & Hin & Hm & Hrow).
    apply (Permutation_in _ (isort_perm _ _)) in Hin. apply filter_In in Hin.
    destruct Hin as [Hin Hg].
    destruct (log_row_fields _ _ _ _ Hrow) as (Hk & Hf & Hs & Hok & Hc).
    destruct (match_log_name_key _ _ Hm) as [Hssp Hy].
    rewrite <- Hk in Hssp, Hy. cbn [row_key fst snd] in Hssp, Hy.
    split; [exact Hssp |]. split; [exact Hy |]. left.
    exists name. rewrite Hk. split; [exact Hin |]. split; [exact Hg |]. split; [exact Hm |].
    split; [exact Hf |]. split; [exact Hs |]. split; [exact Hok | exact Hc].
  - destruct (build_csv_map_entries _ Hkp) as (Hsub & names & name & Hd & Hn & Hg & Hy & Hp).
    cbn [fst snd] in Hsub, Hd, Hg, Hy, Hp.
    cbn [sem_log_row row_ssp row_ano row_log_status row_log_arquivo row_caminho_csv].
    split; [exact Hsub |]. split; [exact (search_year_range _ _ Hy) |]. right.
    split; [reflexivity |]. split; [reflexivity |].
    exists names, name. repeat split; assumption.
Qed.

(** X23. Every log file of the directory whose name the glob and the
    pattern accept has a row in the table, under the scenario and the
    year of its name and with its path. *)
Theorem consolidated_logs_listed (table : list TableRow) (name : string) (k : Key) :
  consolidate' = Ok table ->
  In name log_dir -> fnmatch "log_*.txt" name = true -> match_log_name name = Some k ->
  exists r, In r table /\ row_key r = k /\ row_log_arquivo r = DIR_LOGS ++ sep ++ name
            /\ row_log_status r <> "SEM_LOG".
Proof.
  intro H.
  destruct (consolidate_inv _ _ _ _ _ _ _ _ _ H) as (rows & Hrows & _ & ->).
  intros Hin Hg Hm.
  assert (Hin' : In name (isort String.leb (filter (fnmatch "log_*.txt") log_dir))).
  { apply (Permutation_in _ (Permutation_sym (isort_perm _ _))).
    apply filter_In. split; assumption. }
  destruct (proj2 (log_rows_origin _ _ _ Hrows) name k Hin' Hm) as (r & Hr & Hrow).
  destruct (log_row_fields _ _ _ _ Hrow) as (Hk & Hf & Hs & _).
  exists r. split.
  - apply (Permutation_in _ (Permutation_sym (isort_perm _ _))).
    apply add_missing_keeps. exact Hr.
  - split; [exact Hk |]. split; [exact Hf |].
    destruct Hs as [-> | ->]; discriminate.
Qed.
End ConsolidateRows.

Lemma consolidated_table_sorted_witness :
  exists table,
    sample_table = Ok table
    /\ map row_key table = [("historical", 2010); ("ssp245", 2030); ("ssp245", 2031)]
    /\ StronglySorted (fun a b => key_leb (row_key a) (row_key b) = true) table.
Proof.
  assert (Hk : match sample_table with
               | Ok t => map row_key t
               | Raise _ => []
               end = [("historical", 2010); ("ssp245", 2030); ("ssp245", 2031)])
    by (vm_compute; reflexivity).
  unfold sample_table in *.
  destruct (consolidate "ACCESS-CM2" "logs" "SAM_CSV_MORPH" "/" sample_log_dir sample_csv_dir
              sample_parse (fun _ => true)) as [table | e] eqn:E; [| discriminate Hk].
  exists table. split; [reflexivity |]. split; [exact Hk |].
  exact (consolidated_table_sorted _ _ _ _ _ _ _ _ table E).
Defined.

Lemma consolidated_table_rows_witness :
  exists table r,
    sample_table = Ok table /\ In r table
    /\ In (row_ssp r) ["historical"; "ssp245"; "ssp585"] /\ 0 <= row_ano r <= 9999.
Proof.
  assert (Hb : match sample_table with Ok (_ :: _) => true | _ => false end = true)
    by (vm_compute; reflexivity).
  unfold sample_table in *.
  destruct (consolidate "ACCESS-CM2" "logs" "SAM_CSV_MORPH" "/" sample_log_dir sample_csv_dir
              sample_parse (fun _ => true)) as [[| r table] | e] eqn:E; try discriminate Hb.
  exists (r :: table), r. split; [reflexivity |]. split; [left; reflexivity |].
  destruct (consolidated_table_rows _ _ _ _ _ _ _ _ (r :: table) r E (or_introl eq_refl))
    as (H1 & H2 & _).
  split; assumption.
Defined.

Lemma consolidated_logs_listed_witness :
  exists table r,
    sample_table = Ok table /\ In r table
    /\ row_key r = ("ssp245", 2030)
    /\ row_log_arquivo r = "logs/log_ssp245_2030.txt".
Proof.
  assert (Hb : match sample_table with Ok _ => true | Raise _ => false end = true)
    by (vm_compute; reflexivity).
  unfold sample_table in *.
  destruct (consolidate "ACCESS-CM2" "logs" "SAM_CSV_MORPH" "/" sample_log_dir sample_csv_dir
              sample_parse (fun _ => true)) as [table | e] eqn:E; [| discriminate Hb].
  destruct (consolidated_logs_listed _ _ _ _ _ _ _ _ table "log_ssp245_2030.txt"
              ("ssp245", 2030) E)
    as (r & Hr & Hk & Hf & _).
  - left. reflexivity.
  - vm_compute. reflexivity.
  - vm_compute. reflexivity.
  - exists table, r. split; [reflexivity |]. split; [exact Hr |]. split; [exact Hk | exact Hf].
Defined.
